(** * ArrowGo synthetic monitoring service: probes, result pipeline,
      scheduler and alert manager, embedded from the Go sources.

    Layout: Go machine integers and clock values; the structs of package
    [monitor]; the probes ([determineStatus], HTTP, SSL, HTTPS, TCP, UDP,
    DNS with its resolver, SMTP, SNMP, ping); the store and the result
    pipeline ([saveResult], [updateUptimePercentage]); the scheduler
    ([AddTarget], [RemoveTarget], [monitorTarget], [checkWorker]); the
    alert manager ([ProcessEvent]).  Theorems follow the definitions.

    Network and database I/O is not executed: every probe takes the
    outcome of its I/O as an argument (a record of what the dial, the
    handshake or the request returned) and the clock readings it takes
    are arguments too. *)

From Stdlib Require Import ZArith Lia Ascii String.
From Stdlib Require Import DecimalString DecimalZ DecimalPos.
From stdpp Require Import gmap strings list fin_maps.

Open Scope Z_scope.

(** ** Go machine integers *)

Module GoInt.

(** Two's complement wrap-around of a [w]-bit signed integer. *)
Definition wrap (w : Z) (x : Z) : Z :=
  (x + 2 ^ (w - 1)) mod 2 ^ w - 2 ^ (w - 1).

Definition int64 (x : Z) : Z := wrap 64 x.
Definition int32 (x : Z) : Z := wrap 32 x.

Definition MaxInt64 : Z := 2 ^ 63 - 1.
Definition MinInt64 : Z := - 2 ^ 63.

(** [byte(x)] keeps the low eight bits. *)
Definition byte (x : Z) : Z := Z.land x 255.

(** [fmt.Sprintf("%d", z)], and [fmt.Sscanf(s, "%d", &z)] on the
    decimal numerals that [Sprintf] produces ([None] stands for a
    non-nil error). *)
Definition Sprintf_d (z : Z) : string :=
  NilZero.string_of_int (Z.to_int z).

Definition Sscanf_d (s : string) : option Z :=
  Z.of_int <$> NilZero.int_of_string s.

End GoInt.

(** ** Package time: instants and durations in nanoseconds *)

Module time.

(** An instant is the number of nanoseconds since Go's zero [Time]
    (January 1, year 1, 00:00:00 UTC); a [Duration] is an int64 count
    of nanoseconds. *)
Definition Time := Z.
Definition Duration := Z.

Definition Nanosecond : Duration := 1.
Definition Millisecond : Duration := 1000000.
Definition Second : Duration := 1000000000.
Definition Hour : Duration := 3600 * Second.
Definition Day : Duration := 24 * Hour.

Definition IsZero (t : Time) : bool := bool_decide (t = 0).

(** [t.Sub(u)]: the difference, saturated to the int64 range. *)
Definition Sub (t u : Time) : Duration :=
  Z.max GoInt.MinInt64 (Z.min GoInt.MaxInt64 (t - u)).

(** [time.Since(t)] and [time.Until(t)] at clock reading [now]. *)
Definition Since (now t : Time) : Duration := Sub now t.
Definition Until (now t : Time) : Duration := Sub t now.

(** [time.Duration(n) * time.Second] for an [int] [n]. *)
Definition Seconds (n : Z) : Duration := GoInt.int64 (n * Second).

(** [t.AddDate(0, 0, days)], on the UTC calendar. *)
Definition AddDays (t : Time) (days : Z) : Time := t + days * Day.

(** [int(d.Hours() / 24)]: the conversion to [int] truncates toward
    zero.  [Hours] returns a float64; the quotient is taken here on the
    integer count of nanoseconds, without the rounding of the float,
    which can give one day more just below a day boundary for
    durations of 171 days and more. *)
Definition WholeDays (d : Duration) : Z := Z.quot d Day.

End time.

(** ** Package monitor: the structs of checker.go *)

Module ErrorDetails.
Record t := mk { Type_ : string; Message : string }.
End ErrorDetails.

Module RequestDetails.
Record t := mk {
  Method : string;
  URL : string;
  Headers : gmap string string;
  Body : string }.
Definition zero : t := mk "" "" ∅ "".
End RequestDetails.

Module ResponseDetails.
Record t := mk {
  StatusCode : Z;
  Headers : gmap string string;
  Body : string;
  ContentLength : Z }.
Definition zero : t := mk 0 ∅ "" 0.
End ResponseDetails.

(** Values stored under [interface{}] in [CheckResult.Data] and in the
    per-certificate maps of the chain. *)
Inductive Value :=
| VInt (z : Z)
| VStr (s : string)
| VBool (b : bool)
| VStrs (l : list string)
| VInts (l : list Z).

Inductive DataValue :=
| DVal (v : Value)
| DChain (chain : list (gmap string Value)).

Module CheckResult.
Record t := mk {
  Status : string;
  ResponseTime : Z;
  Message : string;
  Data : gmap string DataValue;
  Request : RequestDetails.t;
  Response : ResponseDetails.t;
  Error : option ErrorDetails.t }.

(** [&CheckResult{Status: s, ResponseTime: rt, Message: m}]: the other
    fields keep their zero values. *)
Definition basic (s : string) (rt : Z) (m : string) : t :=
  mk s rt m ∅ RequestDetails.zero ResponseDetails.zero None.

Definition with_Status (s : string) (r : t) : t :=
  mk s (ResponseTime r) (Message r) (Data r) (Request r) (Response r) (Error r).
Definition with_ResponseTime (rt : Z) (r : t) : t :=
  mk (Status r) rt (Message r) (Data r) (Request r) (Response r) (Error r).
Definition with_Message (m : string) (r : t) : t :=
  mk (Status r) (ResponseTime r) m (Data r) (Request r) (Response r) (Error r).
Definition with_Data (d : gmap string DataValue) (r : t) : t :=
  mk (Status r) (ResponseTime r) (Message r) d (Request r) (Response r) (Error r).
Definition with_Request (q : RequestDetails.t) (r : t) : t :=
  mk (Status r) (ResponseTime r) (Message r) (Data r) q (Response r) (Error r).
Definition with_Response (p : ResponseDetails.t) (r : t) : t :=
  mk (Status r) (ResponseTime r) (Message r) (Data r) (Request r) p (Error r).
Definition with_Error (e : ErrorDetails.t) (r : t) : t :=
  mk (Status r) (ResponseTime r) (Message r) (Data r) (Request r) (Response r) (Some e).

(** [r.Response.Headers[k] = v]. *)
Definition set_header (k v : string) (r : t) : t :=
  with_Response
    (ResponseDetails.mk (ResponseDetails.StatusCode (Response r))
       (<[k := v]> (ResponseDetails.Headers (Response r)))
       (ResponseDetails.Body (Response r))
       (ResponseDetails.ContentLength (Response r))) r.

Definition header (k : string) (r : t) : option string :=
  ResponseDetails.Headers (Response r) !! k.
End CheckResult.

Module MonitorTarget.
Record t := mk {
  ID : Z;
  Name : string;
  Type_ : string;
  Address : string;
  Port : Z;
  Interval : Z;
  Metadata : gmap string string;
  Enabled : bool;
  (* HTTP/HTTPS *)
  HTTPMethod : string;
  HTTPHeaders : gmap string string;
  HTTPBody : string;
  ResolvedHost : string;
  FollowRedirects : bool;
  MaxRedirects : Z;
  ExpectedStatusCodes : list Z;
  (* DNS *)
  DNSServer : string;
  DNSServerName : string;
  DNSServerType : string;
  (* PING *)
  PingCount : Z;
  PingSize : Z;
  PingTimeout : Z;
  (* SMTP *)
  SMTPUsername : string;
  SMTPPassword : string;
  SMTPUseTLS : bool;
  SMTPMailFrom : string;
  SMTPMailTo : string;
  SMTPCheckStartTLS : bool;
  (* SNMP *)
  SNMPCommunity : string;
  SNMPOID : string;
  SNMPVersion : string;
  SNMPExpectedValue : string;
  SNMPOperator : string;
  (* SSL/TLS *)
  SSLWarnDays : Z;
  SSLCriticalDays : Z;
  SSLCheck : bool;
  SSLGetChain : bool }.

(** A target of kind [typ] checked every 60 seconds (the interval the
    [addMonitor] handler gives a target that names none), with the
    other fields at their zero values. *)
Definition ofType (id : Z) (typ address : string) : t :=
  mk
    id "" typ address 0 60 ∅ false "" ∅ "" "" false 0 [] "" "" "" 0 0 0 ""
    "" false "" "" false "" "" "" "" "" 0 0 false false.

Definition with_ExpectedStatusCodes (codes : list Z) (x : t) : t :=
  mk
    (ID x) (Name x) (Type_ x) (Address x) (Port x) (Interval x)
    (Metadata x) (Enabled x) (HTTPMethod x) (HTTPHeaders x) (HTTPBody x)
    (ResolvedHost x) (FollowRedirects x) (MaxRedirects x) codes
    (DNSServer x) (DNSServerName x) (DNSServerType x) (PingCount x)
    (PingSize x) (PingTimeout x) (SMTPUsername x) (SMTPPassword x)
    (SMTPUseTLS x) (SMTPMailFrom x) (SMTPMailTo x) (SMTPCheckStartTLS x)
    (SNMPCommunity x) (SNMPOID x) (SNMPVersion x) (SNMPExpectedValue x)
    (SNMPOperator x) (SSLWarnDays x) (SSLCriticalDays x) (SSLCheck x)
    (SSLGetChain x).

Definition with_SSL (warn critical : Z) (check getChain : bool) (x : t) : t :=
  mk
    (ID x) (Name x) (Type_ x) (Address x) (Port x) (Interval x)
    (Metadata x) (Enabled x) (HTTPMethod x) (HTTPHeaders x) (HTTPBody x)
    (ResolvedHost x) (FollowRedirects x) (MaxRedirects x)
    (ExpectedStatusCodes x) (DNSServer x) (DNSServerName x)
    (DNSServerType x) (PingCount x) (PingSize x) (PingTimeout x)
    (SMTPUsername x) (SMTPPassword x) (SMTPUseTLS x) (SMTPMailFrom x)
    (SMTPMailTo x) (SMTPCheckStartTLS x) (SNMPCommunity x) (SNMPOID x)
    (SNMPVersion x) (SNMPExpectedValue x) (SNMPOperator x) warn critical
    check getChain.
End MonitorTarget.

(** ** http.go *)

(** [determineStatus(statusCode, expectedCodes)]. *)
Definition determineStatus (statusCode : Z) (expectedCodes : list Z) : string :=
  if bool_decide (length expectedCodes = 0%nat) then
    if bool_decide (200 <= statusCode) && bool_decide (statusCode < 300)
    then "up" else "down"
  else
    if existsb (fun code => bool_decide (statusCode = code)) expectedCodes
    then "up" else "down".

(** Outcome of the I/O performed by [HTTPChecker.Check]: building the
    request, sending it, reading the response.  [sent] are the request
    headers after the defaults were filled in ([cloneHeaders(req.Header)]),
    [headers] the cloned response headers, [body] the stored (possibly
    truncated) body, [resolved_ip] the address recorded after the system
    lookup with its fallbacks, [title] the non-empty title extracted from
    an HTML body, [elapsed] the milliseconds measured by the probe. *)
Module HTTPIO.
Inductive t :=
| NewRequestFailed (err : string) (elapsed : Z)
| DoFailed (err : string) (sent : gmap string string) (elapsed : Z)
| Responded (code : Z) (status_text : string)
    (sent headers : gmap string string) (body : string)
    (content_length : Z) (resolved_ip : string) (title : option string)
    (elapsed : Z).
End HTTPIO.

Definition http_url (target : MonitorTarget.t) : string :=
  let url := MonitorTarget.Address target in
  if negb (String.prefix "http://" url) && negb (String.prefix "https://" url) then
    if bool_decide (MonitorTarget.Type_ target = "http") then "http://" +:+ url
    else if bool_decide (MonitorTarget.Type_ target = "https") then "https://" +:+ url
    else url
  else url.

Definition http_method (target : MonitorTarget.t) : string :=
  if bool_decide (MonitorTarget.HTTPMethod target = "") then "GET"
  else MonitorTarget.HTTPMethod target.

(** [HTTPChecker.Check]: the result and the returned Go error, on the
    runs in which the probe returns.  (For a target with a DNS server
    of its own whose redirects are not followed or are limited the
    probe panics once the request is built; a panic has no outcome
    here.) *)
Definition HTTPChecker_Check (target : MonitorTarget.t) (io : HTTPIO.t)
  : CheckResult.t * option string :=
  let url := http_url target in
  let method := http_method target in
  match io with
  | HTTPIO.NewRequestFailed err elapsed =>
      (CheckResult.basic "down" elapsed ("Failed to create request: " +:+ err), None)
  | HTTPIO.DoFailed err sent elapsed =>
      let result := CheckResult.basic "down" elapsed ("Request failed: " +:+ err) in
      let result :=
        CheckResult.with_Request
          (RequestDetails.mk method url sent (MonitorTarget.HTTPBody target)) result in
      let result :=
        CheckResult.with_Error (ErrorDetails.mk "network_error" err) result in
      (result, None)
  | HTTPIO.Responded code status_text sent headers body content_length
      resolved_ip title elapsed =>
      let status := determineStatus code (MonitorTarget.ExpectedStatusCodes target) in
      let result :=
        CheckResult.basic status elapsed
          ("HTTP " +:+ GoInt.Sprintf_d code +:+ " " +:+ status_text) in
      let result :=
        CheckResult.with_Request
          (RequestDetails.mk method url sent (MonitorTarget.HTTPBody target)) result in
      let result :=
        CheckResult.with_Response
          (ResponseDetails.mk code headers body content_length) result in
      let result := CheckResult.set_header "resolved_ip" resolved_ip result in
      let result :=
        match title with
        | Some ttl => CheckResult.set_header "title" ttl result
        | None => result
        end in
      (result, None)
  end.

(** ** The SSL probe *)

(** What the probe reads from an [x509.Certificate].  [Serial] is the
    output of [formatSerial]; the four text fields are the validity
    bounds as rendered by [Time.Format] with the RFC 3339 layout and
    with the layout 2006-01-02. *)
Module Certificate.
Record t := mk {
  SubjectCN : string;
  IssuerCN : string;
  Serial : string;
  NotBefore_RFC3339 : string;
  NotAfter_RFC3339 : string;
  NotBefore_date : string;
  NotAfter_date : string;
  NotAfter : time.Time;
  IsCA : bool;
  KeyUsage : Z;
  ExtKeyUsage : list Z;
  SignatureAlgorithm : string;
  SubjectOrganization : list string;
  IssuerOrganization : list string;
  DNSNames : list string }.
End Certificate.

(** Outcome of the TLS dial of [SSLChecker.Check].  [address] is the
    [host:port] the probe computed from the target and dialled (scheme
    and path stripped, port 443 by default), [now] the clock reading
    taken by [time.Until], [elapsed] the measured milliseconds.  The
    dial verifies the chain ([InsecureSkipVerify: false]). *)
Module SSLIO.
Inductive t :=
| DialFailed (address err : string) (elapsed : Z)
| Connected (address : string) (certs : list Certificate.t)
    (now : time.Time) (elapsed : Z).
End SSLIO.

Definition nl : string := String (Ascii.ascii_of_nat 10) EmptyString.

(** [int(time.Until(cert.NotAfter).Hours() / 24)]. *)
Definition daysUntilExpiry (now : time.Time) (cert : Certificate.t) : Z :=
  time.WholeDays (time.Until now (Certificate.NotAfter cert)).

(** Lines 113-126 of the probe: status and first message line from the
    day count and the two thresholds of the target. *)
Definition ssl_classify (days criticalDays warnDays : Z) : string * string :=
  if bool_decide (days < 0) then
    ("down", "Certificate expired " +:+ GoInt.Sprintf_d (- days) +:+ " days ago")
  else if bool_decide (days <= criticalDays) then
    ("critical", "Certificate expires in " +:+ GoInt.Sprintf_d days +:+ " days (CRITICAL)")
  else if bool_decide (days <= warnDays) then
    ("warning", "Certificate expires in " +:+ GoInt.Sprintf_d days +:+ " days (WARNING)")
  else
    ("up", "Certificate expires in " +:+ GoInt.Sprintf_d days +:+ " days").

Definition certInfo (now : time.Time) (i : nat) (cert : Certificate.t)
  : gmap string Value :=
  let m : gmap string Value :=
    <["signature_algorithm" := VStr (Certificate.SignatureAlgorithm cert)]>
    (<["ext_key_usage" := VInts (Certificate.ExtKeyUsage cert)]>
    (<["key_usage" := VInt (Certificate.KeyUsage cert)]>
    (<["is_ca" := VBool (Certificate.IsCA cert)]>
    (<["days_until_expiry" := VInt (daysUntilExpiry now cert)]>
    (<["not_after" := VStr (Certificate.NotAfter_RFC3339 cert)]>
    (<["not_before" := VStr (Certificate.NotBefore_RFC3339 cert)]>
    (<["serial" := VStr (Certificate.Serial cert)]>
    (<["issuer_cn" := VStr (Certificate.IssuerCN cert)]>
    (<["subject_cn" := VStr (Certificate.SubjectCN cert)]>
    (<["index" := VInt (Z.of_nat i)]> ∅)))))))))) in
  let m :=
    match Certificate.SubjectOrganization cert with
    | o :: _ => <["subject_org" := VStr o]> m
    | [] => m
    end in
  let m :=
    match Certificate.IssuerOrganization cert with
    | o :: _ => <["issuer_org" := VStr o]> m
    | [] => m
    end in
  match Certificate.DNSNames cert with
  | _ :: _ => <["dns_names" := VStrs (Certificate.DNSNames cert)]> m
  | [] => m
  end.

Definition chainInfo (target : MonitorTarget.t) (now : time.Time)
    (certs : list Certificate.t) : list (gmap string Value) :=
  if MonitorTarget.SSLGetChain target then imap (certInfo now) certs else [].

Definition cert_role (n : nat) (i : nat) (cert : Certificate.t) : string :=
  let role :=
    if Certificate.IsCA cert then
      if bool_decide (S i = n) then "根证书" else "中间证书"
    else "终端证书" in
  GoInt.Sprintf_d (Z.of_nat i + 1) +:+ "." +:+ Certificate.SubjectCN cert
    +:+ "(" +:+ role +:+ ")".

Definition chainSummary (chain : list (gmap string Value))
    (certs : list Certificate.t) : string :=
  let summary :=
    "证书链包含 " +:+ GoInt.Sprintf_d (Z.of_nat (length certs)) +:+ " 个证书" in
  match chain with
  | _ :: _ =>
      summary +:+ ": " +:+ String.concat " -> " (imap (cert_role (length certs)) certs)
  | [] => summary
  end.

(** [SSLChecker.Check]. *)
Definition SSLChecker_Check (target : MonitorTarget.t) (io : SSLIO.t)
  : CheckResult.t * option string :=
  match io with
  | SSLIO.DialFailed address err elapsed =>
      (CheckResult.with_Error (ErrorDetails.mk "ssl_error" err)
         (CheckResult.basic "down" elapsed ("SSL/TLS connection failed: " +:+ err)),
       None)
  | SSLIO.Connected address [] now elapsed =>
      (CheckResult.basic "down" elapsed "No certificates presented", None)
  | SSLIO.Connected address (leafCert :: rest) now elapsed =>
      let certs := leafCert :: rest in
      let days := daysUntilExpiry now leafCert in
      let '(status, message) :=
        ssl_classify days (MonitorTarget.SSLCriticalDays target)
          (MonitorTarget.SSLWarnDays target) in
      let chain := chainInfo target now certs in
      let summary := chainSummary chain certs in
      let details :=
        [ message;
          "颁发机构: " +:+ Certificate.IssuerCN leafCert;
          "主题: " +:+ Certificate.SubjectCN leafCert;
          "序列号: " +:+ Certificate.Serial leafCert;
          "生效日期: " +:+ Certificate.NotBefore_date leafCert;
          "过期日期: " +:+ Certificate.NotAfter_date leafCert;
          summary ] in
      let headers : gmap string string :=
        <["chain_summary" := summary]>
        (<["chain_count" := GoInt.Sprintf_d (Z.of_nat (length certs))]>
        (<["not_after" := Certificate.NotAfter_RFC3339 leafCert]>
        (<["not_before" := Certificate.NotBefore_RFC3339 leafCert]>
        (<["serial" := Certificate.Serial leafCert]>
        (<["subject" := Certificate.SubjectCN leafCert]>
        (<["issuer" := Certificate.IssuerCN leafCert]> ∅)))))) in
      let data : gmap string DataValue :=
        match chain with
        | _ :: _ => <["certificate_chain" := DChain chain]> ∅
        | [] => ∅
        end in
      (CheckResult.mk status elapsed (String.concat nl details) data
         (RequestDetails.mk "SSL" address ∅ "")
         (ResponseDetails.mk days headers "" 0)
         None,
       None)
  end.

(** ** https.go *)

(** The merge of the SSL result into the HTTP result (the block run when
    [sslResult != nil]). *)
Definition mergeSSL (httpResult sslResult : CheckResult.t) : CheckResult.t :=
  let sslData := CheckResult.Data sslResult in
  let data := CheckResult.Data httpResult in
  let data :=
    match sslData !! "certificate_chain" with
    | Some certChain => <["certificate_chain" := certChain]> data
    | None => data
    end in
  let data :=
    match sslData !! "certificate_info" with
    | Some info => <["certificate_info" := info]> data
    | None => data
    end in
  let r := CheckResult.with_Data data httpResult in
  let r :=
    match CheckResult.header "issuer" sslResult with
    | Some issuer => CheckResult.set_header "ssl_issuer" issuer r
    | None => r
    end in
  let r :=
    match CheckResult.header "subject" sslResult with
    | Some subject => CheckResult.set_header "ssl_subject" subject r
    | None => r
    end in
  let r :=
    match CheckResult.header "serial" sslResult with
    | Some serial => CheckResult.set_header "ssl_serial" serial r
    | None => r
    end in
  let r :=
    match sslData !! "certificate_chain" with
    | Some (DChain (leaf :: _)) =>
        match leaf !! "days_until_expiry" with
        | Some (VInt days) =>
            CheckResult.set_header "days_until_expiry" (GoInt.Sprintf_d days) r
        | _ => r
        end
    | _ => r
    end in
  if bool_decide (CheckResult.Status sslResult = "down") then
    CheckResult.with_Message
      (CheckResult.Message r +:+ " (SSL: " +:+ CheckResult.Message sslResult +:+ ")")
      (CheckResult.with_Status "down" r)
  else
    CheckResult.with_Message
      (CheckResult.Message r +:+ " | SSL: " +:+ CheckResult.Message sslResult) r.

(** [HTTPSChecker.Check]: the SSL probe runs first when [SSLCheck] is
    set, then the HTTP probe; [elapsed] is the time measured around
    both. *)
Definition HTTPSChecker_Check (target : MonitorTarget.t)
    (ssl_io : SSLIO.t) (http_io : HTTPIO.t) (elapsed : Z)
  : CheckResult.t * option string :=
  let sslResult :=
    if MonitorTarget.SSLCheck target
    then Some (fst (SSLChecker_Check target ssl_io)) else None in
  let '(httpResult, err) := HTTPChecker_Check target http_io in
  match err with
  | Some e => (httpResult, Some e)
  | None =>
      let httpResult :=
        match sslResult with
        | None => httpResult
        | Some sslResult => mergeSSL httpResult sslResult
        end in
      (CheckResult.with_ResponseTime elapsed httpResult, None)
  end.

(** ** tcp.go and udp.go *)

(** Outcome of a dial: the error, if any, and the measured
    milliseconds. *)
Module DialIO.
Record t := mk { err : option string; elapsed : Z }.
End DialIO.

Definition TCPChecker_Check (target : MonitorTarget.t) (io : DialIO.t)
  : CheckResult.t * option string :=
  match DialIO.err io with
  | Some err =>
      (CheckResult.basic "down" (DialIO.elapsed io)
         ("TCP connection failed: " +:+ err), None)
  | None =>
      (CheckResult.basic "up" (DialIO.elapsed io) "TCP connection successful", None)
  end.

Definition UDPChecker_Check (target : MonitorTarget.t) (io : DialIO.t)
  : CheckResult.t * option string :=
  match DialIO.err io with
  | Some err =>
      (CheckResult.basic "down" (DialIO.elapsed io)
         ("UDP connection failed: " +:+ err), None)
  | None =>
      (CheckResult.basic "up" (DialIO.elapsed io) "UDP connection successful", None)
  end.

(** ** Package net: the two address helpers used by the resolver *)

Module net.

Fixpoint IndexByte (s : string) (c : ascii) : option nat :=
  match s with
  | EmptyString => None
  | String a s' =>
      if Ascii.eqb a c then Some 0%nat else S <$> IndexByte s' c
  end.

Fixpoint LastIndexByte (s : string) (c : ascii) : option nat :=
  match s with
  | EmptyString => None
  | String a s' =>
      match LastIndexByte s' c with
      | Some i => Some (S i)
      | None => if Ascii.eqb a c then Some 0%nat else None
      end
  end.

(** [s[i:]] and [s[:i]]. *)
Definition from (i : nat) (s : string) : string :=
  String.substring i (String.length s - i) s.
Definition upto (i : nat) (s : string) : string :=
  String.substring 0 i s.

Definition missingPort : string := "missing port in address".
Definition tooManyColons : string := "too many colons in address".

(** [net.SplitHostPort]: host and port, or the error text. *)
Definition SplitHostPort (hostport : string) : (string * string) + string :=
  match LastIndexByte hostport ":"%char with
  | None => inr missingPort
  | Some i =>
      let parsed : (string * nat * nat) + string :=
        if String.prefix "[" hostport then
          match IndexByte hostport "]"%char with
          | None => inr "missing ']' in address"
          | Some end_ =>
              if bool_decide (S end_ = String.length hostport) then inr missingPort
              else if bool_decide (S end_ = i) then
                inl (String.substring 1 (end_ - 1) hostport, 1%nat, S end_)
              else if bool_decide (String.get (S end_) hostport = Some ":"%char)
              then inr tooManyColons
              else inr missingPort
          end
        else
          let host := upto i hostport in
          match IndexByte host ":"%char with
          | Some _ => inr tooManyColons
          | None => inl (host, 0%nat, 0%nat)
          end in
      match parsed with
      | inr e => inr e
      | inl (host, j, k) =>
          match IndexByte (from j hostport) "["%char with
          | Some _ => inr "unexpected '[' in address"
          | None =>
              match IndexByte (from k hostport) "]"%char with
              | Some _ => inr "unexpected ']' in address"
              | None => inl (host, from (S i) hostport)
              end
          end
      end
  end.

(** [net.JoinHostPort]. *)
Definition JoinHostPort (host port : string) : string :=
  match IndexByte host ":"%char with
  | Some _ => "[" +:+ host +:+ "]:" +:+ port
  | None => host +:+ ":" +:+ port
  end.

(** A connection, by its layers: a socket obtained from a dialer, or a
    TLS client session over an inner connection that authenticates
    the peer as [serverName]. *)
Inductive Conn :=
| Socket (network address : string)
| TLS (inner : Conn) (serverName : string).

Definition isTLS (c : Conn) : bool :=
  match c with
  | Socket _ _ => false
  | TLS _ _ => true
  end.

(** What a lookup does on the network, in order. *)
Inductive Event :=
| Dial (network address : string)
| Write (c : Conn) (data : list Z)
| Close (c : Conn).

End net.

(** ** Package dns: resolver.go *)

Module dns.

Record DNSQueryResult := mkResult {
  A : list string;
  AAAA : list string;
  CNAME : list string;
  MX : list string;
  TXT : list string;
  NS : list string }.

Definition emptyResult : DNSQueryResult := mkResult [] [] [] [] [] [].

Record Resolver := mkResolver {
  Server : string;
  ServerType : string;
  Timeout : time.Duration }.

Definition NewResolver (server dnsType : string) : Resolver :=
  let dnsType := if bool_decide (dnsType = "") then "udp" else dnsType in
  mkResolver server dnsType (10 * time.Second).

(** The answers of an unpacked [dnsmessage.Message], their bodies
    already rendered as text ([net.IP.String], [Name.String]). *)
Inductive Answer :=
| AnsA (ip : string)
| AnsAAAA (ip : string)
| AnsCNAME (name : string)
| AnsMX (pref : Z) (name : string)
| AnsTXT (txt : list string)
| AnsNS (name : string)
| AnsOther.

Definition parseDNSResponse (answers : list Answer) : DNSQueryResult :=
  foldl (fun result ans =>
    match ans with
    | AnsA ip => mkResult (A result ++ [ip]) (AAAA result) (CNAME result) (MX result) (TXT result) (NS result)
    | AnsAAAA ip => mkResult (A result) (AAAA result ++ [ip]) (CNAME result) (MX result) (TXT result) (NS result)
    | AnsCNAME n => mkResult (A result) (AAAA result) (CNAME result ++ [n]) (MX result) (TXT result) (NS result)
    | AnsMX pref n =>
        mkResult (A result) (AAAA result) (CNAME result)
          (MX result ++ [GoInt.Sprintf_d pref +:+ " " +:+ n]) (TXT result) (NS result)
    | AnsTXT txt => mkResult (A result) (AAAA result) (CNAME result) (MX result) (TXT result ++ txt) (NS result)
    | AnsNS n => mkResult (A result) (AAAA result) (CNAME result) (MX result) (TXT result) (NS result ++ [n])
    | AnsOther => result
    end) emptyResult answers.

(** The entries of the [Answer] array of a DoH JSON reply. *)
Definition parseDoHResponse (answers : list (Z * string)) : DNSQueryResult :=
  foldl (fun result ans =>
    match ans with
    | (1, data) => mkResult (A result ++ [data]) (AAAA result) (CNAME result) (MX result) (TXT result) (NS result)
    | (28, data) => mkResult (A result) (AAAA result ++ [data]) (CNAME result) (MX result) (TXT result) (NS result)
    | (5, data) => mkResult (A result) (AAAA result) (CNAME result ++ [data]) (MX result) (TXT result) (NS result)
    | _ => result
    end) emptyResult answers.

(** Outcome of the I/O of one lookup.  [packed] is the output of
    [msg.Pack()] for the question, [incoming] the bytes the server
    sends back, [unpacked] the outcome of [Unpack] on the response
    bytes; [doh] the outcome of the HTTPS exchange and of decoding its
    JSON body.  The UDP, TCP and DoT transports first build the
    question with [MustNewName], which panics for a name of more than
    255 bytes: the lookups below are those of the names it accepts. *)
Module IO.
Record t := mk {
  dial : option string;
  packed : list Z + string;
  write : option string;
  incoming : list Z;
  read : option string;
  unpacked : list Answer + string;
  doh : list (Z * string) + string }.
End IO.

(** [tlsClient(conn, server)]. *)
Definition tlsClient (conn : net.Conn) (server : string)
  : net.Conn * option string :=
  (conn, None).

(** The 2-byte length prefix followed by the message. *)
Definition frame (buf : list Z) : list Z :=
  let n := Z.of_nat (length buf) in
  [GoInt.byte (Z.shiftr n 8); GoInt.byte n] ++ buf.

(** Reading a framed response from the stream: [io.ReadFull] of the
    two length bytes, then of that many bytes. *)
Definition readFramed (io : IO.t) : list Z + string :=
  match IO.incoming io with
  | b0 :: b1 :: rest =>
      let len := Z.to_nat (Z.lor (Z.shiftl b0 8) b1) in
      if bool_decide (len <= length rest)%nat then inl (take len rest)
      else
        match rest with
        | [] => inr "read response failed: EOF"
        | _ :: _ => inr "read response failed: unexpected EOF"
        end
  | [_] => inr "read length failed: unexpected EOF"
  | [] => inr "read length failed: EOF"
  end.

Definition Lookup_t : Type := list net.Event * (DNSQueryResult + string).

(** The exchange shared by the stream transports once the connection
    [conn] is established. *)
Definition exchange (conn : net.Conn) (io : IO.t) (trace : list net.Event)
  : Lookup_t :=
  match IO.packed io with
  | inr e => (trace ++ [net.Close conn], inr ("pack message failed: " +:+ e))
  | inl buf =>
      let trace := trace ++ [net.Write conn (frame buf)] in
      match IO.write io with
      | Some e => (trace ++ [net.Close conn], inr ("send query failed: " +:+ e))
      | None =>
          match readFramed io with
          | inr e => (trace ++ [net.Close conn], inr e)
          | inl respBuf =>
              match IO.unpacked io with
              | inr e =>
                  (trace ++ [net.Close conn], inr ("unpack response failed: " +:+ e))
              | inl answers =>
                  (trace ++ [net.Close conn], inl (parseDNSResponse answers))
              end
          end
      end
  end.

Definition lookupTCP (r : Resolver) (domain : string) (io : IO.t) : Lookup_t :=
  let trace := [net.Dial "tcp" (Server r)] in
  match IO.dial io with
  | Some e => (trace, inr ("TCP dial failed: " +:+ e))
  | None => exchange (net.Socket "tcp" (Server r)) io trace
  end.

Definition lookupUDP (r : Resolver) (domain : string) (io : IO.t) : Lookup_t :=
  let trace := [net.Dial "udp" (Server r)] in
  match IO.dial io with
  | Some e => (trace, inr ("UDP dial failed: " +:+ e))
  | None =>
      let conn := net.Socket "udp" (Server r) in
      match IO.packed io with
      | inr e => (trace ++ [net.Close conn], inr ("pack message failed: " +:+ e))
      | inl buf =>
          let trace := trace ++ [net.Write conn buf] in
          match IO.write io with
          | Some e => (trace ++ [net.Close conn], inr ("send query failed: " +:+ e))
          | None =>
              match IO.read io with
              | Some e =>
                  (trace ++ [net.Close conn], inr ("receive response failed: " +:+ e))
              | None =>
                  match IO.unpacked io with
                  | inr e =>
                      (trace ++ [net.Close conn], inr ("unpack response failed: " +:+ e))
                  | inl answers =>
                      (trace ++ [net.Close conn], inl (parseDNSResponse answers))
                  end
              end
          end
      end
  end.

Definition lookupDoH (r : Resolver) (domain : string) (io : IO.t) : Lookup_t :=
  match IO.doh io with
  | inr e => ([], inr e)
  | inl answers => ([], inl (parseDoHResponse answers))
  end.

(** [lookupDoT]: the server address, the dial, [tlsClient], then the
    same exchange as [lookupTCP] on the connection [tlsClient]
    returned. *)
Definition dotAddress (r : Resolver) : string * string :=
  match net.SplitHostPort (Server r) with
  | inl (host, port) => (host, port)
  | inr _ => (Server r, "853")
  end.

Definition lookupDoT (r : Resolver) (domain : string) (io : IO.t) : Lookup_t :=
  let '(host, port) := dotAddress r in
  let serverAddr := net.JoinHostPort host port in
  let trace := [net.Dial "tcp" serverAddr] in
  match IO.dial io with
  | Some e => (trace, inr ("TCP dial failed: " +:+ e))
  | None =>
      let conn := net.Socket "tcp" serverAddr in
      match tlsClient conn host with
      | (_, Some e) => (trace ++ [net.Close conn], inr ("TLS handshake failed: " +:+ e))
      | (tlsConn, None) => exchange tlsConn io trace
      end
  end.

Definition Lookup (r : Resolver) (domain : string) (io : IO.t) : Lookup_t :=
  if bool_decide (ServerType r = "udp") then lookupUDP r domain io
  else if bool_decide (ServerType r = "tcp") then lookupTCP r domain io
  else if bool_decide (ServerType r = "doh") then lookupDoH r domain io
  else if bool_decide (ServerType r = "dot") then lookupDoT r domain io
  else lookupUDP r domain io.

End dns.

(** ** dns.go: the DNS probe *)

(** Outcome of the I/O of [DNSChecker.Check]: that of the resolver, the
    JSON text [json.Marshal] produced for the record list, and the
    measured milliseconds. *)
Module DNSIO.
Record t := mk { net : dns.IO.t; recordsJSON : string; elapsed : Z }.
End DNSIO.

Definition dns_record_line (ty : string) (vals : list string) : list string :=
  match vals with
  | [] => []
  | _ :: _ =>
      [ty +:+ ": " +:+ GoInt.Sprintf_d (Z.of_nat (length vals)) +:+ " record(s); "]
  end.

Definition DNSChecker_Check (target : MonitorTarget.t) (io : DNSIO.t)
  : CheckResult.t * option string :=
  let custom := negb (bool_decide (MonitorTarget.DNSServer target = "")) in
  let dnsServer := if custom then MonitorTarget.DNSServer target else "8.8.8.8:53" in
  let dnsServerType := if custom then MonitorTarget.DNSServerType target else "udp" in
  let dnsServerType :=
    if bool_decide (dnsServerType = "") then "udp" else dnsServerType in
  let resolver := dns.NewResolver dnsServer dnsServerType in
  match snd (dns.Lookup resolver (MonitorTarget.Address target) (DNSIO.net io)) with
  | inr err =>
      (CheckResult.with_Error (ErrorDetails.mk "dns_error" err)
         (CheckResult.basic "down" (DNSIO.elapsed io) ("DNS lookup failed: " +:+ err)),
       None)
  | inl result =>
      let lines :=
        dns_record_line "A" (dns.A result) ++
        dns_record_line "AAAA" (dns.AAAA result) ++
        dns_record_line "CNAME" (dns.CNAME result) ++
        dns_record_line "MX" (dns.MX result) ++
        dns_record_line "TXT" (dns.TXT result) ++
        dns_record_line "NS" (dns.NS result) in
      let via :=
        if bool_decide (MonitorTarget.DNSServerName target = "") then dnsServer
        else MonitorTarget.DNSServerName target in
      let message :=
        String.concat "" lines +:+ "via " +:+ via +:+ " (" +:+ dnsServerType +:+ "); " in
      let status :=
        match dns.A result, dns.AAAA result, dns.CNAME result with
        | [], [], [] => "warning"
        | _, _, _ => "up"
        end in
      let headers : gmap string string :=
        <["total_types" := GoInt.Sprintf_d (Z.of_nat (length lines))]>
        (<["aaaa_count" := GoInt.Sprintf_d (Z.of_nat (length (dns.AAAA result)))]>
        (<["a_count" := GoInt.Sprintf_d (Z.of_nat (length (dns.A result)))]>
        (<["dns_server_type" := dnsServerType]>
        (<["dns_server_name" := MonitorTarget.DNSServerName target]>
        (<["dns_server" := dnsServer]> ∅))))) in
      (CheckResult.mk status (DNSIO.elapsed io) message ∅
         (RequestDetails.mk "DNS" (MonitorTarget.Address target) ∅ "")
         (ResponseDetails.mk 0 headers (DNSIO.recordsJSON io) 0)
         None,
       None)
  end.

(** ** The ping probe *)

(** Outcome of running the system ping: an error, or the packet loss in
    percent and the average round trip in milliseconds. *)
Module PingIO.
Inductive t :=
| Failed (err : string)
| Done (packetLoss avgMs : Z).
End PingIO.

(** [PingChecker.Check].  [count] and [packetLoss] are Go [int]s: the
    product and the difference of the packets received wrap around at
    64 bits. *)
Definition PingChecker_Check (target : MonitorTarget.t) (io : PingIO.t)
  : CheckResult.t * option string :=
  let count :=
    if bool_decide (MonitorTarget.PingCount target <= 0) then 4
    else MonitorTarget.PingCount target in
  match io with
  | PingIO.Failed err =>
      (CheckResult.basic "down" 0 ("Ping failed: " +:+ err), Some err)
  | PingIO.Done packetLoss avgMs =>
      let '(status, message) :=
        if bool_decide (packetLoss = 100) then
          ("down", "Ping failed - 100% packet loss")
        else if bool_decide (50 < packetLoss) then
          ("degraded",
           "Ping degraded - Packet loss: " +:+ GoInt.Sprintf_d packetLoss
             +:+ "%, Avg time: " +:+ GoInt.Sprintf_d avgMs +:+ "ms")
        else
          ("up",
           "Ping successful - Packet loss: " +:+ GoInt.Sprintf_d packetLoss
             +:+ "%, Avg time: " +:+ GoInt.Sprintf_d avgMs +:+ "ms") in
      let data : gmap string DataValue :=
        <["packets_received" :=
            DVal (VInt (GoInt.int64
                          (count - Z.quot (GoInt.int64 (count * packetLoss)) 100)))]>
        (<["packets_sent" := DVal (VInt count)]>
        (<["avg_time" := DVal (VInt avgMs)]>
        (<["packet_loss" := DVal (VInt packetLoss)]> ∅))) in
      (CheckResult.with_Data data (CheckResult.basic status avgMs message), None)
  end.

(** ** smtp.go *)

(** Outcome of each step of the SMTP conversation: [None] when the step
    succeeded, the error otherwise; [hasSTARTTLS] is what
    [client.Extension("STARTTLS")] reports. *)
Module SMTPIO.
Record t := mk {
  tcpDial : option string;
  elapsed : Z;
  smtpDial : option string;
  hasSTARTTLS : bool;
  startTLS : option string;
  tlsDial : option string;
  newClient : option string;
  auth : option string;
  mail : option string;
  rcpt : option string;
  reset : option string;
  quit : option string }.
End SMTPIO.

Definition smtp_fail (status prefix err : string) : CheckResult.t * option string :=
  (CheckResult.basic status 0 (prefix +:+ err), Some err).

Definition smtp_credentials (target : MonitorTarget.t) : bool :=
  negb (bool_decide (MonitorTarget.SMTPUsername target = ""))
  && negb (bool_decide (MonitorTarget.SMTPPassword target = "")).

(** [checkSMTP(address, host)]. *)
Definition checkSMTP (target : MonitorTarget.t) (host : string) (io : SMTPIO.t)
  : CheckResult.t * option string :=
  match SMTPIO.smtpDial io with
  | Some err => smtp_fail "down" "SMTP connection failed: " err
  | None =>
  if MonitorTarget.SMTPCheckStartTLS target && negb (SMTPIO.hasSTARTTLS io) then
    (CheckResult.basic "degraded" 0 "STARTTLS not supported by server",
     Some "STARTTLS not supported")
  else
  match (if MonitorTarget.SMTPCheckStartTLS target then SMTPIO.startTLS io else None) with
  | Some err => smtp_fail "degraded" "STARTTLS upgrade failed: " err
  | None =>
  match (if smtp_credentials target then SMTPIO.auth io else None) with
  | Some err => smtp_fail "down" "SMTP authentication failed: " err
  | None =>
  match SMTPIO.mail io with
  | Some err => smtp_fail "down" "MAIL FROM command failed: " err
  | None =>
  match (if bool_decide (MonitorTarget.SMTPMailTo target = "") then None
         else SMTPIO.rcpt io) with
  | Some err => smtp_fail "degraded" "RCPT TO command failed: " err
  | None =>
  match SMTPIO.reset io with
  | Some err => smtp_fail "degraded" "RSET command failed: " err
  | None =>
  match SMTPIO.quit io with
  | Some err => smtp_fail "degraded" "QUIT command failed: " err
  | None =>
      let authenticated := negb (bool_decide (MonitorTarget.SMTPUsername target = "")) in
      let message := "SMTP server is operational" in
      let message := if authenticated then message +:+ " (authenticated)" else message in
      let message :=
        if MonitorTarget.SMTPCheckStartTLS target
        then message +:+ " (STARTTLS verified)" else message in
      let data : gmap string DataValue :=
        <["host" := DVal (VStr host)]>
        (<["authenticated" := DVal (VBool authenticated)]>
        (<["starttls_supported" :=
             DVal (VBool (MonitorTarget.SMTPCheckStartTLS target))]> ∅)) in
      (CheckResult.with_Data data (CheckResult.basic "up" 0 message), None)
  end end end end end end end.

(** [checkSMTPS(address, host)]. *)
Definition checkSMTPS (target : MonitorTarget.t) (host : string) (io : SMTPIO.t)
  : CheckResult.t * option string :=
  match SMTPIO.tlsDial io with
  | Some err => smtp_fail "down" "SMTPS connection failed: " err
  | None =>
  match SMTPIO.newClient io with
  | Some err => smtp_fail "down" "SMTPS client creation failed: " err
  | None =>
  match (if smtp_credentials target then SMTPIO.auth io else None) with
  | Some err => smtp_fail "down" "SMTPS authentication failed: " err
  | None =>
  match SMTPIO.mail io with
  | Some err => smtp_fail "down" "MAIL FROM command failed: " err
  | None =>
  match (if bool_decide (MonitorTarget.SMTPMailTo target = "") then None
         else SMTPIO.rcpt io) with
  | Some err => smtp_fail "degraded" "RCPT TO command failed: " err
  | None =>
  match SMTPIO.reset io with
  | Some err => smtp_fail "degraded" "RSET command failed: " err
  | None =>
      let authenticated := negb (bool_decide (MonitorTarget.SMTPUsername target = "")) in
      let message := "SMTPS server is operational" in
      let message := if authenticated then message +:+ " (authenticated)" else message in
      let data : gmap string DataValue :=
        <["host" := DVal (VStr host)]>
        (<["authenticated" := DVal (VBool authenticated)]>
        (<["tls" := DVal (VBool true)]> ∅)) in
      (CheckResult.with_Data data (CheckResult.basic "up" 0 message), None)
  end end end end end end.

(** [SMTPChecker.Check]. *)
Definition SMTPChecker_Check (target : MonitorTarget.t) (io : SMTPIO.t)
  : CheckResult.t * option string :=
  let host := MonitorTarget.Address target in
  match SMTPIO.tcpDial io with
  | Some err => smtp_fail "down" "Connection failed: " err
  | None =>
      let '(result, err) :=
        if MonitorTarget.SMTPUseTLS target then checkSMTPS target host io
        else checkSMTP target host io in
      match err with
      | Some e => (result, Some e)
      | None => (CheckResult.with_ResponseTime (SMTPIO.elapsed io) result, None)
      end
  end.

(** ** snmp.go *)

(** Outcome of the SNMP GET.  The comparison of the returned value with
    the expected one is not part of this development: [Got r] carries
    the result the probe builds on that path, which it returns with a
    nil error. *)
Module SNMPIO.
Inductive t :=
| GetFailed (err : string)
| NoVariables
| Got (r : CheckResult.t).
End SNMPIO.

Definition SNMPChecker_Check (target : MonitorTarget.t) (io : SNMPIO.t)
  : CheckResult.t * option string :=
  match io with
  | SNMPIO.GetFailed err =>
      (CheckResult.basic "down" 0 ("SNMP query failed: " +:+ err), Some err)
  | SNMPIO.NoVariables =>
      (CheckResult.basic "down" 0 "No SNMP response received",
       Some "empty SNMP response")
  | SNMPIO.Got r => (r, None)
  end.

(** ** checker.go: the factory and the dispatch of [Check] *)

Inductive Checker :=
| HTTPChecker
| HTTPSChecker
| TCPChecker
| UDPChecker
| DNSChecker
| PingCheckerWrapper
| SMTPCheckerWrapper
| SNMPCheckerWrapper
| SSLChecker.

(** [NewChecker(typ)]: the checker, or the error text. *)
Definition NewChecker (typ : string) : Checker + string :=
  if bool_decide (typ = "http") then inl HTTPChecker
  else if bool_decide (typ = "https") then inl HTTPSChecker
  else if bool_decide (typ = "tcp") then inl TCPChecker
  else if bool_decide (typ = "udp") then inl UDPChecker
  else if bool_decide (typ = "dns") then inl DNSChecker
  else if bool_decide (typ = "ping") || bool_decide (typ = "icmp") then inl PingCheckerWrapper
  else if bool_decide (typ = "smtp") || bool_decide (typ = "smtps") then inl SMTPCheckerWrapper
  else if bool_decide (typ = "snmp") then inl SNMPCheckerWrapper
  else if bool_decide (typ = "ssl") || bool_decide (typ = "tls") then inl SSLChecker
  else inr ("unsupported monitor type: " +:+ typ).

(** The outcome of the I/O of one check, whatever probe runs it: each
    probe reads its own field. *)
Module ProbeIO.
Record t := mk {
  http : HTTPIO.t;
  ssl : SSLIO.t;
  httpsElapsed : Z;
  dial : DialIO.t;
  dnsIO : DNSIO.t;
  ping : PingIO.t;
  smtp : SMTPIO.t;
  snmp : SNMPIO.t }.
End ProbeIO.

(** [checker.Check(ctx, target)]. *)
Definition Check (checker : Checker) (target : MonitorTarget.t) (io : ProbeIO.t)
  : CheckResult.t * option string :=
  match checker with
  | HTTPChecker => HTTPChecker_Check target (ProbeIO.http io)
  | HTTPSChecker =>
      HTTPSChecker_Check target (ProbeIO.ssl io) (ProbeIO.http io)
        (ProbeIO.httpsElapsed io)
  | TCPChecker => TCPChecker_Check target (ProbeIO.dial io)
  | UDPChecker => UDPChecker_Check target (ProbeIO.dial io)
  | DNSChecker => DNSChecker_Check target (ProbeIO.dnsIO io)
  | PingCheckerWrapper => PingChecker_Check target (ProbeIO.ping io)
  | SMTPCheckerWrapper => SMTPChecker_Check target (ProbeIO.smtp io)
  | SNMPCheckerWrapper => SNMPChecker_Check target (ProbeIO.snmp io)
  | SSLChecker => SSLChecker_Check target (ProbeIO.ssl io)
  end.

(** ** Package models and the store *)

Module MonitorStatus.
Record t := mk {
  ID : Z;
  TargetID : Z;
  Status : string;
  ResponseTime : Z;
  Message : string;
  CheckedAt : time.Time;
  UptimePercentage : Z;
  SSLDaysUntilExpiry : option Z;
  SSLIssuer : option string;
  SSLSubject : option string;
  SSLEserial : option string;
  DNSRecords : option string;
  ResolvedIP : option string;
  (** The column holds the JSON text of this map. *)
  Data : option (gmap string DataValue) }.

(** [models.MonitorStatus{TargetID: id}]. *)
Definition zero (targetID : Z) : t :=
  mk 0 targetID "" 0 "" 0 0 None None None None None None None.

Definition with_ID (id : Z) (s : t) : t :=
  mk id (TargetID s) (Status s) (ResponseTime s) (Message s) (CheckedAt s)
    (UptimePercentage s) (SSLDaysUntilExpiry s) (SSLIssuer s) (SSLSubject s)
    (SSLEserial s) (DNSRecords s) (ResolvedIP s) (Data s).

Definition with_UptimePercentage (u : Z) (s : t) : t :=
  mk (ID s) (TargetID s) (Status s) (ResponseTime s) (Message s) (CheckedAt s)
    u (SSLDaysUntilExpiry s) (SSLIssuer s) (SSLSubject s)
    (SSLEserial s) (DNSRecords s) (ResolvedIP s) (Data s).
End MonitorStatus.

Module MonitorHistory.
Record t := mk {
  ID : Z;
  TargetID : Z;
  Status : string;
  ResponseTime : Z;
  Message : string;
  CheckedAt : time.Time }.
End MonitorHistory.

(** The two tables the pipeline writes, rows in primary-key order, and
    the next key of each.  Every statement is taken to succeed. *)
Module database.

Record DB := mkDB {
  monitor_status : list MonitorStatus.t;
  statusSeq : Z;
  monitor_history : list MonitorHistory.t;
  historySeq : Z }.

Definition empty : DB := mkDB [] 1 [] 1.

(** [db.Where("target_id = ?", id).First(&status)]. *)
Definition FirstStatus (db : DB) (targetID : Z) : option MonitorStatus.t :=
  List.find (fun s => bool_decide (MonitorStatus.TargetID s = targetID))
    (monitor_status db).

Definition replaceStatus (s : MonitorStatus.t) (rows : list MonitorStatus.t)
  : list MonitorStatus.t :=
  (fun row => if bool_decide (MonitorStatus.ID row = MonitorStatus.ID s) then s else row)
    <$> rows.

(** [db.Save(&status)]: an insert under a fresh key when the primary
    key is zero, an update of the row with that key otherwise (an
    insert when there is no such row). *)
Definition SaveStatus (db : DB) (s : MonitorStatus.t) : DB :=
  if bool_decide (MonitorStatus.ID s = 0) then
    mkDB (monitor_status db ++ [MonitorStatus.with_ID (statusSeq db) s])
      (statusSeq db + 1) (monitor_history db) (historySeq db)
  else if existsb (fun row => bool_decide (MonitorStatus.ID row = MonitorStatus.ID s))
            (monitor_status db) then
    mkDB (replaceStatus s (monitor_status db)) (statusSeq db)
      (monitor_history db) (historySeq db)
  else
    mkDB (monitor_status db ++ [s]) (statusSeq db)
      (monitor_history db) (historySeq db).

(** [db.Create(&history)]. *)
Definition CreateHistory (db : DB) (h : MonitorHistory.t) : DB :=
  mkDB (monitor_status db) (statusSeq db)
    (monitor_history db ++
       [MonitorHistory.mk (historySeq db) (MonitorHistory.TargetID h)
          (MonitorHistory.Status h) (MonitorHistory.ResponseTime h)
          (MonitorHistory.Message h) (MonitorHistory.CheckedAt h)])
    (historySeq db + 1).

(** [Where("target_id = ? AND checked_at >= ?", id, since).Count]. *)
Definition CountHistory (db : DB) (targetID : Z) (since : time.Time) : Z :=
  Z.of_nat (length (List.filter
    (fun h => bool_decide (MonitorHistory.TargetID h = targetID)
              && bool_decide (since <= MonitorHistory.CheckedAt h))
    (monitor_history db))).

(** [Where("target_id = ? AND status = ? AND checked_at >= ?", ...)]. *)
Definition CountHistoryStatus (db : DB) (targetID : Z) (status : string)
    (since : time.Time) : Z :=
  Z.of_nat (length (List.filter
    (fun h => bool_decide (MonitorHistory.TargetID h = targetID)
              && bool_decide (MonitorHistory.Status h = status)
              && bool_decide (since <= MonitorHistory.CheckedAt h))
    (monitor_history db))).

End database.

(** ** service.go: the result pipeline *)

(** [updateUptimePercentage(targetID)] at clock reading [now]. *)
Definition updateUptimePercentage (db : database.DB) (targetID : Z)
    (now : time.Time) : database.DB :=
  let historyCount := database.CountHistory db targetID (time.AddDays now (-30)) in
  let upCount :=
    database.CountHistoryStatus db targetID "up" (time.AddDays now (-30)) in
  match database.FirstStatus db targetID with
  | Some status =>
      let uptime :=
        if bool_decide (0 < historyCount)
        then GoInt.int32 (Z.quot (GoInt.int64 (upCount * 100)) historyCount)
        else 0 in
      database.SaveStatus db (MonitorStatus.with_UptimePercentage uptime status)
  | None => db
  end.

Definition isTLSKind (typ : string) : bool :=
  bool_decide (typ = "https") || bool_decide (typ = "ssl") || bool_decide (typ = "tls").

(** The status row [saveResult] builds from the row it loaded and the
    result. *)
Definition buildStatus (status : MonitorStatus.t) (target : MonitorTarget.t)
    (result : CheckResult.t) (now : time.Time) : MonitorStatus.t :=
  let tls := isTLSKind (MonitorTarget.Type_ target) in
  let hdr k := CheckResult.header k result in
  let keep {A} (new old : option A) : option A :=
    match new with Some v => Some v | None => old end in
  let days :=
    if tls then
      keep (hdr "days_until_expiry" ≫= GoInt.Sscanf_d)
        (MonitorStatus.SSLDaysUntilExpiry status)
    else MonitorStatus.SSLDaysUntilExpiry status in
  let issuer :=
    if tls then keep (hdr "issuer") (MonitorStatus.SSLIssuer status)
    else MonitorStatus.SSLIssuer status in
  let subject :=
    if tls then keep (hdr "subject") (MonitorStatus.SSLSubject status)
    else MonitorStatus.SSLSubject status in
  let serial :=
    if tls then keep (hdr "serial") (MonitorStatus.SSLEserial status)
    else MonitorStatus.SSLEserial status in
  let resolvedIP :=
    keep (keep (hdr "resolved_ip") (hdr "ip")) (MonitorStatus.ResolvedIP status) in
  let data :=
    if bool_decide (CheckResult.Data result = ∅) then MonitorStatus.Data status
    else Some (CheckResult.Data result) in
  let body := ResponseDetails.Body (CheckResult.Response result) in
  let dnsRecords :=
    if bool_decide (MonitorTarget.Type_ target = "dns") && negb (bool_decide (body = ""))
    then Some body else MonitorStatus.DNSRecords status in
  MonitorStatus.mk (MonitorStatus.ID status) (MonitorStatus.TargetID status)
    (CheckResult.Status result) (CheckResult.ResponseTime result)
    (CheckResult.Message result) now (MonitorStatus.UptimePercentage status)
    days issuer subject serial dnsRecords resolvedIP data.

(** Values of the file log's request and response objects. *)
Inductive LogValue :=
| LStr (s : string)
| LInt (z : Z)
| LHeaders (h : gmap string string)
| LError (type_ message : string).

Module CheckLogEntry.
Record t := mk {
  TargetID : Z;
  TargetName : string;
  Type_ : string;
  Address : string;
  Status : string;
  ResponseTime : Z;
  Message : string;
  Request : option (gmap string LogValue);
  Response : option (gmap string LogValue) }.
End CheckLogEntry.

Definition put_if (b : bool) (k : string) (v : LogValue)
    (m : gmap string LogValue) : gmap string LogValue :=
  if b then <[k := v]> m else m.

(** The entry [writeFileLog] hands to [logger.WriteCheckLog]. *)
Definition fileLogEntry (target : MonitorTarget.t) (result : CheckResult.t)
  : CheckLogEntry.t :=
  let req := CheckResult.Request result in
  let resp := CheckResult.Response result in
  let hasMethod := negb (bool_decide (RequestDetails.Method req = "")) in
  let hasURL := negb (bool_decide (RequestDetails.URL req = "")) in
  let request : option (gmap string LogValue) :=
    if hasMethod || hasURL then
      Some (put_if (negb (bool_decide (RequestDetails.Body req = ""))) "body"
              (LStr (RequestDetails.Body req))
           (<["headers" := LHeaders (RequestDetails.Headers req)]>
           (put_if hasURL "url" (LStr (RequestDetails.URL req))
           (put_if hasMethod "method" (LStr (RequestDetails.Method req)) ∅))))
    else None in
  let hasCode := negb (bool_decide (ResponseDetails.StatusCode resp = 0)) in
  let hasHeaders := negb (bool_decide (ResponseDetails.Headers resp = ∅)) in
  let response : option (gmap string LogValue) :=
    if hasCode || hasHeaders then
      Some (put_if (bool_decide (0 < ResponseDetails.ContentLength resp)) "content_length"
              (LInt (ResponseDetails.ContentLength resp))
           (put_if (negb (bool_decide (ResponseDetails.Body resp = ""))) "body_size"
              (LInt (Z.of_nat (String.length (ResponseDetails.Body resp))))
           (put_if hasHeaders "headers" (LHeaders (ResponseDetails.Headers resp))
           (put_if hasCode "status_code" (LInt (ResponseDetails.StatusCode resp)) ∅))))
    else None in
  let request :=
    match CheckResult.Error result with
    | Some e =>
        Some (<["error" := LError (ErrorDetails.Type_ e) (ErrorDetails.Message e)]>
                (default ∅ request))
    | None => request
    end in
  CheckLogEntry.mk (MonitorTarget.ID target) (MonitorTarget.Name target)
    (MonitorTarget.Type_ target) (MonitorTarget.Address target)
    (CheckResult.Status result) (CheckResult.ResponseTime result)
    (CheckResult.Message result) request response.

Inductive LogLine :=
| Warn (msg : string) (target_id : Z)
| Printf (msg : string).

(** The state of the monitor service and of what it writes to: the
    registry, the check queue, the running [monitorTarget] goroutines
    (each holds the target it was started with), the root context, the
    buffer of pending index writes, the store, the file log, and the
    log lines emitted. *)
Module Service.
Record t := mk {
  targets : gmap Z MonitorTarget.t;
  checkQueue : list MonitorTarget.t;
  tickers : list MonitorTarget.t;
  ctxDone : bool;
  esBuffer : list (MonitorTarget.t * CheckResult.t);
  db : database.DB;
  fileLog : list CheckLogEntry.t;
  logs : list LogLine }.

Definition checkQueueCap : nat := 1000.
Definition esBufferCap : nat := 500.

(** [NewService]. *)
Definition New (db : database.DB) : t :=
  mk ∅ [] [] false [] db [] [].

Definition with_db (d : database.DB) (s : t) : t :=
  mk (targets s) (checkQueue s) (tickers s) (ctxDone s) (esBuffer s) d
    (fileLog s) (logs s).
Definition with_logs (l : list LogLine) (s : t) : t :=
  mk (targets s) (checkQueue s) (tickers s) (ctxDone s) (esBuffer s) (db s)
    (fileLog s) l.
Definition with_checkQueue (q : list MonitorTarget.t) (s : t) : t :=
  mk (targets s) q (tickers s) (ctxDone s) (esBuffer s) (db s)
    (fileLog s) (logs s).
Definition with_esBuffer (b : list (MonitorTarget.t * CheckResult.t)) (s : t) : t :=
  mk (targets s) (checkQueue s) (tickers s) (ctxDone s) b (db s)
    (fileLog s) (logs s).
Definition with_fileLog (f : list CheckLogEntry.t) (s : t) : t :=
  mk (targets s) (checkQueue s) (tickers s) (ctxDone s) (esBuffer s) (db s)
    f (logs s).
Definition with_targets (m : gmap Z MonitorTarget.t) (s : t) : t :=
  mk m (checkQueue s) (tickers s) (ctxDone s) (esBuffer s) (db s)
    (fileLog s) (logs s).
Definition with_tickers (l : list MonitorTarget.t) (s : t) : t :=
  mk (targets s) (checkQueue s) l (ctxDone s) (esBuffer s) (db s)
    (fileLog s) (logs s).
End Service.

(** [saveResult(target, result)]; the clock readings of the call are
    taken at one instant [now]. *)
Definition saveResult (s : Service.t) (target : MonitorTarget.t)
    (result : CheckResult.t) (now : time.Time) : Service.t :=
  let db := Service.db s in
  let status :=
    default (MonitorStatus.zero (MonitorTarget.ID target))
      (database.FirstStatus db (MonitorTarget.ID target)) in
  let status := buildStatus status target result now in
  let history :=
    MonitorHistory.mk 0 (MonitorTarget.ID target) (CheckResult.Status result)
      (CheckResult.ResponseTime result) (CheckResult.Message result) now in
  let db := database.SaveStatus db status in
  let db := database.CreateHistory db history in
  let db := updateUptimePercentage db (MonitorTarget.ID target) now in
  let s := Service.with_db db s in
  let s :=
    if bool_decide (length (Service.esBuffer s) < Service.esBufferCap)%nat then
      Service.with_esBuffer (Service.esBuffer s ++ [(target, result)]) s
    else
      Service.with_logs
        (Service.logs s ++ [Warn "ES buffer full, dropping log" (MonitorTarget.ID target)]) s in
  Service.with_fileLog (Service.fileLog s ++ [fileLogEntry target result]) s.

(** [checkTarget(target)]. *)
Definition checkTarget (s : Service.t) (target : MonitorTarget.t)
    (io : ProbeIO.t) (now : time.Time) : Service.t :=
  match NewChecker (MonitorTarget.Type_ target) with
  | inr err =>
      Service.with_logs
        (Service.logs s ++
           [Printf ("Failed to create checker for target "
                    +:+ GoInt.Sprintf_d (MonitorTarget.ID target) +:+ ": " +:+ err)]) s
  | inl checker =>
      match Check checker target io with
      | (_, Some err) =>
          Service.with_logs
            (Service.logs s ++
               [Printf ("Check failed for target "
                        +:+ GoInt.Sprintf_d (MonitorTarget.ID target) +:+ ": " +:+ err)]) s
      | (result, None) => saveResult s target result now
      end
  end.

(** ** service.go: the scheduler *)

(** [AddTarget(target)]: the registry entry and a new [monitorTarget]
    goroutine, for a target whose interval is positive
    ([time.NewTicker] panics otherwise). *)
Definition AddTarget (s : Service.t) (target : MonitorTarget.t) : Service.t :=
  Service.with_tickers (Service.tickers s ++ [target])
    (Service.with_targets (<[MonitorTarget.ID target := target]> (Service.targets s)) s).

(** [RemoveTarget(id)]: the new state and the returned error. *)
Definition RemoveTarget (s : Service.t) (id : Z) : Service.t * option string :=
  match Service.targets s !! id with
  | Some _ => (Service.with_targets (delete id (Service.targets s)) s, None)
  | None => (s, Some "target not found")
  end.

Definition GetTarget (s : Service.t) (id : Z) : MonitorTarget.t + string :=
  match Service.targets s !! id with
  | Some target => inl target
  | None => inr "target not found"
  end.

(** The non-blocking send of [monitorTarget] on the check queue. *)
Definition enqueueCheck (s : Service.t) (target : MonitorTarget.t) : Service.t :=
  if bool_decide (length (Service.checkQueue s) < Service.checkQueueCap)%nat then
    Service.with_checkQueue (Service.checkQueue s ++ [target]) s
  else
    Service.with_logs
      (Service.logs s ++
         [Warn "Check queue full, skipping check" (MonitorTarget.ID target)]) s.

(** One firing of the ticker of the [i]-th [monitorTarget] goroutine.
    The goroutine leaves its loop only when the root context is done. *)
Definition tick (s : Service.t) (i : nat) : Service.t :=
  if Service.ctxDone s then s
  else
    match Service.tickers s !! i with
    | Some target => enqueueCheck s target
    | None => s
    end.

(** One iteration of [checkWorker]: a receive from the check queue
    followed by [checkTarget]; with an empty queue the worker waits. *)
Definition checkWorker (s : Service.t) (io : ProbeIO.t) (now : time.Time)
  : Service.t :=
  if Service.ctxDone s then s
  else
    match Service.checkQueue s with
    | [] => s
    | target :: rest => checkTarget (Service.with_checkQueue rest s) target io now
    end.

(** [TriggerCheck(targetID)]: the check runs in a goroutine of its
    own. *)
Definition TriggerCheck (s : Service.t) (targetID : Z) (io : ProbeIO.t)
    (now : time.Time) : Service.t * option string :=
  match Service.targets s !! targetID with
  | Some target => (checkTarget s target io now, None)
  | None => (s, Some "target not found")
  end.

(** ** Package alert: alert.go *)

Module AlertEvent.
Record t := mk {
  TargetID : Z;
  TargetName : string;
  TargetType : string;
  Address : string;
  Status : string;
  ResponseTime : Z;
  Message : string;
  Timestamp : time.Time;
  Severity : string }.
End AlertEvent.

Module AlertCondition.
Record t := mk {
  DownConsecutiveTimes : Z;
  SlowResponseThreshold : Z;
  StatusChanged : bool }.
End AlertCondition.

Module AlertRule.
Record t := mk {
  ID : Z;
  Name : string;
  TargetID : option Z;
  Enabled : bool;
  Severity : string;
  Conditions : AlertCondition.t;
  Channels : list Z;
  CooldownSeconds : Z;
  LastAlertTime : time.Time }.

Definition with_LastAlertTime (t0 : time.Time) (r : t) : t :=
  mk (ID r) (Name r) (TargetID r) (Enabled r) (Severity r) (Conditions r)
    (Channels r) (CooldownSeconds r) t0.
End AlertRule.

(** The dynamic type of [AlertChannel.Config]. *)
Inductive ChannelConfig :=
| EmailConfig
| WebhookConfig
| DingTalkConfig
| WeChatConfig
| NoConfig.

Module AlertChannel.
Record t := mk {
  ID : Z;
  Name : string;
  Type_ : string;
  Enabled : bool;
  Config : ChannelConfig }.
End AlertChannel.

Module alert.

(** What [sendAlert] does for one channel, and its closing log line. *)
Inductive Effect :=
| Notify (kind : string) (channel : Z)
| InvalidConfig (msg : string)
| AlertLogged (severity targetName address status : string).

(** One call [m.sendAlert(event, rule)]: the key of the rule in
    [m.rules], the clock reading stored in [LastAlertTime] after it,
    the event and the effects. *)
Record Dispatch := mkDispatch {
  rule : Z;
  at_ : time.Time;
  event : AlertEvent.t;
  effects : list Effect }.

Record Manager := mkManager {
  channels : gmap Z AlertChannel.t;
  rules : gmap Z AlertRule.t;
  eventBuffer : gmap Z (list AlertEvent.t) }.

Definition NewManager : Manager := mkManager ∅ ∅ ∅.

Definition AddChannel (m : Manager) (channel : AlertChannel.t) : Manager :=
  mkManager (<[AlertChannel.ID channel := channel]> (channels m)) (rules m)
    (eventBuffer m).

Definition RemoveChannel (m : Manager) (id : Z) : Manager :=
  mkManager (delete id (channels m)) (rules m) (eventBuffer m).

Definition AddRule (m : Manager) (r : AlertRule.t) : Manager :=
  mkManager (channels m) (<[AlertRule.ID r := r]> (rules m)) (eventBuffer m).

Definition RemoveRule (m : Manager) (id : Z) : Manager :=
  mkManager (channels m) (delete id (rules m)) (eventBuffer m).

(** The loop of [shouldAlert] counting [down] events from the newest
    one backwards; [rev_events] is the buffer, newest first. *)
Fixpoint consecutiveDown (rev_events : list AlertEvent.t) : Z :=
  match rev_events with
  | e :: rest =>
      if bool_decide (AlertEvent.Status e = "down")
      then 1 + consecutiveDown rest else 0
  | [] => 0
  end.

(** [shouldAlert(event, rule)], reading the buffer [events] of the
    event's target. *)
Definition shouldAlert (events : list AlertEvent.t) (event : AlertEvent.t)
    (rule : AlertRule.t) : bool :=
  let conditions := AlertRule.Conditions rule in
  if bool_decide (0 < AlertCondition.DownConsecutiveTimes conditions)
     && bool_decide (AlertEvent.Status event = "down")
     && bool_decide (AlertCondition.DownConsecutiveTimes conditions
                     <= consecutiveDown (reverse events))
  then true
  else if bool_decide (0 < AlertCondition.SlowResponseThreshold conditions)
          && bool_decide (AlertCondition.SlowResponseThreshold conditions
                          < AlertEvent.ResponseTime event)
  then true
  else if AlertCondition.StatusChanged conditions then
    match reverse events with
    | _ :: lastEvent :: _ =>
        negb (bool_decide (AlertEvent.Status lastEvent = AlertEvent.Status event))
    | _ => false
    end
  else false.

Definition sendToChannel (channel : AlertChannel.t) : list Effect :=
  let ty := AlertChannel.Type_ channel in
  let id := AlertChannel.ID channel in
  if bool_decide (ty = "email") then
    match AlertChannel.Config channel with
    | EmailConfig => [Notify ty id]
    | _ => [InvalidConfig "Invalid email config"]
    end
  else if bool_decide (ty = "webhook") then
    match AlertChannel.Config channel with
    | WebhookConfig => [Notify ty id]
    | _ => [InvalidConfig "Invalid webhook config"]
    end
  else if bool_decide (ty = "dingtalk") then
    match AlertChannel.Config channel with
    | DingTalkConfig => [Notify ty id]
    | _ => [InvalidConfig "Invalid dingtalk config"]
    end
  else if bool_decide (ty = "wechat") then
    match AlertChannel.Config channel with
    | WeChatConfig => [Notify ty id]
    | _ => [InvalidConfig "Invalid wechat config"]
    end
  else [].

(** [sendAlert(event, rule)]. *)
Definition sendAlert (chans : gmap Z AlertChannel.t) (event : AlertEvent.t)
    (rule : AlertRule.t) : list Effect :=
  (AlertRule.Channels rule ≫= fun channelID =>
     match chans !! channelID with
     | Some channel =>
         if AlertChannel.Enabled channel then sendToChannel channel else []
     | None => []
     end)
  ++ [AlertLogged (AlertRule.Severity rule) (AlertEvent.TargetName event)
        (AlertEvent.Address event) (AlertEvent.Status event)].

(** The cooldown test of the rule loop: [true] when the rule is
    skipped. *)
Definition coolingDown (now : time.Time) (rule : AlertRule.t) : bool :=
  bool_decide (0 < AlertRule.CooldownSeconds rule)
  && negb (time.IsZero (AlertRule.LastAlertTime rule))
  && bool_decide (time.Since now (AlertRule.LastAlertTime rule)
                  < time.Seconds (AlertRule.CooldownSeconds rule)).

(** Whether the body of the rule loop reaches [sendAlert] for
    [rule]. *)
Definition fires (events : list AlertEvent.t) (event : AlertEvent.t)
    (now : time.Time) (rule : AlertRule.t) : bool :=
  AlertRule.Enabled rule
  && match AlertRule.TargetID rule with
     | Some id => bool_decide (id = AlertEvent.TargetID event)
     | None => true
     end
  && negb (coolingDown now rule)
  && shouldAlert events event rule.

(** One iteration of the rule loop on the entry [(k, rule)] of
    [m.rules]. *)
Definition ruleStep (chans : gmap Z AlertChannel.t) (events : list AlertEvent.t)
    (event : AlertEvent.t) (now : time.Time)
    (acc : gmap Z AlertRule.t * list Dispatch) (kr : Z * AlertRule.t)
  : gmap Z AlertRule.t * list Dispatch :=
  let '(k, rule) := kr in
  if fires events event now rule then
    (<[k := AlertRule.with_LastAlertTime now rule]> acc.1,
     acc.2 ++ [mkDispatch k now event (sendAlert chans event rule)])
  else acc.

(** The event buffer of the target after the append and the trim to
    the last 100 events. *)
Definition pushEvent (buffer : list AlertEvent.t) (event : AlertEvent.t)
  : list AlertEvent.t :=
  let buffer := buffer ++ [event] in
  if bool_decide (100 < length buffer)%nat then drop 1 buffer else buffer.

(** [ProcessEvent(event)]: the manager after the call and the
    dispatches made, in order.  The clock readings of the call are taken
    at one instant [now]; the rules are walked in the order of
    [map_to_list] (Go leaves the order of a map range unspecified). *)
Definition ProcessEvent (m : Manager) (event : AlertEvent.t) (now : time.Time)
  : Manager * list Dispatch :=
  let id := AlertEvent.TargetID event in
  let events := pushEvent (default [] (eventBuffer m !! id)) event in
  let buffers := <[id := events]> (eventBuffer m) in
  let '(rules', out) :=
    foldl (ruleStep (channels m) events event now) (rules m, [])
      (map_to_list (rules m)) in
  (mkManager (channels m) rules' buffers, out).

(** A run of the manager on events arriving one after the other, each
    with the clock reading of its call. *)
Fixpoint run (m : Manager) (evs : list (time.Time * AlertEvent.t))
  : Manager * list Dispatch :=
  match evs with
  | [] => (m, [])
  | (now, e) :: rest =>
      let '(m1, out1) := ProcessEvent m e now in
      let '(m2, out2) := run m1 rest in
      (m2, out1 ++ out2)
  end.

End alert.

(** ** The process: the monitor service next to the alert manager *)

(** The state of the process is that of the monitor service together
    with that of an alert manager.  [Service] has no field of type
    [Manager], none of its methods takes one, and no function of the
    repository calls [ProcessEvent]: a step of the service leaves the
    manager as it is. *)
Module Process.
Record t := mk { service : Service.t; manager : alert.Manager }.

Definition saveResult (p : t) (target : MonitorTarget.t)
    (result : CheckResult.t) (now : time.Time) : t :=
  mk (saveResult (service p) target result now) (manager p).

Definition checkWorker (p : t) (io : ProbeIO.t) (now : time.Time) : t :=
  mk (checkWorker (service p) io now) (manager p).
End Process.

(** ** Statements and concrete inputs used by the theorems *)

(** The test on the status code that the HTTP probe applies. *)
Definition codeAccepted (target : MonitorTarget.t) (code : Z) : Prop :=
  (MonitorTarget.ExpectedStatusCodes target = [] /\ 200 <= code < 300)
  \/ (MonitorTarget.ExpectedStatusCodes target <> []
      /\ code ∈ MonitorTarget.ExpectedStatusCodes target).

(** An HTTPS target with certificate checking on and the default
    thresholds (warn 30 days, critical 7 days). *)
Definition https_target (getChain : bool) : MonitorTarget.t :=
  MonitorTarget.with_SSL 30 7 true getChain
    (MonitorTarget.ofType 1 "https" "example.com").

(** A reply [200 OK] to the HTTP request. *)
Definition http_ok : HTTPIO.t :=
  HTTPIO.Responded 200 "200 OK" ∅ ∅ "" 0 "93.184.216.34" None 12.

(** A refused TLS dial of the SSL probe. *)
Definition ssl_refused : SSLIO.t :=
  SSLIO.DialFailed "example.com:443" "connection refused" 3.

(** A certificate for [cn] that expires at [notAfter]. *)
Definition sample_cert (cn issuer : string) (notAfter : time.Time) (isCA : bool)
  : Certificate.t :=
  Certificate.mk cn issuer "0A1B" "2026-01-01T00:00:00Z" "2027-01-01T00:00:00Z"
    "2026-01-01" "2027-01-01" notAfter isCA 5 [1] "SHA256-RSA" [] [] [cn].

(** A clock reading: 2026-10-30T00:00:00Z in nanoseconds since the zero
    time. *)
Definition sample_now : time.Time := 63928915200 * time.Second.

(** An SSL target with the default thresholds. *)
Definition ssl_target : MonitorTarget.t :=
  MonitorTarget.with_SSL 30 7 false true (MonitorTarget.ofType 2 "ssl" "example.com").

(** The TLS dial succeeded and, at the time the probe reads the clock,
    the leaf certificate has been expired for one second. *)
Definition ssl_just_expired : SSLIO.t :=
  SSLIO.Connected "example.com:443"
    [sample_cert "example.com" "Example CA" (sample_now - time.Second) false]
    sample_now 40.

(** A DoT resolver whose server address carries no port, and a lookup
    whose every I/O step succeeds: the packed query is five bytes, the
    server answers with a framed three-byte message holding one A
    record. *)
Definition dot_resolver : dns.Resolver := dns.NewResolver "1.1.1.1" "dot".

Definition dns_io_ok : dns.IO.t :=
  dns.IO.mk None (inl [171; 205; 1; 0; 0]) None [0; 3; 171; 205; 129] None
    (inl [dns.AnsA "93.184.216.34"]) (inr "unused").

(** A TCP target, and the outcome of a check whose every I/O step
    succeeds (each probe reads its own field). *)
Definition tcp_target : MonitorTarget.t := MonitorTarget.ofType 1 "tcp" "10.0.0.1".

Definition smtp_io_ok : SMTPIO.t :=
  SMTPIO.mk None 8 None true None None None None None None None None.

Definition probe_io_ok : ProbeIO.t :=
  ProbeIO.mk http_ok ssl_refused 15 (DialIO.mk None 5)
    (DNSIO.mk dns_io_ok "[]" 7) (PingIO.Done 0 1) smtp_io_ok SNMPIO.NoVariables.

(** A service whose check queue is full, with one running ticker. *)
Definition service_queue_full : Service.t :=
  Service.mk {[1 := tcp_target]} (replicate Service.checkQueueCap tcp_target)
    [tcp_target] false [] database.empty [] [].

(** An SMTP target and a check of it whose first TCP dial is refused. *)
Definition smtp_target : MonitorTarget.t := MonitorTarget.ofType 3 "smtp" "mail.example.com".

Definition probe_io_smtp_refused : ProbeIO.t :=
  ProbeIO.mk http_ok ssl_refused 15 (DialIO.mk None 5)
    (DNSIO.mk dns_io_ok "[]" 7) (PingIO.Done 0 1)
    (SMTPIO.mk (Some "connection refused") 8 None true None None None None None
       None None None)
    SNMPIO.NoVariables.

(** A process whose alert manager holds one enabled rule for every
    target (two consecutive failures, cooldown 300 s, channel 1) and one
    enabled webhook channel. *)
Definition failure_rule : AlertRule.t :=
  AlertRule.mk 1 "two failures" None true "critical"
    (AlertCondition.mk 2 0 false) [1] 300 0.

Definition webhook_channel : AlertChannel.t :=
  AlertChannel.mk 1 "ops" "webhook" true WebhookConfig.

Definition sample_manager : alert.Manager :=
  alert.AddRule (alert.AddChannel alert.NewManager webhook_channel) failure_rule.


(** The result of a failed TCP check. *)
Definition down_result : CheckResult.t :=
  CheckResult.basic "down" 5 "TCP connection failed: connection refused".

(** Well-formed status table: the primary keys are positive, below the
    next key and pairwise distinct. *)
Definition status_keys_ok (db : database.DB) : Prop :=
  0 < database.statusSeq db
  /\ NoDup (MonitorStatus.ID <$> database.monitor_status db)
  /\ Forall (fun row => 0 < MonitorStatus.ID row < database.statusSeq db)
       (database.monitor_status db).


(** The TLS dial of the SSL probe succeeded with a chain of two
    certificates; the leaf expires 90 days after the clock reading. *)
Definition ssl_connected : SSLIO.t :=
  SSLIO.Connected "example.com:443"
    [sample_cert "example.com" "Example CA" (sample_now + 90 * time.Day) false;
     sample_cert "Example CA" "Example Root" (sample_now + 900 * time.Day) true]
    sample_now 40.

(** What one iteration of the rule loop does to the rule and to the
    list of dispatches. *)
Definition ruleAfter (events : list AlertEvent.t) (event : AlertEvent.t)
    (now : time.Time) (rule : AlertRule.t) : AlertRule.t :=
  if alert.fires events event now rule
  then AlertRule.with_LastAlertTime now rule else rule.

Definition dispatchOf (chans : gmap Z AlertChannel.t) (events : list AlertEvent.t)
    (event : AlertEvent.t) (now : time.Time) (kr : Z * AlertRule.t)
  : option alert.Dispatch :=
  if alert.fires events event now kr.2
  then Some (alert.mkDispatch kr.1 now event (alert.sendAlert chans event kr.2))
  else None.

(** In the list of dispatches [log], any two dispatches of the rule
    with key [k] are at least [gap] nanoseconds apart. *)
Definition separated (k : Z) (gap : time.Duration) (log : list alert.Dispatch) : Prop :=
  forall i j di dj,
    (i < j)%nat -> log !! i = Some di -> log !! j = Some dj ->
    alert.rule di = k -> alert.rule dj = k ->
    alert.at_ di + gap <= alert.at_ dj.

(** A [down] event for target 1. *)
Definition down_event (at_ : time.Time) : AlertEvent.t :=
  AlertEvent.mk 1 "api" "tcp" "10.0.0.1" "down" 5 "TCP connection failed" at_ "critical".

(** Three [down] events for target 1, one minute apart. *)
Definition three_downs : list (time.Time * AlertEvent.t) :=
  [(sample_now, down_event sample_now);
   (sample_now + 60 * time.Second, down_event (sample_now + 60 * time.Second));
   (sample_now + 120 * time.Second, down_event (sample_now + 120 * time.Second))].

(** The invariant of a run for the rule with key [k] and cooldown
    [cd]: the rule is still registered with that cooldown, every
    dispatch of it so far happened no later than its [LastAlertTime],
    which is then not the zero time, and its dispatches are a cooldown
    apart. *)
Definition cooldown_inv (k cd : Z) (m : alert.Manager) (log : list alert.Dispatch)
  : Prop :=
  exists r,
    alert.rules m !! k = Some r
    /\ AlertRule.CooldownSeconds r = cd
    /\ (forall d, d ∈ log -> alert.rule d = k ->
          alert.at_ d <= AlertRule.LastAlertTime r
          /\ AlertRule.LastAlertTime r <> 0)
    /\ separated k (cd * time.Second) log.

(** ** service.go: the remaining operations and the runs of the service *)

(** [ListTargets()]; a range over a Go map visits the entries in an
    unspecified order, here that of [map_to_list]. *)
Definition ListTargets (s : Service.t) : list MonitorTarget.t :=
  (map_to_list (Service.targets s)).*2.

(** One receive of [esWriter] from the buffer of index writes: the
    state, and the task handed to [writeToElasticsearch]. *)
Definition esWriter (s : Service.t)
  : Service.t * option (MonitorTarget.t * CheckResult.t) :=
  match Service.esBuffer s with
  | [] => (s, None)
  | task :: rest => (Service.with_esBuffer rest s, Some task)
  end.

(** The second half of the [updateMonitor] handler, once the row of the
    target is saved: [RemoveTarget] and, when it returned no error,
    [AddTarget] of the converted target [target] (the conversion of the
    saved row is taken to succeed). *)
Definition updateMonitor_service (s : Service.t) (target : MonitorTarget.t)
  : Service.t :=
  match RemoveTarget s (MonitorTarget.ID target) with
  | (s', None) => AddTarget s' target
  | (s', Some _) => s'
  end.

(** The operations that change the state of the service, as the
    goroutines and the callers of the service perform them. *)
Inductive Op :=
| OpAddTarget (target : MonitorTarget.t)
| OpRemoveTarget (id : Z)
| OpTick (i : nat)
| OpWorker (io : ProbeIO.t) (now : time.Time)
| OpTriggerCheck (id : Z) (io : ProbeIO.t) (now : time.Time)
| OpESWriter.

Definition step (s : Service.t) (op : Op) : Service.t :=
  match op with
  | OpAddTarget target => AddTarget s target
  | OpRemoveTarget id => (RemoveTarget s id).1
  | OpTick i => tick s i
  | OpWorker io now => checkWorker s io now
  | OpTriggerCheck id io now => (TriggerCheck s id io now).1
  | OpESWriter => (esWriter s).1
  end.

Definition run_ops (s : Service.t) (ops : list Op) : Service.t :=
  foldl step s ops.

(** The transaction of the [removeMonitor] handler on the two tables of
    the store: the status rows and the history records of the target
    are deleted (the table of the targets themselves is not part of
    this development). *)
Definition deleteMonitorRows (db : database.DB) (id : Z) : database.DB :=
  database.mkDB
    (List.filter (fun row => negb (bool_decide (MonitorStatus.TargetID row = id)))
       (database.monitor_status db))
    (database.statusSeq db)
    (List.filter (fun h => negb (bool_decide (MonitorHistory.TargetID h = id)))
       (database.monitor_history db))
    (database.historySeq db).

(** The [removeMonitor] handler once the request is read: the committed
    transaction, then [RemoveTarget], whose error is dropped. *)
Definition removeMonitor_service (s : Service.t) (id : Z) : Service.t :=
  (RemoveTarget (Service.with_db (deleteMonitorRows (Service.db s) id) s) id).1.

(** What reaches the service: its own operations and the two handlers
    of the API server that change it. *)
Inductive Call :=
| CallService (op : Op)
| CallUpdateMonitor (target : MonitorTarget.t)
| CallRemoveMonitor (id : Z).

Definition call (s : Service.t) (c : Call) : Service.t :=
  match c with
  | CallService op => step s op
  | CallUpdateMonitor target => updateMonitor_service s target
  | CallRemoveMonitor id => removeMonitor_service s id
  end.

(** A run in which the calls take effect one after the other. *)
Definition run_calls (s : Service.t) (cs : list Call) : Service.t :=
  foldl call s cs.

(** At most one status row per target. *)
Definition one_row_per_target (db : database.DB) : Prop :=
  NoDup (MonitorStatus.TargetID <$> database.monitor_status db).

(** The newest history record of a target. *)
Definition lastHistory (db : database.DB) (id : Z) : option MonitorHistory.t :=
  last (List.filter (fun h => bool_decide (MonitorHistory.TargetID h = id))
          (database.monitor_history db)).

(** The status row of every target that has history shows the status,
    response time and message of the newest history record of the
    target; a target without history has no status row.  (The two
    check times are separate readings of the clock in the source.) *)
Definition status_mirrors_history (db : database.DB) : Prop :=
  forall id,
    match lastHistory db id with
    | Some h =>
        exists row,
          database.FirstStatus db id = Some row
          /\ MonitorStatus.Status row = MonitorHistory.Status h
          /\ MonitorStatus.ResponseTime row = MonitorHistory.ResponseTime h
          /\ MonitorStatus.Message row = MonitorHistory.Message h
    | None => database.FirstStatus db id = None
    end.

(** The two queues of the service are within their capacities. *)
Definition queues_bounded (s : Service.t) : Prop :=
  (length (Service.checkQueue s) <= Service.checkQueueCap)%nat
  /\ (length (Service.esBuffer s) <= Service.esBufferCap)%nat.

(** The store is well formed: distinct positive keys and one status row
    per target. *)
Definition store_ok (db : database.DB) : Prop :=
  status_keys_ok db /\ one_row_per_target db.

(** ** Runs of the alert manager *)

(** The events of target [id] among the events of a run, in the order
    of arrival. *)
Definition eventsFor (id : Z) (evs : list (time.Time * AlertEvent.t))
  : list AlertEvent.t :=
  List.filter (fun e => bool_decide (AlertEvent.TargetID e = id)) evs.*2.

(** The last [n] elements of a list (the whole list when it is
    shorter). *)
Definition lastN {A} (n : nat) (l : list A) : list A := drop (length l - n) l.

(** Whether the dynamic type of the configuration of a channel is the
    one its [Type] asks for. *)
Definition configMatches (channel : AlertChannel.t) : bool :=
  match AlertChannel.Config channel with
  | EmailConfig => bool_decide (AlertChannel.Type_ channel = "email")
  | WebhookConfig => bool_decide (AlertChannel.Type_ channel = "webhook")
  | DingTalkConfig => bool_decide (AlertChannel.Type_ channel = "dingtalk")
  | WeChatConfig => bool_decide (AlertChannel.Type_ channel = "wechat")
  | NoConfig => false
  end.

(** What the manager keeps of the events [l] of one target: no buffer
    when there are none, otherwise the last 100. *)
Definition keptEvents (l : list AlertEvent.t) : option (list AlertEvent.t) :=
  match l with
  | [] => None
  | _ => Some (lastN 100 l)
  end.

(** What a rule keeps through a call: everything but [LastAlertTime]. *)
Definition sameConfig (r r' : AlertRule.t) : Prop :=
  AlertRule.Enabled r' = AlertRule.Enabled r
  /\ AlertRule.TargetID r' = AlertRule.TargetID r
  /\ AlertRule.Conditions r' = AlertRule.Conditions r
  /\ AlertRule.Channels r' = AlertRule.Channels r
  /\ AlertRule.Severity r' = AlertRule.Severity r.

(** Every buffer of the manager holds at most 100 events. *)
Definition buffers_bounded (m : alert.Manager) : Prop :=
  forall id l, alert.eventBuffer m !! id = Some l -> (length l <= 100)%nat.

(** A rule that asks for 101 consecutive failures, and a manager that
    holds it. *)
Definition patient_rule : AlertRule.t :=
  AlertRule.mk 2 "101 failures" None true "high"
    (AlertCondition.mk 101 0 false) [1] 0 0.

Definition patient_manager : alert.Manager :=
  alert.AddRule (alert.AddChannel alert.NewManager webhook_channel) patient_rule.

(** A rule that fires on a change of status only. *)
Definition change_rule : AlertRule.t :=
  AlertRule.mk 3 "status change" None true "medium"
    (AlertCondition.mk 0 0 true) [1] 0 0.

(** An [up] event for target 1. *)
Definition up_event (at_ : time.Time) : AlertEvent.t :=
  AlertEvent.mk 1 "api" "tcp" "10.0.0.1" "up" 5 "TCP connection successful" at_ "".

(** A short life of a TCP target: added, ticked, checked, checked again
    on request, then removed through the API while its ticker goes
    on. *)
Definition sample_calls : list Call :=
  [CallService (OpAddTarget tcp_target);
   CallService (OpTick 0);
   CallService (OpWorker probe_io_ok sample_now);
   CallService (OpTriggerCheck 1 probe_io_ok (sample_now + 60 * time.Second));
   CallRemoveMonitor 1;
   CallService (OpTick 0);
   CallService (OpWorker probe_io_ok (sample_now + 120 * time.Second))].

(** ** The pipeline and the registry *)

(** The kinds of target [NewChecker] has a probe for. *)
Definition supportedKinds : list string :=
  ["http"; "https"; "tcp"; "udp"; "dns"; "ping"; "icmp"; "smtp"; "smtps";
   "snmp"; "ssl"; "tls"].

(** The kinds whose probe never returns a Go error. *)
Definition errorFreeKinds : list string :=
  ["http"; "https"; "tcp"; "udp"; "dns"; "ssl"; "tls"].

(** Every registered target is stored under its own id and has a
    ticker, and every queued target has a ticker. *)
Definition registry_ok (s : Service.t) : Prop :=
  (forall id target,
     Service.targets s !! id = Some target ->
     MonitorTarget.ID target = id /\ target ∈ Service.tickers s)
  /\ (forall target, target ∈ Service.checkQueue s -> target ∈ Service.tickers s).

(** A service whose buffer of index writes is full. *)
Definition service_es_full : Service.t :=
  Service.with_esBuffer (replicate Service.esBufferCap (tcp_target, down_result))
    (Service.New database.empty).

(** A target of a kind the service has no probe for. *)
Definition ftp_target : MonitorTarget.t := MonitorTarget.ofType 4 "ftp" "10.0.0.2".

(** A check whose TLS dial succeeds with a leaf certificate valid for
    another 90 days. *)
Definition probe_io_ssl : ProbeIO.t :=
  ProbeIO.mk http_ok ssl_connected 15 (DialIO.mk None 5)
    (DNSIO.mk dns_io_ok "[]" 7) (PingIO.Done 0 1) smtp_io_ok SNMPIO.NoVariables.

(** A packed message of five bytes. *)
Definition sample_message : list Z := [171; 205; 1; 0; 0].

(** ** The answers of a lookup, by type *)

(** The texts one answer of a DNS message contributes to each record
    list. *)
Definition textsA (ans : dns.Answer) : list string :=
  match ans with dns.AnsA ip => [ip] | _ => [] end.
Definition textsAAAA (ans : dns.Answer) : list string :=
  match ans with dns.AnsAAAA ip => [ip] | _ => [] end.
Definition textsCNAME (ans : dns.Answer) : list string :=
  match ans with dns.AnsCNAME name => [name] | _ => [] end.
Definition textsMX (ans : dns.Answer) : list string :=
  match ans with
  | dns.AnsMX pref name => [GoInt.Sprintf_d pref +:+ " " +:+ name]
  | _ => []
  end.
Definition textsTXT (ans : dns.Answer) : list string :=
  match ans with dns.AnsTXT txt => txt | _ => [] end.
Definition textsNS (ans : dns.Answer) : list string :=
  match ans with dns.AnsNS name => [name] | _ => [] end.

(** The data of the entries of type [ty] of a DoH reply. *)
Definition dohData (ty : Z) (answers : list (Z * string)) : list string :=
  (List.filter (fun ans => bool_decide (ans.1 = ty)) answers).*2.

(** ** smtp.go: the address check *)

(** [strings.Split(s, sep)] for a separator of one byte: the pieces of
    [s] between the occurrences of [sep]. *)
Fixpoint Split (s : string) (sep : ascii) : list string :=
  match s with
  | EmptyString => [EmptyString]
  | String c rest =>
      if Ascii.eqb c sep then EmptyString :: Split rest sep
      else
        match Split rest sep with
        | part :: parts => String c part :: parts
        | [] => [String c EmptyString]
        end
  end.

(** [strings.Contains(s, sub)] for a [sub] of one byte. *)
Definition ContainsByte (s : string) (c : ascii) : bool :=
  match net.IndexByte s c with
  | Some _ => true
  | None => false
  end.

(** [ValidateSMTPAddress(address)]. *)
Definition ValidateSMTPAddress (address : string) : bool :=
  match Split address "@" with
  | [local; domain] =>
      if bool_decide (local = "") || bool_decide (domain = "") then false
      else if negb (ContainsByte domain ".") then false
      else true
  | _ => false
  end.

(** ** The ping probe: the numbers in the data of a result *)

(** The integer stored under [k] in the data of a result. *)
Definition dataInt (k : string) (r : CheckResult.t) : option Z :=
  match CheckResult.Data r !! k with
  | Some (DVal (VInt z)) => Some z
  | _ => None
  end.

(** A ping target with no packet count of its own. *)
Definition ping_target : MonitorTarget.t := MonitorTarget.ofType 5 "ping" "10.0.0.3".

(** The TCP target 1 after an update of its address. *)
Definition tcp_target_moved : MonitorTarget.t :=
  MonitorTarget.ofType 1 "tcp" "10.0.0.9".

(** A DNS target that names no server. *)
Definition dns_target : MonitorTarget.t := MonitorTarget.ofType 6 "dns" "example.org".

(** A target with another packet count. *)
Definition target_with_PingCount (n : Z) (x : MonitorTarget.t) : MonitorTarget.t :=
  MonitorTarget.mk
    (MonitorTarget.ID x) (MonitorTarget.Name x) (MonitorTarget.Type_ x)
    (MonitorTarget.Address x) (MonitorTarget.Port x) (MonitorTarget.Interval x)
    (MonitorTarget.Metadata x) (MonitorTarget.Enabled x)
    (MonitorTarget.HTTPMethod x) (MonitorTarget.HTTPHeaders x)
    (MonitorTarget.HTTPBody x) (MonitorTarget.ResolvedHost x)
    (MonitorTarget.FollowRedirects x) (MonitorTarget.MaxRedirects x)
    (MonitorTarget.ExpectedStatusCodes x) (MonitorTarget.DNSServer x)
    (MonitorTarget.DNSServerName x) (MonitorTarget.DNSServerType x) n
    (MonitorTarget.PingSize x) (MonitorTarget.PingTimeout x)
    (MonitorTarget.SMTPUsername x) (MonitorTarget.SMTPPassword x)
    (MonitorTarget.SMTPUseTLS x) (MonitorTarget.SMTPMailFrom x)
    (MonitorTarget.SMTPMailTo x) (MonitorTarget.SMTPCheckStartTLS x)
    (MonitorTarget.SNMPCommunity x) (MonitorTarget.SNMPOID x)
    (MonitorTarget.SNMPVersion x) (MonitorTarget.SNMPExpectedValue x)
    (MonitorTarget.SNMPOperator x) (MonitorTarget.SSLWarnDays x)
    (MonitorTarget.SSLCriticalDays x) (MonitorTarget.SSLCheck x)
    (MonitorTarget.SSLGetChain x).

(** ** Inputs on which a probe panics *)

(** [HTTPChecker.Check] replaces the shared client by a client without
    a [Transport] when redirects are not followed or are limited, and
    then, for a target with a DNS server of its own, asserts the type of
    that [Transport]: on such a target the assertion panics once the
    request is built. *)
Definition HTTPChecker_panics (target : MonitorTarget.t) : bool :=
  negb (bool_decide (MonitorTarget.DNSServer target = ""))
  && (negb (MonitorTarget.FollowRedirects target)
      || bool_decide (0 < MonitorTarget.MaxRedirects target)).

(** The UDP, TCP and DoT transports build their question with
    [dnsmessage.MustNewName(domain + ".")], which panics for a name of
    more than 255 bytes; the DoH transport does not build one. *)
Definition DNSChecker_panics (target : MonitorTarget.t) : bool :=
  let custom := negb (bool_decide (MonitorTarget.DNSServer target = "")) in
  let dnsServerType := if custom then MonitorTarget.DNSServerType target else "udp" in
  negb (bool_decide (dnsServerType = "doh"))
  && bool_decide (255 < String.length (MonitorTarget.Address target +:+ "."))%nat.

(** Whether the probe of the kind of [target] panics on it. *)
Definition probe_panics (target : MonitorTarget.t) : bool :=
  let typ := MonitorTarget.Type_ target in
  if bool_decide (typ = "http") || bool_decide (typ = "https")
  then HTTPChecker_panics target
  else if bool_decide (typ = "dns") then DNSChecker_panics target
  else false.

(** ** A cooldown beyond the range of a [Duration] *)

(** A rule for every target that asks for one failure and a cooldown of
    9999999999 seconds, and a manager that holds it. *)
Definition long_cooldown_rule : AlertRule.t :=
  AlertRule.mk 1 "one failure" None true "critical"
    (AlertCondition.mk 1 0 false) [1] 9999999999 0.

Definition long_cooldown_manager : alert.Manager :=
  alert.AddRule (alert.AddChannel alert.NewManager webhook_channel)
    long_cooldown_rule.

(** Two [down] events for target 1, one minute apart. *)
Definition two_downs : list (time.Time * AlertEvent.t) :=
  [(sample_now, down_event sample_now);
   (sample_now + 60 * time.Second, down_event (sample_now + 60 * time.Second))].

(** ** The uptime percentage in the words of the specification *)




(** * Properties *)

(** ** Integers and text *)

Lemma to_int_not_nil (z : Z) :
  Z.to_int z <> Decimal.Pos Decimal.Nil /\ Z.to_int z <> Decimal.Neg Decimal.Nil.
Proof.
  destruct z as [|p|p]; simpl; split; try discriminate;
    intros H; injection H as H;
    by apply DecimalPos.Unsigned.to_uint_nonnil in H.
Qed.

Lemma Sscanf_Sprintf (z : Z) : GoInt.Sscanf_d (GoInt.Sprintf_d z) = Some z.
Proof.
  unfold GoInt.Sscanf_d, GoInt.Sprintf_d.
  destruct (to_int_not_nil z) as [Hp Hn].
  rewrite (NilZero.isi _ Hp Hn). simpl. by rewrite DecimalZ.of_to.
Qed.

Lemma int64_small (x : Z) :
  GoInt.MinInt64 <= x <= GoInt.MaxInt64 -> GoInt.int64 x = x.
Proof.
  unfold GoInt.int64, GoInt.wrap, GoInt.MinInt64, GoInt.MaxInt64. intros H.
  change (2 ^ (64 - 1)) with 9223372036854775808 in *.
  change (2 ^ 63) with 9223372036854775808 in *.
  change (2 ^ 64) with 18446744073709551616.
  rewrite Z.mod_small; lia.
Qed.


(** ** determineStatus *)

Lemma determineStatus_up (code : Z) (expected : list Z) :
  determineStatus code expected = "up" <->
  (expected = [] /\ 200 <= code < 300) \/ (expected <> [] /\ code ∈ expected).
Proof.
  unfold determineStatus.
  destruct expected as [|c0 rest].
  - rewrite bool_decide_eq_true_2 by done.
    destruct (bool_decide (200 <= code)) eqn:H1; simpl;
      [destruct (bool_decide (code < 300)) eqn:H2|];
      repeat match goal with
        | H : bool_decide _ = true |- _ => apply bool_decide_eq_true_1 in H
        | H : bool_decide _ = false |- _ => apply bool_decide_eq_false_1 in H
        end;
      split; try done; try (intros _; left; split; [done | lia]);
      intros [[_ ?]|[? _]]; try done; lia.
  - rewrite bool_decide_eq_false_2 by done.
    destruct (existsb _ (c0 :: rest)) eqn:Hex.
    + split; [intros _ | done]. right. split; [done|].
      apply existsb_exists in Hex as (c & Hin & Hc).
      apply bool_decide_eq_true_1 in Hc. subst c. by apply list_elem_of_In.
    + split; [done|]. intros [[? _]|[_ Hin]]; [done|exfalso].
      apply list_elem_of_In in Hin.
      assert (existsb (λ c, bool_decide (code = c)) (c0 :: rest) = true) as Ht.
      { apply existsb_exists. exists code. split; [done|]. by apply bool_decide_eq_true_2. }
      congruence.
Qed.

Lemma determineStatus_up_or_down (code : Z) (expected : list Z) :
  determineStatus code expected = "up" \/ determineStatus code expected = "down".
Proof.
  unfold determineStatus.
  repeat match goal with |- context [if ?b then _ else _] => destruct b end; auto.
Qed.

Example determineStatus_299 : determineStatus 299 [] = "up".
Proof. reflexivity. Qed.
Example determineStatus_300 : determineStatus 300 [] = "down".
Proof. reflexivity. Qed.
Example determineStatus_301_listed : determineStatus 301 [200; 301] = "up".
Proof. reflexivity. Qed.
Example determineStatus_302_unlisted : determineStatus 302 [200; 301] = "down".
Proof. reflexivity. Qed.
(** ** Status of the HTTP and HTTPS probes *)

Lemma HTTPChecker_responded_status target code text sent hdrs body cl ip title el :
  CheckResult.Status
    (HTTPChecker_Check target
       (HTTPIO.Responded code text sent hdrs body cl ip title el)).1
  = determineStatus code (MonitorTarget.ExpectedStatusCodes target).
Proof. simpl. by destruct title. Qed.

Lemma HTTPChecker_no_error target io : (HTTPChecker_Check target io).2 = None.
Proof. by destruct io. Qed.

(** The merge of [HTTPSChecker.Check] changes the status in one case
    only: an SSL result that is [down]. *)
Lemma HTTPSChecker_status target ssl_io http_io el :
  CheckResult.Status (HTTPSChecker_Check target ssl_io http_io el).1 =
  if MonitorTarget.SSLCheck target
     && bool_decide (CheckResult.Status (SSLChecker_Check target ssl_io).1 = "down")
  then "down"
  else CheckResult.Status (HTTPChecker_Check target http_io).1.
Proof.
  unfold HTTPSChecker_Check.
  pose proof (HTTPChecker_no_error target http_io) as Herr.
  destruct (HTTPChecker_Check target http_io) as [httpResult err].
  simpl in Herr. subst err.
  destruct (MonitorTarget.SSLCheck target); simpl; [|done].
  unfold mergeSSL. repeat case_match; done.
Qed.

(** C10, as amended: the status of an HTTP probe that received a
    response with code [code] is [up] exactly when the code is accepted
    (within 200..299 when no code is expected, a member of the expected
    codes otherwise); the same holds for an HTTPS probe unless the
    certificate check is enabled and its SSL result is [down], in which
    case the status is [down]. *)
Theorem http_status_from_code target code text sent hdrs body cl ip title el :
  let http_io := HTTPIO.Responded code text sent hdrs body cl ip title el in
  (CheckResult.Status (HTTPChecker_Check target http_io).1 = "up"
   <-> codeAccepted target code)
  /\ forall ssl_io el',
       let ssl_down :=
         MonitorTarget.SSLCheck target = true
         /\ CheckResult.Status (SSLChecker_Check target ssl_io).1 = "down" in
       (ssl_down ->
        CheckResult.Status (HTTPSChecker_Check target ssl_io http_io el').1 = "down")
       /\ (~ ssl_down ->
           (CheckResult.Status (HTTPSChecker_Check target ssl_io http_io el').1 = "up"
            <-> codeAccepted target code)).
Proof.
  intros http_io. split.
  - unfold http_io. rewrite HTTPChecker_responded_status.
    apply determineStatus_up.
  - intros ssl_io el' ssl_down. rewrite HTTPSChecker_status. split.
    + intros [-> Hd]. simpl. by rewrite bool_decide_eq_true_2.
    + intros Hn.
      assert (MonitorTarget.SSLCheck target
              && bool_decide (CheckResult.Status (SSLChecker_Check target ssl_io).1 = "down")
              = false) as ->.
      { destruct (MonitorTarget.SSLCheck target) eqn:Hc; [simpl|done].
        apply bool_decide_eq_false_2. intros Hd. apply Hn. by split. }
      unfold http_io. rewrite HTTPChecker_responded_status.
      apply determineStatus_up.
Qed.

(** C10 as stated fails: an HTTPS target with no expected codes gets
    [200 OK] while its SSL probe could not connect; the status is [down]
    although the code lies within 200..299. *)
Lemma https_200_with_ssl_down_is_down :
  ~ (CheckResult.Status
       (HTTPSChecker_Check (https_target true) ssl_refused http_ok 15).1 = "up"
     <-> 200 <= 200 < 300).
Proof.
  intros [_ H]. assert (200 <= 200 < 300) as Hr by lia.
  specialize (H Hr). vm_compute in H. discriminate.
Qed.

(** ** The SSL probe: day count and classification *)

Lemma Until_small (now t : time.Time) :
  GoInt.MinInt64 <= t - now <= GoInt.MaxInt64 -> time.Until now t = t - now.
Proof. unfold time.Until, time.Sub. lia. Qed.

(** For a certificate that has not expired the day count is the floor
    of the remaining time in days. *)
Lemma daysUntilExpiry_floor (now : time.Time) (cert : Certificate.t) :
  now <= Certificate.NotAfter cert ->
  Certificate.NotAfter cert - now <= GoInt.MaxInt64 ->
  daysUntilExpiry now cert = (Certificate.NotAfter cert - now) / time.Day.
Proof.
  intros H1 H2. unfold daysUntilExpiry, time.WholeDays.
  rewrite Until_small by (unfold GoInt.MinInt64; lia).
  apply Z.quot_div_nonneg; [lia | done].
Qed.

(** The classification by day count and thresholds. *)
Lemma ssl_classify_status (days criticalDays warnDays : Z) :
  (ssl_classify days criticalDays warnDays).1 =
  if bool_decide (days < 0) then "down"
  else if bool_decide (days <= criticalDays) then "critical"
  else if bool_decide (days <= warnDays) then "warning"
  else "up".
Proof. unfold ssl_classify. repeat case_bool_decide; done. Qed.

Lemma SSLChecker_connected_status target address leaf rest now elapsed :
  CheckResult.Status
    (SSLChecker_Check target (SSLIO.Connected address (leaf :: rest) now elapsed)).1
  = (ssl_classify (daysUntilExpiry now leaf) (MonitorTarget.SSLCriticalDays target)
       (MonitorTarget.SSLWarnDays target)).1.
Proof.
  unfold SSLChecker_Check.
  by destruct (ssl_classify _ _ _) as [status message].
Qed.

(** C5: a leaf certificate that expired less than a day before the
    clock reading of the probe gets the day count 0, where the floor of
    the remaining time in days is -1; with a non-negative critical
    threshold the probe reports [critical], not [down]. *)
Theorem ssl_expired_within_a_day_is_critical
    target address leaf rest (now : time.Time) elapsed :
  now - time.Day < Certificate.NotAfter leaf < now ->
  0 <= MonitorTarget.SSLCriticalDays target ->
  daysUntilExpiry now leaf = 0
  /\ (Certificate.NotAfter leaf - now) / time.Day = -1
  /\ CheckResult.Status
       (SSLChecker_Check target
          (SSLIO.Connected address (leaf :: rest) now elapsed)).1 = "critical".
Proof.
  intros Hexp Hcrit.
  assert (daysUntilExpiry now leaf = 0) as Hdays.
  { unfold daysUntilExpiry, time.WholeDays.
    rewrite Until_small.
    2:{ unfold GoInt.MinInt64, GoInt.MaxInt64.
        change time.Day with 86400000000000 in Hexp. lia. }
    replace (Certificate.NotAfter leaf - now)
      with (- (now - Certificate.NotAfter leaf)) by lia.
    rewrite Z.quot_opp_l by done.
    rewrite Z.quot_small; lia. }
  split; [done|]. split.
  - change time.Day with 86400000000000 in *.
    symmetry. apply (Z.div_unique_pos _ _ _
      (Certificate.NotAfter leaf - now + 86400000000000)); lia.
  - rewrite SSLChecker_connected_status, Hdays, ssl_classify_status.
    rewrite bool_decide_eq_false_2 by lia.
    by rewrite bool_decide_eq_true_2.
Qed.

Lemma ssl_expired_within_a_day_is_critical_witness :
  CheckResult.Status (SSLChecker_Check ssl_target ssl_just_expired).1 = "critical".
Proof.
  apply (ssl_expired_within_a_day_is_critical ssl_target "example.com:443"
           (sample_cert "example.com" "Example CA" (sample_now - time.Second) false)
           [] sample_now 40).
  - vm_compute. split; reflexivity.
  - vm_compute. discriminate.
Defined.

(** ** The DoT transport of the resolver *)

Lemma exchange_trace conn io trace :
  exists tail,
    (dns.exchange conn io trace).1 = trace ++ tail
    /\ (tail = [net.Close conn] /\ (exists e, dns.IO.packed io = inr e)
        \/ exists buf, dns.IO.packed io = inl buf
             /\ tail = [net.Write conn (dns.frame buf); net.Close conn]).
Proof.
  unfold dns.exchange.
  destruct (dns.IO.packed io) as [buf|e]; simpl.
  - exists [net.Write conn (dns.frame buf); net.Close conn].
    split; [|right; eauto].
    repeat case_match; simpl; by rewrite <- app_assoc.
  - exists [net.Close conn]. split; [done|]. left. eauto.
Qed.

Lemma exchange_writes conn io trace c data :
  net.Write c data ∈ (dns.exchange conn io trace).1 ->
  net.Write c data ∈ trace
  \/ (c = conn /\ exists buf, dns.IO.packed io = inl buf /\ data = dns.frame buf).
Proof.
  destruct (exchange_trace conn io trace) as (tail & -> & Htail).
  intros [H|H]%elem_of_app; [by left|].
  destruct Htail as [[-> _]|(buf & Hbuf & ->)].
  - apply list_elem_of_singleton in H. discriminate.
  - apply elem_of_cons in H as [H|H].
    + injection H as -> ->. right. eauto.
    + apply list_elem_of_singleton in H. discriminate.
Qed.

(** When the server address has no port the dial goes to port 853. *)
Lemma lookupDoT_default_port r domain io e :
  net.SplitHostPort (dns.Server r) = inr e ->
  head (dns.lookupDoT r domain io).1
  = Some (net.Dial "tcp" (net.JoinHostPort (dns.Server r) "853")).
Proof.
  intros Hs. unfold dns.lookupDoT, dns.dotAddress. rewrite Hs.
  destruct (dns.IO.dial io); [done|]. simpl.
  unfold dns.exchange. repeat case_match; done.
Qed.

(** The bytes written are the 2-byte length prefix followed by the
    packed message, as on the TCP transport. *)
Lemma lookupTCP_frames r domain io c data :
  net.Write c data ∈ (dns.lookupTCP r domain io).1 ->
  exists buf, dns.IO.packed io = inl buf /\ data = dns.frame buf.
Proof.
  unfold dns.lookupTCP. destruct (dns.IO.dial io); simpl.
  - intros H%list_elem_of_singleton. discriminate.
  - intros [H%list_elem_of_singleton|[_ H]]%exchange_writes; [discriminate | done].
Qed.

Lemma frame_prefix (buf : list Z) :
  Z.of_nat (length buf) < 65536 ->
  exists hi lo, dns.frame buf = hi :: lo :: buf
    /\ 0 <= hi < 256 /\ 0 <= lo < 256 /\ hi * 256 + lo = Z.of_nat (length buf).
Proof.
  intros Hlen. unfold dns.frame, GoInt.byte. simpl.
  eexists _, _. split; [reflexivity|].
  change 255 with (Z.ones 8). rewrite !Z.land_ones by lia.
  rewrite Z.shiftr_div_pow2 by lia. change (2 ^ 8) with 256.
  pose proof (Z.mod_pos_bound (Z.of_nat (length buf) / 256) 256).
  pose proof (Z.mod_pos_bound (Z.of_nat (length buf)) 256).
  rewrite (Z.mod_small (_ / 256)) by (split; [apply Z.div_pos; lia | apply Z.div_lt_upper_bound; lia]).
  pose proof (Z.div_mod (Z.of_nat (length buf)) 256). lia.
Qed.

(** C6: whatever the server and the outcome of the I/O, the connection
    on which [lookupDoT] writes the query is the socket returned by the
    dialer, with no TLS session around it; the bytes written are the
    length-prefixed message. *)
Theorem dot_query_written_without_tls r domain io c data :
  net.Write c data ∈ (dns.lookupDoT r domain io).1 ->
  net.isTLS c = false
  /\ c = net.Socket "tcp"
           (net.JoinHostPort (dns.dotAddress r).1 (dns.dotAddress r).2)
  /\ exists buf, dns.IO.packed io = inl buf /\ data = dns.frame buf.
Proof.
  unfold dns.lookupDoT. destruct (dns.dotAddress r) as [host port]. simpl.
  destruct (dns.IO.dial io); simpl.
  - intros H%list_elem_of_singleton. discriminate.
  - intros [H%list_elem_of_singleton|[-> H]]%exchange_writes; [discriminate | done].
Qed.

Lemma dot_query_written_without_tls_witness :
  net.isTLS (net.Socket "tcp" "1.1.1.1:853") = false
  /\ (dns.lookupDoT dot_resolver "example.org" dns_io_ok).1
     = [net.Dial "tcp" "1.1.1.1:853";
        net.Write (net.Socket "tcp" "1.1.1.1:853") [0; 5; 171; 205; 1; 0; 0];
        net.Close (net.Socket "tcp" "1.1.1.1:853")].
Proof.
  split; [|reflexivity].
  apply (dot_query_written_without_tls dot_resolver "example.org" dns_io_ok
           (net.Socket "tcp" "1.1.1.1:853") [0; 5; 171; 205; 1; 0; 0]).
  vm_compute. apply list_elem_of_In. simpl. auto.
Defined.

(** ** The scheduler *)

Lemma saveResult_frame s target result now :
  let s' := saveResult s target result now in
  Service.targets s' = Service.targets s
  /\ Service.checkQueue s' = Service.checkQueue s
  /\ Service.tickers s' = Service.tickers s
  /\ Service.ctxDone s' = Service.ctxDone s.
Proof. unfold saveResult. simpl. by case_bool_decide. Qed.

Lemma checkTarget_frame s target io now :
  let s' := checkTarget s target io now in
  Service.targets s' = Service.targets s
  /\ Service.checkQueue s' = Service.checkQueue s
  /\ Service.tickers s' = Service.tickers s
  /\ Service.ctxDone s' = Service.ctxDone s.
Proof.
  unfold checkTarget.
  destruct (NewChecker _) as [checker|e]; [|done].
  destruct (Check checker target io) as [result [e|]]; [done|].
  apply saveResult_frame.
Qed.

Lemma enqueueCheck_space s target :
  (length (Service.checkQueue s) < Service.checkQueueCap)%nat ->
  enqueueCheck s target
  = Service.with_checkQueue (Service.checkQueue s ++ [target]) s.
Proof. intros H. unfold enqueueCheck. by rewrite bool_decide_eq_true_2. Qed.

Lemma enqueueCheck_full s target :
  length (Service.checkQueue s) = Service.checkQueueCap ->
  enqueueCheck s target
  = Service.with_logs
      (Service.logs s ++
         [Warn "Check queue full, skipping check" (MonitorTarget.ID target)]) s.
Proof. intros H. unfold enqueueCheck. rewrite bool_decide_eq_false_2; [done | lia]. Qed.

(** C8: a tick of a running ticker is a non-blocking send on the check
    queue, whose capacity is 1000.  The step is defined in every state
    and keeps the queue within its capacity.  On a full queue the tick
    is dropped: the queue, the store, the file log and the index buffer
    are unchanged and one warning is logged.  With room in the queue the
    target is appended; in particular a tick that follows a dropped one,
    once a worker has taken an entry, is enqueued. *)
Theorem tick_is_nonblocking_enqueue s i target :
  Service.ctxDone s = false ->
  Service.tickers s !! i = Some target ->
  (length (Service.checkQueue s) <= Service.checkQueueCap)%nat ->
  let s' := tick s i in
  Service.checkQueueCap = 1000%nat
  /\ (length (Service.checkQueue s') <= Service.checkQueueCap)%nat
  /\ (length (Service.checkQueue s) = Service.checkQueueCap ->
      Service.checkQueue s' = Service.checkQueue s
      /\ Service.logs s' =
         Service.logs s ++
           [Warn "Check queue full, skipping check" (MonitorTarget.ID target)]
      /\ Service.db s' = Service.db s
      /\ Service.fileLog s' = Service.fileLog s
      /\ Service.esBuffer s' = Service.esBuffer s
      /\ forall io now j target',
           Service.tickers s !! j = Some target' ->
           exists first rest,
             Service.checkQueue s = first :: rest
             /\ Service.checkQueue (tick (checkWorker s' io now) j)
                = rest ++ [target'])
  /\ ((length (Service.checkQueue s) < Service.checkQueueCap)%nat ->
      Service.checkQueue s' = Service.checkQueue s ++ [target]
      /\ Service.logs s' = Service.logs s
      /\ Service.db s' = Service.db s).
Proof.
  intros Hctx Htick Hcap s'. split; [reflexivity|].
  assert (s' = enqueueCheck s target) as Hs'.
  { unfold s', tick. by rewrite Hctx, Htick. }
  split; [|split].
  - rewrite Hs'. unfold enqueueCheck. case_bool_decide; simpl; [|done].
    rewrite length_app. simpl. lia.
  - intros Hfull. rewrite Hs', (enqueueCheck_full _ _ Hfull). simpl.
    do 5 (split; [done|]).
    intros io now j target' Hj.
    destruct (Service.checkQueue s) as [|first rest] eqn:Hq.
    { simpl in Hfull. unfold Service.checkQueueCap in Hfull. lia. }
    exists first, rest. split; [done|].
    unfold checkWorker. simpl. rewrite Hctx, Hq.
    match goal with |- context [checkTarget ?st first io now] =>
      destruct (checkTarget_frame st first io now) as (_ & Hcq & Htk & Hdone);
      set (s2 := checkTarget st first io now) in *
    end.
    simpl in Hcq, Htk, Hdone.
    unfold tick. rewrite Hdone, Hctx, Htk, Hj.
    rewrite enqueueCheck_space; simpl; rewrite Hcq; [done|].
    simpl in Hfull. lia.
  - intros Hroom. rewrite Hs', (enqueueCheck_space _ _ Hroom). done.
Qed.

Lemma tick_is_nonblocking_enqueue_witness :
  Service.checkQueue (tick service_queue_full 0)
  = Service.checkQueue service_queue_full
  /\ Service.logs (tick service_queue_full 0)
     = [Warn "Check queue full, skipping check" 1].
Proof.
  assert (length (Service.checkQueue service_queue_full) = Service.checkQueueCap)
    as Hfull by (vm_compute; reflexivity).
  destruct (tick_is_nonblocking_enqueue service_queue_full 0 tcp_target)
    as (_ & _ & H & _).
  - reflexivity.
  - reflexivity.
  - rewrite Hfull. lia.
  - destruct (H Hfull) as (Hq & Hl & _). split; [exact Hq | exact Hl].
Defined.

(** C2: what [RemoveTarget(id)] does.  It deletes the registry entry of
    [id] (and reports an error when there is none) and nothing else: the
    other entries, the running tickers, the check queue, the root
    context and the store are unchanged, so the ticker started for the
    target is not stopped and keeps enqueueing it for as long as the
    root context is not done. *)
Theorem RemoveTarget_only_unregisters s id :
  let s' := (RemoveTarget s id).1 in
  Service.targets s' !! id = None
  /\ ((RemoveTarget s id).2 = None <-> is_Some (Service.targets s !! id))
  /\ (forall id', id' <> id -> Service.targets s' !! id' = Service.targets s !! id')
  /\ Service.tickers s' = Service.tickers s
  /\ Service.checkQueue s' = Service.checkQueue s
  /\ Service.ctxDone s' = Service.ctxDone s
  /\ Service.db s' = Service.db s
  /\ forall i target,
       Service.ctxDone s = false ->
       Service.tickers s !! i = Some target ->
       (length (Service.checkQueue s) < Service.checkQueueCap)%nat ->
       Service.checkQueue (tick s' i) = Service.checkQueue s ++ [target].
Proof.
  unfold RemoveTarget.
  destruct (Service.targets s !! id) as [t0|] eqn:Hlook; simpl.
  - split; [apply lookup_delete_eq|].
    split; [split; eauto|].
    split; [intros id' Hne; by apply lookup_delete_ne|].
    do 4 (split; [done|]).
    intros i target Hctx Htick Hroom. unfold tick. simpl.
    rewrite Hctx, Htick. by rewrite enqueueCheck_space.
  - split; [done|].
    split; [split; [done | by intros [? ?]]|].
    split; [done|].
    do 4 (split; [done|]).
    intros i target Hctx Htick Hroom. unfold tick.
    rewrite Hctx, Htick. by rewrite enqueueCheck_space.
Qed.

(** A target is added and removed while nothing is queued or running;
    its ticker then fires twice and a worker runs both checks.  The
    first tick after the removal is enqueued and two results are
    recorded for the removed target. *)
Lemma ticks_and_results_continue_after_RemoveTarget :
  let s1 := AddTarget (Service.New database.empty) tcp_target in
  let s2 := (RemoveTarget s1 1).1 in
  let s3 := checkWorker (tick s2 0) probe_io_ok sample_now in
  let s4 := checkWorker (tick s3 0) probe_io_ok (sample_now + 60 * time.Second) in
  ~ ((RemoveTarget s1 1).2 = None ->
     Service.checkQueue (tick s2 0) = []
     \/ (length (List.filter
                   (fun h => bool_decide (MonitorHistory.TargetID h = 1%Z))
                   (database.monitor_history (Service.db s4))) <= 1)%nat).
Proof.
  intros s1 s2 s3 s4 H.
  assert ((RemoveTarget s1 1).2 = None) as Hr by reflexivity.
  destruct (H Hr) as [Hq|Hn].
  - vm_compute in Hq. discriminate.
  - vm_compute in Hn. lia.
Qed.

(** ** The worker: which results reach the pipeline *)

Lemma HTTPSChecker_no_error target ssl_io http_io el :
  (HTTPSChecker_Check target ssl_io http_io el).2 = None.
Proof.
  unfold HTTPSChecker_Check.
  pose proof (HTTPChecker_no_error target http_io) as Herr.
  destruct (HTTPChecker_Check target http_io) as [httpResult err].
  simpl in Herr. by subst err.
Qed.

Lemma SSLChecker_no_error target io : (SSLChecker_Check target io).2 = None.
Proof.
  destruct io as [address err el|address [|leaf rest] now el]; try done.
  unfold SSLChecker_Check. by destruct (ssl_classify _ _ _).
Qed.

(** The HTTP, HTTPS, TCP, UDP, DNS and SSL probes never return a Go
    error: the worker forwards every result of theirs. *)
Lemma Check_without_error checker target io :
  checker ∈ [HTTPChecker; HTTPSChecker; TCPChecker; UDPChecker; DNSChecker; SSLChecker] ->
  (Check checker target io).2 = None.
Proof.
  intros Hin. repeat (apply elem_of_cons in Hin as [->|Hin]); simpl.
  - apply HTTPChecker_no_error.
  - apply HTTPSChecker_no_error.
  - unfold TCPChecker_Check. by destruct (DialIO.err _).
  - unfold UDPChecker_Check. by destruct (DialIO.err _).
  - unfold DNSChecker_Check. by destruct (dns.Lookup _ _ _).2.
  - apply SSLChecker_no_error.
  - by apply not_elem_of_nil in Hin.
Qed.

Lemma checkTarget_forwards s target io now checker :
  NewChecker (MonitorTarget.Type_ target) = inl checker ->
  (Check checker target io).2 = None ->
  checkTarget s target io now
  = saveResult s target (Check checker target io).1 now.
Proof.
  intros Hc He. unfold checkTarget. rewrite Hc.
  by destruct (Check checker target io) as [result [e|]].
Qed.

(** A failed TCP dial: the result is [down], carries no [ErrorDetails]
    and is forwarded. *)
Lemma TCPChecker_dial_failure target io err :
  DialIO.err io = Some err ->
  TCPChecker_Check target io
  = (CheckResult.basic "down" (DialIO.elapsed io) ("TCP connection failed: " +:+ err),
     None).
Proof. intros H. unfold TCPChecker_Check. by rewrite H. Qed.

(** C3: when the TCP dial of the SMTP probe fails, the probe builds a
    [down] result without [ErrorDetails] and returns it together with
    the Go error; [checkTarget] takes its error branch, logs and
    returns: the store, the file log and the index buffer are those of
    before, so the failed check leaves no status and no history. *)
Theorem smtp_failure_is_discarded_by_worker s target io now err :
  NewChecker (MonitorTarget.Type_ target) = inl SMTPCheckerWrapper ->
  SMTPIO.tcpDial (ProbeIO.smtp io) = Some err ->
  let probe := Check SMTPCheckerWrapper target io in
  let s' := checkTarget s target io now in
  CheckResult.Status probe.1 = "down"
  /\ CheckResult.Error probe.1 = None
  /\ probe.2 = Some err
  /\ Service.db s' = Service.db s
  /\ Service.fileLog s' = Service.fileLog s
  /\ Service.esBuffer s' = Service.esBuffer s
  /\ Service.logs s' =
     Service.logs s ++
       [Printf ("Check failed for target "
                +:+ GoInt.Sprintf_d (MonitorTarget.ID target) +:+ ": " +:+ err)].
Proof.
  intros Hc Hdial probe s'.
  assert (probe = smtp_fail "down" "Connection failed: " err) as Hp.
  { unfold probe. simpl. unfold SMTPChecker_Check. by rewrite Hdial. }
  unfold s', checkTarget. rewrite Hc. fold probe. rewrite Hp. simpl. done.
Qed.

Lemma smtp_failure_is_discarded_by_worker_witness :
  Service.db (checkTarget (Service.New database.empty) smtp_target
                probe_io_smtp_refused sample_now)
  = database.empty.
Proof.
  apply (smtp_failure_is_discarded_by_worker (Service.New database.empty)
           smtp_target probe_io_smtp_refused sample_now "connection refused");
    reflexivity.
Defined.

(** The SNMP and ping probes return their failures the same way. *)
Lemma snmp_ping_failures_return_error target err :
  (SNMPChecker_Check target (SNMPIO.GetFailed err)).2 = Some err
  /\ (PingChecker_Check target (PingIO.Failed err)).2 = Some err.
Proof. done. Qed.

(** ** The result pipeline and the alert manager *)

Lemma SaveStatus_history db st :
  database.monitor_history (database.SaveStatus db st) = database.monitor_history db.
Proof. unfold database.SaveStatus. repeat case_match; done. Qed.

Lemma updateUptimePercentage_history db id now :
  database.monitor_history (updateUptimePercentage db id now)
  = database.monitor_history db.
Proof.
  unfold updateUptimePercentage.
  destruct (database.FirstStatus db id); [apply SaveStatus_history | done].
Qed.

Lemma SaveStatus_historySeq db st :
  database.historySeq (database.SaveStatus db st) = database.historySeq db.
Proof. unfold database.SaveStatus. repeat case_match; done. Qed.

(** The store after [saveResult]: the upsert of the status row, the
    append of the history record, the uptime recomputation. *)
Lemma saveResult_db s target result now :
  Service.db (saveResult s target result now)
  = updateUptimePercentage
      (database.CreateHistory
         (database.SaveStatus (Service.db s)
            (buildStatus
               (default (MonitorStatus.zero (MonitorTarget.ID target))
                  (database.FirstStatus (Service.db s) (MonitorTarget.ID target)))
               target result now))
         (MonitorHistory.mk 0 (MonitorTarget.ID target) (CheckResult.Status result)
            (CheckResult.ResponseTime result) (CheckResult.Message result) now))
      (MonitorTarget.ID target) now.
Proof. unfold saveResult. by case_bool_decide. Qed.

Lemma saveResult_history s target result now :
  database.monitor_history (Service.db (saveResult s target result now))
  = database.monitor_history (Service.db s) ++
      [MonitorHistory.mk (database.historySeq (Service.db s))
         (MonitorTarget.ID target) (CheckResult.Status result)
         (CheckResult.ResponseTime result) (CheckResult.Message result) now].
Proof.
  rewrite saveResult_db, updateUptimePercentage_history. simpl.
  by rewrite SaveStatus_history, SaveStatus_historySeq.
Qed.

Lemma saveResult_fileLog s target result now :
  Service.fileLog (saveResult s target result now)
  = Service.fileLog s ++ [fileLogEntry target result].
Proof. unfold saveResult. simpl. by case_bool_decide. Qed.


Lemma pushEvent_length buffer event :
  (length buffer <= 100)%nat -> (length (alert.pushEvent buffer event) <= 100)%nat.
Proof.
  intros H. unfold alert.pushEvent.
  case_bool_decide as Hlen; [rewrite length_drop|];
    rewrite length_app in *; simpl in *; lia.
Qed.

Lemma ProcessEvent_buffer m event now :
  alert.eventBuffer (alert.ProcessEvent m event now).1
  = <[AlertEvent.TargetID event :=
        alert.pushEvent
          (default [] (alert.eventBuffer m !! AlertEvent.TargetID event)) event]>
      (alert.eventBuffer m).
Proof. unfold alert.ProcessEvent. by destruct (foldl _ _ _). Qed.

(** ** The uptime percentage *)

Lemma FirstStatus_Some db id row :
  database.FirstStatus db id = Some row ->
  row ∈ database.monitor_status db /\ MonitorStatus.TargetID row = id.
Proof.
  unfold database.FirstStatus. intros H.
  apply find_some in H as [Hin Hb].
  apply bool_decide_eq_true_1 in Hb. split; [by apply list_elem_of_In | done].
Qed.

Lemma find_target_app (rows more : list MonitorStatus.t) id :
  List.find (fun s => bool_decide (MonitorStatus.TargetID s = id)) rows = None ->
  List.find (fun s => bool_decide (MonitorStatus.TargetID s = id)) (rows ++ more)
  = List.find (fun s => bool_decide (MonitorStatus.TargetID s = id)) more.
Proof.
  induction rows as [|x rows IH]; simpl; [done|].
  destruct (bool_decide (MonitorStatus.TargetID x = id)); [done | apply IH].
Qed.

Lemma find_target_replace (rows : list MonitorStatus.t) id row st :
  NoDup (MonitorStatus.ID <$> rows) ->
  List.find (fun s => bool_decide (MonitorStatus.TargetID s = id)) rows = Some row ->
  MonitorStatus.ID st = MonitorStatus.ID row ->
  MonitorStatus.TargetID st = id ->
  List.find (fun s => bool_decide (MonitorStatus.TargetID s = id))
    (database.replaceStatus st rows) = Some st.
Proof.
  induction rows as [|x rows IH]; simpl; [done|].
  intros Hnd Hfind Hid Htid. apply NoDup_cons in Hnd as [Hx Hnd].
  destruct (bool_decide (MonitorStatus.TargetID x = id)) eqn:Hb.
  - injection Hfind as ->.
    rewrite (bool_decide_eq_true_2 (MonitorStatus.ID row = MonitorStatus.ID st))
      by done.
    by rewrite bool_decide_eq_true_2.
  - assert (MonitorStatus.ID x <> MonitorStatus.ID st) as Hne.
    { intros Heq. apply Hx. rewrite Heq, Hid.
      apply list_elem_of_fmap. exists row. split; [done|].
      apply find_some in Hfind as [Hin _]. by apply list_elem_of_In. }
    rewrite (bool_decide_eq_false_2 (MonitorStatus.ID x = MonitorStatus.ID st))
      by done.
    rewrite Hb. by apply IH.
Qed.

Lemma replaceStatus_keys st rows :
  MonitorStatus.ID <$> database.replaceStatus st rows = MonitorStatus.ID <$> rows.
Proof.
  unfold database.replaceStatus. rewrite <- list_fmap_compose.
  apply list_fmap_ext. intros i x _. simpl. by case_bool_decide.
Qed.

Lemma existsb_key rows row :
  row ∈ rows ->
  existsb (fun r => bool_decide (MonitorStatus.ID r = MonitorStatus.ID row)) rows = true.
Proof.
  intros Hin. apply existsb_exists. exists row.
  split; [by apply list_elem_of_In | by apply bool_decide_eq_true_2].
Qed.

(** The upsert, when the row was built from what [FirstStatus]
    returned: the row is then the first of its target, and the table
    stays well formed. *)
Lemma SaveStatus_upsert db id st :
  status_keys_ok db ->
  MonitorStatus.TargetID st = id ->
  match database.FirstStatus db id with
  | Some row => MonitorStatus.ID st = MonitorStatus.ID row
  | None => MonitorStatus.ID st = 0
  end ->
  let db' := database.SaveStatus db st in
  status_keys_ok db'
  /\ exists st', database.FirstStatus db' id = Some st'
       /\ MonitorStatus.with_ID (MonitorStatus.ID st') st = st'
       /\ (forall row, row ∈ database.monitor_status db' ->
             row = st' \/ row ∈ database.monitor_status db).
Proof.
  intros (Hseq & Hnd & Hall) Htid Hkey. unfold database.SaveStatus.
  destruct (database.FirstStatus db id) as [row|] eqn:Hfirst.
  - destruct (FirstStatus_Some _ _ _ Hfirst) as [Hin Hrow].
    assert (0 < MonitorStatus.ID row < database.statusSeq db) as Hb.
    { by apply (proj1 (Forall_forall _ _) Hall). }
    rewrite bool_decide_eq_false_2 by lia.
    rewrite Hkey, (existsb_key _ _ Hin). simpl.
    split; [|exists st; split; [|split]].
    + split; [done|]. split; simpl.
      * by rewrite replaceStatus_keys.
      * apply Forall_forall. intros r Hr.
        unfold database.replaceStatus in Hr.
        apply list_elem_of_fmap in Hr as (r0 & -> & Hr0).
        case_bool_decide; [lia|].
        by apply (proj1 (Forall_forall _ _) Hall).
    + unfold database.FirstStatus. simpl.
      by apply (find_target_replace _ _ row).
    + by destruct st.
    + simpl. intros r Hr. unfold database.replaceStatus in Hr.
      apply list_elem_of_fmap in Hr as (r0 & -> & Hr0).
      case_bool_decide; [by left | by right].
  - rewrite Hkey. rewrite bool_decide_eq_true_2 by done. simpl.
    split; [|exists (MonitorStatus.with_ID (database.statusSeq db) st);
             split; [|split]].
    + split; [simpl; lia|]. split; simpl.
      * rewrite fmap_app. simpl. apply NoDup_app. split; [done|].
        split; [|apply NoDup_singleton].
        intros k Hk Hk'. apply list_elem_of_singleton in Hk'. subst k.
        apply list_elem_of_fmap in Hk as (r & Hr & Hin).
        pose proof (proj1 (Forall_forall _ _) Hall r Hin) as Hb.
        simpl in Hb, Hr. destruct st; simpl in *. lia.
      * apply Forall_app. split.
        -- eapply Forall_impl; [exact Hall|]. simpl. intros; lia.
        -- apply Forall_singleton. simpl. lia.
    + unfold database.FirstStatus in *. simpl.
      rewrite find_target_app by done. simpl.
      by rewrite bool_decide_eq_true_2.
    + done.
    + simpl. intros r [Hr|Hr]%elem_of_app; [by right|].
      apply list_elem_of_singleton in Hr. by left.
Qed.



Lemma buildStatus_keeps status target result now :
  MonitorStatus.ID (buildStatus status target result now) = MonitorStatus.ID status
  /\ MonitorStatus.TargetID (buildStatus status target result now)
     = MonitorStatus.TargetID status
  /\ MonitorStatus.UptimePercentage (buildStatus status target result now)
     = MonitorStatus.UptimePercentage status.
Proof. done. Qed.

Lemma CreateHistory_status db h :
  database.monitor_status (database.CreateHistory db h) = database.monitor_status db
  /\ database.statusSeq (database.CreateHistory db h) = database.statusSeq db.
Proof. done. Qed.



(** ** The HTTPS probe: merge of the SSL result *)

Lemma certInfo_days now i cert :
  certInfo now i cert !! "days_until_expiry" = Some (VInt (daysUntilExpiry now cert)).
Proof.
  unfold certInfo.
  destruct (Certificate.SubjectOrganization cert),
    (Certificate.IssuerOrganization cert), (Certificate.DNSNames cert);
    repeat (rewrite lookup_insert_ne by done); apply lookup_insert_eq.
Qed.

Lemma SSLChecker_connected_data target address leaf rest now elapsed :
  CheckResult.Data
    (SSLChecker_Check target (SSLIO.Connected address (leaf :: rest) now elapsed)).1
  = match chainInfo target now (leaf :: rest) with
    | _ :: _ => {["certificate_chain" := DChain (chainInfo target now (leaf :: rest))]}
    | [] => ∅
    end.
Proof.
  unfold SSLChecker_Check. destruct (ssl_classify _ _ _) as [status message]. simpl.
  by destruct (chainInfo target now (leaf :: rest)).
Qed.

Lemma mergeSSL_status httpResult sslResult :
  CheckResult.Status (mergeSSL httpResult sslResult)
  = if bool_decide (CheckResult.Status sslResult = "down") then "down"
    else CheckResult.Status httpResult.
Proof. unfold mergeSSL. repeat case_match; done. Qed.

Lemma mergeSSL_message httpResult sslResult :
  CheckResult.Message (mergeSSL httpResult sslResult)
  = if bool_decide (CheckResult.Status sslResult = "down")
    then CheckResult.Message httpResult +:+ " (SSL: "
           +:+ CheckResult.Message sslResult +:+ ")"
    else CheckResult.Message httpResult +:+ " | SSL: "
           +:+ CheckResult.Message sslResult.
Proof. unfold mergeSSL. repeat case_match; done. Qed.

Lemma mergeSSL_chain httpResult sslResult certChain :
  CheckResult.Data sslResult !! "certificate_chain" = Some certChain ->
  CheckResult.Data (mergeSSL httpResult sslResult) !! "certificate_chain"
  = Some certChain.
Proof.
  intros H. unfold mergeSSL. rewrite H.
  destruct (CheckResult.Data sslResult !! "certificate_info");
    repeat case_match; simpl;
    rewrite ?lookup_insert_ne by done; apply lookup_insert_eq.
Qed.

Lemma mergeSSL_no_chain httpResult sslResult :
  CheckResult.Data sslResult = ∅ ->
  CheckResult.Data (mergeSSL httpResult sslResult) = CheckResult.Data httpResult
  /\ CheckResult.header "days_until_expiry" (mergeSSL httpResult sslResult)
     = CheckResult.header "days_until_expiry" httpResult.
Proof.
  intros H. unfold mergeSSL. rewrite H, !lookup_empty.
  unfold CheckResult.header.
  repeat case_match; simpl; rewrite ?lookup_insert_ne by done; done.
Qed.

Lemma mergeSSL_days httpResult sslResult leaf tl days :
  CheckResult.Data sslResult !! "certificate_chain" = Some (DChain (leaf :: tl)) ->
  leaf !! "days_until_expiry" = Some (VInt days) ->
  CheckResult.header "days_until_expiry" (mergeSSL httpResult sslResult)
  = Some (GoInt.Sprintf_d days).
Proof.
  intros Hc Hd. unfold mergeSSL. rewrite Hc, Hd.
  unfold CheckResult.header.
  case_bool_decide; simpl; apply lookup_insert_eq.
Qed.

(** The merge writes the certificate summary of the SSL result under
    the keys [ssl_issuer], [ssl_subject] and [ssl_serial]; the keys
    [issuer], [subject] and [serial] keep what the HTTP result had. *)
Lemma mergeSSL_summary_keys httpResult sslResult k :
  k ∈ ["issuer"; "subject"; "serial"] ->
  CheckResult.header k (mergeSSL httpResult sslResult)
  = CheckResult.header k httpResult.
Proof.
  intros Hk. unfold mergeSSL, CheckResult.header.
  repeat (apply elem_of_cons in Hk as [->|Hk]);
    [..|by apply not_elem_of_nil in Hk];
    repeat case_match; simpl; rewrite ?lookup_insert_ne by done; done.
Qed.

Lemma buildStatus_days status target result now days :
  isTLSKind (MonitorTarget.Type_ target) = true ->
  CheckResult.header "days_until_expiry" result = Some (GoInt.Sprintf_d days) ->
  MonitorStatus.SSLDaysUntilExpiry (buildStatus status target result now) = Some days.
Proof.
  intros Hk Hh. unfold buildStatus. simpl. rewrite Hk, Hh. simpl.
  by rewrite Sscanf_Sprintf.
Qed.

(** C4, as amended: for an HTTPS target with [ssl_check] and
    [ssl_get_chain] set whose SSL probe completed the handshake and read
    a non-empty chain, the merged result carries the chain under
    [data.certificate_chain] and the day count of the leaf under
    [response.headers.days_until_expiry], from which the pipeline fills
    the typed days-until-expiry field of the status row; and whenever the
    SSL result of an HTTPS target with [ssl_check] is [down], the merged
    status is [down] and the message is the HTTP message followed by the
    SSL message in parentheses. *)
Theorem https_merge_with_chain target address leaf rest now el http_io el' :
  MonitorTarget.Type_ target = "https" ->
  MonitorTarget.SSLCheck target = true ->
  MonitorTarget.SSLGetChain target = true ->
  let ssl_io := SSLIO.Connected address (leaf :: rest) now el in
  let r := (HTTPSChecker_Check target ssl_io http_io el').1 in
  CheckResult.Data r !! "certificate_chain"
  = Some (DChain (imap (certInfo now) (leaf :: rest)))
  /\ CheckResult.header "days_until_expiry" r
     = Some (GoInt.Sprintf_d (daysUntilExpiry now leaf))
  /\ (forall status now',
        MonitorStatus.SSLDaysUntilExpiry (buildStatus status target r now')
        = Some (daysUntilExpiry now leaf))
  /\ forall ssl_io' : SSLIO.t,
       let ssl := (SSLChecker_Check target ssl_io').1 in
       let http := (HTTPChecker_Check target http_io).1 in
       let r' := (HTTPSChecker_Check target ssl_io' http_io el').1 in
       CheckResult.Status ssl = "down" ->
       CheckResult.Status r' = "down"
       /\ CheckResult.Message r'
          = CheckResult.Message http +:+ " (SSL: " +:+ CheckResult.Message ssl +:+ ")".
Proof.
  intros Htype Hcheck Hchain ssl_io r.
  assert (forall io, (HTTPSChecker_Check target io http_io el').1
            = CheckResult.with_ResponseTime el'
                (mergeSSL (HTTPChecker_Check target http_io).1
                   (SSLChecker_Check target io).1)) as Hmerge.
  { intros io. unfold HTTPSChecker_Check. rewrite Hcheck.
    pose proof (HTTPChecker_no_error target http_io) as Herr.
    destruct (HTTPChecker_Check target http_io) as [httpResult err].
    simpl in Herr. by subst err. }
  assert (CheckResult.Data (SSLChecker_Check target ssl_io).1 !! "certificate_chain"
          = Some (DChain (certInfo now 0 leaf :: imap (certInfo now ∘ S) rest)))
    as Hdata.
  { unfold ssl_io. rewrite SSLChecker_connected_data.
    unfold chainInfo. rewrite Hchain. simpl. apply lookup_singleton_eq. }
  assert (CheckResult.header "days_until_expiry" r
          = Some (GoInt.Sprintf_d (daysUntilExpiry now leaf))) as Hdays.
  { unfold r. rewrite Hmerge.
    change (CheckResult.header "days_until_expiry" (CheckResult.with_ResponseTime ?e ?x))
      with (CheckResult.header "days_until_expiry" x).
    eapply mergeSSL_days; [exact Hdata | apply certInfo_days]. }
  split; [|split; [|split]].
  - unfold r. rewrite Hmerge. simpl. by apply mergeSSL_chain.
  - exact Hdays.
  - intros status now'. apply buildStatus_days; [|exact Hdays].
    by rewrite Htype.
  - intros ssl_io' ssl http r' Hdown. unfold r'. rewrite Hmerge. simpl.
    rewrite mergeSSL_status, mergeSSL_message.
    by rewrite bool_decide_eq_true_2.
Qed.

Lemma https_merge_with_chain_witness :
  CheckResult.header "days_until_expiry"
    (HTTPSChecker_Check (https_target true) ssl_connected http_ok 15).1
  = Some "90".
Proof.
  refine (proj1 (proj2 (https_merge_with_chain (https_target true)
            "example.com:443"
            (sample_cert "example.com" "Example CA" (sample_now + 90 * time.Day) false)
            [sample_cert "Example CA" "Example Root" (sample_now + 900 * time.Day) true]
            sample_now 40 http_ok 15 _ _ _))); reflexivity.
Defined.

(** C4 as stated fails: with [ssl_get_chain] off, a successful handshake
    puts neither the chain nor the day count of the leaf into the merged
    result, and the issuer is not to be found under the key [issuer]. *)
Lemma https_merge_without_chain :
  let r := (HTTPSChecker_Check (https_target false) ssl_connected http_ok 15).1 in
  ~ (is_Some (CheckResult.Data r !! "certificate_chain")
     \/ is_Some (CheckResult.header "days_until_expiry" r)
     \/ is_Some (CheckResult.header "issuer" r)).
Proof.
  intros r [[x H]|[[x H]|[x H]]]; vm_compute in H; discriminate.
Qed.

(** ** The alert manager: cooldown *)

Lemma Seconds_small (n : Z) :
  0 <= n -> n * time.Second <= GoInt.MaxInt64 -> time.Seconds n = n * time.Second.
Proof.
  intros H1 H2. unfold time.Seconds. apply int64_small.
  unfold GoInt.MinInt64, time.Second in *. lia.
Qed.

(** A rule with a cooldown that fires either has never fired or fired
    at least the cooldown before. *)
Lemma fires_after_cooldown events event now rule :
  alert.fires events event now rule = true ->
  0 < AlertRule.CooldownSeconds rule ->
  AlertRule.CooldownSeconds rule * time.Second <= GoInt.MaxInt64 ->
  AlertRule.LastAlertTime rule = 0
  \/ AlertRule.LastAlertTime rule + AlertRule.CooldownSeconds rule * time.Second
     <= now.
Proof.
  unfold alert.fires, alert.coolingDown, time.IsZero. intros Hf Hcd Hmax.
  repeat (apply andb_prop in Hf as [Hf ?]).
  match goal with H : negb _ = true |- _ => apply negb_true_iff in H; rename H into Hcool end.
  rewrite bool_decide_eq_true_2 in Hcool by done. simpl in Hcool.
  destruct (bool_decide (AlertRule.LastAlertTime rule = 0)) eqn:Hz.
  - left. by apply bool_decide_eq_true_1 in Hz.
  - right. simpl in Hcool. apply bool_decide_eq_false_1 in Hcool.
    rewrite Seconds_small in Hcool by lia.
    unfold time.Since, time.Sub, GoInt.MinInt64, GoInt.MaxInt64 in *.
    unfold time.Second in *. lia.
Qed.

Lemma ruleAfter_cooldown events event now rule :
  AlertRule.CooldownSeconds (ruleAfter events event now rule)
  = AlertRule.CooldownSeconds rule.
Proof. unfold ruleAfter. by destruct (alert.fires _ _ _ _). Qed.

(** The rule loop, on any list of entries with distinct keys. *)
Lemma rules_fold chans events event now (l : list (Z * AlertRule.t)) :
  forall (rs : gmap Z AlertRule.t) (out : list alert.Dispatch),
    NoDup l.*1 ->
    (forall k r, (k, r) ∈ l -> rs !! k = Some r) ->
    let res := foldl (alert.ruleStep chans events event now) (rs, out) l in
    res.2 = out ++ omap (dispatchOf chans events event now) l
    /\ forall k,
         res.1 !! k = if decide (k ∈ l.*1)
                      then ruleAfter events event now <$> rs !! k
                      else rs !! k.
Proof.
  induction l as [|[k0 r0] l IH]; intros rs out Hnd Hin.
  - simpl. split; [by rewrite app_nil_r|]. intros k.
    destruct (decide (k ∈ [])) as [Hk|_]; [by apply not_elem_of_nil in Hk | done].
  - apply NoDup_cons in Hnd as [Hk0 Hnd].
    pose proof (Hin k0 r0 ltac:(left)) as Hr0.
    change (foldl (alert.ruleStep chans events event now) (rs, out) ((k0, r0) :: l))
      with (foldl (alert.ruleStep chans events event now)
              (alert.ruleStep chans events event now (rs, out) (k0, r0)) l).
    set (acc := alert.ruleStep chans events event now (rs, out) (k0, r0)).
    assert (acc = (if alert.fires events event now r0
                   then <[k0 := AlertRule.with_LastAlertTime now r0]> rs else rs,
                   out ++ (if alert.fires events event now r0
                           then [alert.mkDispatch k0 now event
                                   (alert.sendAlert chans event r0)]
                           else []))) as Hacc.
    { unfold acc, alert.ruleStep. simpl.
      destruct (alert.fires events event now r0); [done | by rewrite app_nil_r]. }
    rewrite Hacc. clear Hacc acc.
    match goal with |- context [foldl _ (?rs1, ?out1) l] =>
      destruct (IH rs1 out1 Hnd) as [Hout Hrules] end.
    { intros k r Hkr.
      assert (k <> k0) as Hne.
      { intros ->. apply Hk0. apply list_elem_of_fmap. by exists (k0, r). }
      destruct (alert.fires events event now r0);
        [rewrite lookup_insert_ne by done|]; apply Hin; by right. }
    split.
    + rewrite Hout, <- app_assoc. f_equal.
      unfold dispatchOf at 2. simpl.
      by destruct (alert.fires events event now r0).
    + intros k. rewrite Hrules.
      destruct (decide (k = k0)) as [->|Hne].
      * rewrite decide_False by done.
        rewrite decide_True by (by left).
        rewrite Hr0. unfold ruleAfter. simpl.
        destruct (alert.fires events event now r0);
          [by rewrite lookup_insert_eq | done].
      * assert ((if alert.fires events event now r0
                 then <[k0 := AlertRule.with_LastAlertTime now r0]> rs else rs) !! k
                = rs !! k) as ->.
        { destruct (alert.fires events event now r0);
            [by rewrite lookup_insert_ne | done]. }
        destruct (decide (k ∈ l.*1)) as [Hk|Hk].
        -- rewrite decide_True by (by right). done.
        -- rewrite decide_False; [done|]. intros [?|?]%elem_of_cons; done.
Qed.

(** [ProcessEvent] walks every rule once. *)
Lemma ProcessEvent_rules m event now :
  let events :=
    alert.pushEvent
      (default [] (alert.eventBuffer m !! AlertEvent.TargetID event)) event in
  (alert.ProcessEvent m event now).2
  = omap (dispatchOf (alert.channels m) events event now) (map_to_list (alert.rules m))
  /\ forall k,
       alert.rules (alert.ProcessEvent m event now).1 !! k
       = ruleAfter events event now <$> alert.rules m !! k.
Proof.
  intros events. unfold alert.ProcessEvent. fold events.
  pose proof (rules_fold (alert.channels m) events event now
                (map_to_list (alert.rules m)) (alert.rules m) []
                (NoDup_fst_map_to_list _)) as Hfold.
  destruct Hfold as [Hout Hrules].
  { intros k r Hkr. by apply elem_of_map_to_list in Hkr. }
  destruct (foldl _ _ _) as [rules' out]. simpl in *.
  split; [done|]. intros k. rewrite Hrules.
  destruct (decide (k ∈ (map_to_list (alert.rules m)).*1)) as [Hk|Hk]; [done|].
  destruct (alert.rules m !! k) as [r|] eqn:Hr; [|done].
  exfalso. apply Hk. apply list_elem_of_fmap. exists (k, r).
  split; [done|]. by apply elem_of_map_to_list.
Qed.

Lemma dispatchOf_Some chans events event now kr d :
  dispatchOf chans events event now kr = Some d ->
  alert.rule d = kr.1 /\ alert.at_ d = now
  /\ alert.fires events event now kr.2 = true.
Proof.
  unfold dispatchOf. destruct (alert.fires events event now kr.2); [|done].
  by intros [= <-].
Qed.

Lemma omap_dispatch_keys chans events event now (l : list (Z * AlertRule.t)) :
  NoDup l.*1 ->
  NoDup (alert.rule <$> omap (dispatchOf chans events event now) l)
  /\ forall d, d ∈ omap (dispatchOf chans events event now) l ->
       alert.at_ d = now
       /\ exists r, (alert.rule d, r) ∈ l /\ alert.fires events event now r = true.
Proof.
  induction l as [|[k0 r0] l IH]; intros Hnd.
  - split; [apply NoDup_nil_2|]. intros d Hd. by apply not_elem_of_nil in Hd.
  - apply NoDup_cons in Hnd as [Hk0 Hnd]. destruct (IH Hnd) as [IH1 IH2].
    change (omap (dispatchOf chans events event now) ((k0, r0) :: l))
      with (match dispatchOf chans events event now (k0, r0) with
            | Some d0 => d0 :: omap (dispatchOf chans events event now) l
            | None => omap (dispatchOf chans events event now) l
            end).
    destruct (dispatchOf chans events event now (k0, r0)) as [d0|] eqn:Hd0.
    + apply dispatchOf_Some in Hd0 as (Hk & Hat & Hf). simpl in Hk, Hf.
      split.
      * rewrite fmap_cons. apply NoDup_cons. split; [|done].
        intros Hin. apply list_elem_of_fmap in Hin as (d & Hd & Hin).
        destruct (IH2 d Hin) as (_ & r & Hr & _).
        apply Hk0. apply list_elem_of_fmap. exists (alert.rule d, r).
        split; [simpl; congruence | done].
      * intros d [->|Hd]%elem_of_cons.
        -- split; [done|]. exists r0. rewrite Hk. split; [by left | done].
        -- destruct (IH2 d Hd) as (Hat' & r & Hr & Hfr).
           split; [done|]. exists r. split; [by right | done].
    + split; [done|]. intros d Hd.
      destruct (IH2 d Hd) as (Hat & r & Hr & Hfr).
      split; [done|]. exists r. split; [by right | done].
Qed.

Lemma separated_app k gap log out :
  separated k gap log ->
  NoDup (alert.rule <$> out) ->
  (forall d d', d ∈ log -> d' ∈ out -> alert.rule d = k -> alert.rule d' = k ->
     alert.at_ d + gap <= alert.at_ d') ->
  separated k gap (log ++ out).
Proof.
  intros Hlog Hnd Hcross i j di dj Hij Hi Hj Hki Hkj.
  apply lookup_app_Some in Hi as [Hi|[Hli Hi]];
    apply lookup_app_Some in Hj as [Hj|[Hlj Hj]].
  - by apply (Hlog i j).
  - apply Hcross; [| |done|done]; apply list_elem_of_lookup; eauto.
  - apply lookup_lt_Some in Hj. lia.
  - exfalso.
    assert ((alert.rule <$> out) !! (i - length log)%nat = Some k) as Hi'.
    { by rewrite list_lookup_fmap, Hi; simpl; rewrite Hki. }
    assert ((alert.rule <$> out) !! (j - length log)%nat = Some k) as Hj'.
    { by rewrite list_lookup_fmap, Hj; simpl; rewrite Hkj. }
    pose proof (NoDup_lookup _ _ _ _ Hnd Hi' Hj'). lia.
Qed.
Lemma ProcessEvent_keeps_inv k cd m log event now :
  0 < cd ->
  cd * time.Second <= GoInt.MaxInt64 ->
  0 < now ->
  cooldown_inv k cd m log ->
  cooldown_inv k cd (alert.ProcessEvent m event now).1
    (log ++ (alert.ProcessEvent m event now).2).
Proof.
  intros Hcd Hmax Hnow (r & Hr & Hrcd & Hlast & Hsep).
  destruct (ProcessEvent_rules m event now) as [Hout Hrules].
  set (events := alert.pushEvent
         (default [] (alert.eventBuffer m !! AlertEvent.TargetID event)) event) in *.
  destruct (omap_dispatch_keys (alert.channels m) events event now
              (map_to_list (alert.rules m)) (NoDup_fst_map_to_list _))
    as [Hnd Hdisp].
  rewrite <- Hout in Hnd, Hdisp.
  set (out := (alert.ProcessEvent m event now).2) in *.
  (* a dispatch of [k] in this call means that [r] fired *)
  assert (forall d, d ∈ out -> alert.rule d = k ->
            alert.at_ d = now /\ alert.fires events event now r = true) as Hk.
  { intros d Hd Hdk. destruct (Hdisp d Hd) as (Hat & r' & Hr' & Hf).
    split; [done|]. apply elem_of_map_to_list in Hr'.
    rewrite Hdk, Hr in Hr'. by injection Hr' as ->. }
  exists (ruleAfter events event now r).
  split; [by rewrite Hrules, Hr|].
  split; [by rewrite ruleAfter_cooldown|].
  assert (alert.fires events event now r = true ->
          forall d, d ∈ log -> alert.rule d = k ->
            alert.at_ d + cd * time.Second <= now) as Hgap.
  { intros Hf d Hd Hdk. destruct (Hlast d Hd Hdk) as [Hle Hnz].
    destruct (fires_after_cooldown _ _ _ _ Hf) as [Hz|Hge]; [lia|lia|done|].
    rewrite Hrcd in Hge. lia. }
  split.
  - intros d [Hd|Hd]%elem_of_app Hdk.
    + unfold ruleAfter. destruct (alert.fires events event now r) eqn:Hf.
      * simpl. pose proof (Hgap eq_refl d Hd Hdk).
        unfold time.Second in *. lia.
      * by apply Hlast.
    + destruct (Hk d Hd Hdk) as [Hat Hf]. unfold ruleAfter. rewrite Hf. simpl. lia.
  - apply separated_app; [done | done |].
    intros d d' Hd Hd' Hdk Hdk'. destruct (Hk d' Hd' Hdk') as [-> Hf].
    by apply Hgap.
Qed.

Lemma run_keeps_inv k cd evs :
  0 < cd ->
  cd * time.Second <= GoInt.MaxInt64 ->
  forall m log,
    Forall (fun te : time.Time * AlertEvent.t => 0 < te.1) evs ->
    cooldown_inv k cd m log ->
    cooldown_inv k cd (alert.run m evs).1 (log ++ (alert.run m evs).2).
Proof.
  intros Hcd Hmax. induction evs as [|[now e] evs IH]; intros m log Hpos Hinv.
  - simpl. by rewrite app_nil_r.
  - apply Forall_cons in Hpos as [Hnow Hpos]. simpl in Hnow.
    pose proof (ProcessEvent_keeps_inv k cd m log e now Hcd Hmax Hnow Hinv) as H1.
    simpl. destruct (alert.ProcessEvent m e now) as [m1 out1]. simpl in H1.
    pose proof (IH m1 (log ++ out1) Hpos H1) as H2.
    destruct (alert.run m1 evs) as [m2 out2]. simpl in *.
    by rewrite app_assoc.
Qed.

(** Where the cooldown works: in a run of the manager on events that
    arrive one after the other, any two dispatches of a rule with
    [cooldown_seconds > 0] whose count of nanoseconds fits an int64
    [Duration] are at least [cooldown_seconds] apart, whatever the
    events and the other rules are.  The clock readings are after Go's
    zero time. *)
Lemma cooldown_separates_dispatches m evs k r :
  alert.rules m !! k = Some r ->
  0 < AlertRule.CooldownSeconds r ->
  AlertRule.CooldownSeconds r * time.Second <= GoInt.MaxInt64 ->
  Forall (fun te : time.Time * AlertEvent.t => 0 < te.1) evs ->
  separated k (AlertRule.CooldownSeconds r * time.Second) (alert.run m evs).2.
Proof.
  intros Hr Hcd Hmax Hpos.
  destruct (run_keeps_inv k (AlertRule.CooldownSeconds r) evs Hcd Hmax m [] Hpos)
    as (_ & _ & _ & _ & Hsep); [|done].
  exists r. split; [done|]. split; [done|]. split.
  - intros d Hd. by apply not_elem_of_nil in Hd.
  - intros i j di dj _ Hi. by rewrite lookup_nil in Hi.
Qed.

(** Scenario S4: a rule with threshold 2 and cooldown 300 s; the second
    of three consecutive [down] events, one minute apart, dispatches and
    the third does not. *)
Lemma cooldown_separates_dispatches_witness :
  (alert.run sample_manager three_downs).2
  = [alert.mkDispatch 1 (sample_now + 60 * time.Second)
       (down_event (sample_now + 60 * time.Second))
       [alert.Notify "webhook" 1;
        alert.AlertLogged "critical" "api" "10.0.0.1" "down"]]
  /\ separated 1 (300 * time.Second) (alert.run sample_manager three_downs).2.
Proof.
  split; [vm_compute; reflexivity|].
  apply (cooldown_separates_dispatches sample_manager three_downs 1 failure_rule).
  - reflexivity.
  - reflexivity.
  - vm_compute. discriminate.
  - repeat constructor.
Defined.

(** Once the cooldown has elapsed the rule dispatches again. *)
Example cooldown_elapsed_fires_again :
  length (alert.run sample_manager
            (three_downs ++
               [(sample_now + 400 * time.Second,
                 down_event (sample_now + 400 * time.Second))])).2 = 2%nat.
Proof. vm_compute. reflexivity. Qed.

(** ** Further checks on concrete inputs *)

Example ssl_leaf_expiring_tomorrow_is_critical :
  CheckResult.Status
    (SSLChecker_Check ssl_target
       (SSLIO.Connected "example.com:443"
          [sample_cert "example.com" "Example CA" (sample_now + time.Day) false]
          sample_now 40)).1 = "critical".
Proof. reflexivity. Qed.

Example ssl_leaf_valid_90_days_is_up :
  CheckResult.Status (SSLChecker_Check ssl_target ssl_connected).1 = "up"
  /\ CheckResult.header "issuer" (SSLChecker_Check ssl_target ssl_connected).1
     = Some "Example CA".
Proof. split; reflexivity. Qed.

Example ssl_leaf_expired_two_days_is_down :
  CheckResult.Status
    (SSLChecker_Check ssl_target
       (SSLIO.Connected "example.com:443"
          [sample_cert "example.com" "Example CA" (sample_now - 2 * time.Day) false]
          sample_now 40)).1 = "down".
Proof. reflexivity. Qed.

Example uptime_two_of_three :
  let s0 := Service.New database.empty in
  let up := CheckResult.basic "up" 5 "TCP connection successful" in
  let s1 := saveResult s0 tcp_target up sample_now in
  let s2 := saveResult s1 tcp_target down_result (sample_now + 60 * time.Second) in
  let s3 := saveResult s2 tcp_target up (sample_now + 120 * time.Second) in
  MonitorStatus.UptimePercentage <$> database.FirstStatus (Service.db s3) 1 = Some 66
  /\ MonitorStatus.UptimePercentage <$> database.FirstStatus (Service.db s2) 1 = Some 50
  /\ length (database.monitor_status (Service.db s3)) = 1%nat.
Proof. vm_compute. repeat split; reflexivity. Qed.

Example doh_answers_by_type :
  dns.parseDoHResponse [(1, "1.2.3.4"); (5, "x.example")]
  = dns.mkResult ["1.2.3.4"] [] ["x.example"] [] [] [].
Proof. reflexivity. Qed.

Example tcp_failure_reaches_the_store :
  let io := ProbeIO.mk http_ok ssl_refused 15 (DialIO.mk (Some "connection refused") 5)
              (DNSIO.mk dns_io_ok "[]" 7) (PingIO.Done 0 1) smtp_io_ok
              SNMPIO.NoVariables in
  MonitorStatus.Status <$>
    database.FirstStatus
      (Service.db (checkTarget (Service.New database.empty) tcp_target io sample_now)) 1
  = Some "down".
Proof. vm_compute. reflexivity. Qed.
(** The row of the target after [saveResult] is the row built by
    [buildStatus], under its primary key and with the recomputed uptime
    percentage. *)
Lemma saveResult_stores_built_row s target result now :
  status_keys_ok (Service.db s) ->
  let id := MonitorTarget.ID target in
  let built :=
    buildStatus
      (default (MonitorStatus.zero id) (database.FirstStatus (Service.db s) id))
      target result now in
  exists row,
    database.FirstStatus (Service.db (saveResult s target result now)) id = Some row
    /\ row = MonitorStatus.with_UptimePercentage (MonitorStatus.UptimePercentage row)
               (MonitorStatus.with_ID (MonitorStatus.ID row) built).
Proof.
  intros Hwf id built. rewrite saveResult_db. fold id. fold built.
  assert (MonitorStatus.TargetID built = id
          /\ match database.FirstStatus (Service.db s) id with
             | Some row => MonitorStatus.ID built = MonitorStatus.ID row
             | None => MonitorStatus.ID built = 0
             end) as [Htid Hkey].
  { unfold built.
    destruct (database.FirstStatus (Service.db s) id) as [row|] eqn:Hfirst; simpl.
    - by destruct (FirstStatus_Some _ _ _ Hfirst) as [_ ->].
    - done. }
  destruct (SaveStatus_upsert (Service.db s) id built Hwf Htid Hkey)
    as (Hwf1 & st1 & Hfirst1 & Hst1 & _).
  set (db2 := database.CreateHistory (database.SaveStatus (Service.db s) built) _).
  assert (database.FirstStatus db2 id = Some st1) as Hfirst2 by exact Hfirst1.
  assert (status_keys_ok db2) as Hwf2 by exact Hwf1.
  unfold updateUptimePercentage. rewrite Hfirst2.
  set (u := if bool_decide _ then _ else 0).
  destruct (FirstStatus_Some _ _ _ Hfirst2) as [_ Htid1].
  destruct (SaveStatus_upsert db2 id (MonitorStatus.with_UptimePercentage u st1) Hwf2)
    as (_ & st3 & Hfirst3 & Hst3 & _).
  { done. }
  { by rewrite Hfirst2. }
  exists st3. split; [done|].
  rewrite <- Hst3 at 1. rewrite <- Hst1.
  rewrite <- Hst3. simpl. by destruct built.
Qed.

Example https_days_reach_the_status_row :
  let r := (HTTPSChecker_Check (https_target true) ssl_connected http_ok 15).1 in
  let s := saveResult (Service.New database.empty) (https_target true) r sample_now in
  MonitorStatus.SSLDaysUntilExpiry <$> database.FirstStatus (Service.db s) 1
  = Some (Some 90).
Proof. vm_compute. reflexivity. Qed.
(** * Further properties *)

(** ** The store under the pipeline *)

Lemma find_target_snoc (rows : list MonitorStatus.t) (st : MonitorStatus.t) id :
  MonitorStatus.TargetID st <> id ->
  List.find (fun s => bool_decide (MonitorStatus.TargetID s = id)) (rows ++ [st])
  = List.find (fun s => bool_decide (MonitorStatus.TargetID s = id)) rows.
Proof.
  intros Hne. induction rows as [|x rows IH]; simpl.
  - by rewrite bool_decide_eq_false_2.
  - by destruct (bool_decide (MonitorStatus.TargetID x = id)).
Qed.

Lemma key_identifies_row (rows : list MonitorStatus.t) x row :
  NoDup (MonitorStatus.ID <$> x :: rows) ->
  row ∈ x :: rows ->
  MonitorStatus.ID x = MonitorStatus.ID row ->
  x = row.
Proof.
  intros Hnd Hin Hid. rewrite fmap_cons in Hnd. apply NoDup_cons in Hnd as [Hx _].
  apply elem_of_cons in Hin as [->|Hin]; [done|].
  exfalso. apply Hx. rewrite Hid. apply list_elem_of_fmap. eauto.
Qed.

Lemma replaceStatus_absent (rows : list MonitorStatus.t) st :
  MonitorStatus.ID st ∉ MonitorStatus.ID <$> rows ->
  database.replaceStatus st rows = rows.
Proof.
  induction rows as [|y rows IH]; [done|].
  rewrite fmap_cons. intros [Hy Hx]%not_elem_of_cons.
  unfold database.replaceStatus. rewrite fmap_cons.
  rewrite bool_decide_eq_false_2 by congruence. f_equal. by apply IH.
Qed.

Lemma replaceStatus_targets (rows : list MonitorStatus.t) row st :
  NoDup (MonitorStatus.ID <$> rows) ->
  row ∈ rows ->
  MonitorStatus.ID st = MonitorStatus.ID row ->
  MonitorStatus.TargetID st = MonitorStatus.TargetID row ->
  MonitorStatus.TargetID <$> database.replaceStatus st rows
  = MonitorStatus.TargetID <$> rows.
Proof.
  intros Hnd Hin Hid Htid. induction rows as [|x rows IH]; [done|].
  pose proof Hnd as Hnd'. rewrite fmap_cons in Hnd'.
  apply NoDup_cons in Hnd' as [Hx Hnd'].
  unfold database.replaceStatus. rewrite !fmap_cons.
  fold (database.replaceStatus st rows). f_equal.
  - case_bool_decide as Hk; [|done].
    rewrite (key_identifies_row rows x row); [done..|congruence].
  - apply elem_of_cons in Hin as [->|Hin].
    + rewrite replaceStatus_absent; [done | by rewrite Hid].
    + by apply IH.
Qed.

Lemma find_other_replace (rows : list MonitorStatus.t) row st id' :
  NoDup (MonitorStatus.ID <$> rows) ->
  row ∈ rows ->
  MonitorStatus.ID st = MonitorStatus.ID row ->
  MonitorStatus.TargetID st <> id' ->
  MonitorStatus.TargetID row <> id' ->
  List.find (fun s => bool_decide (MonitorStatus.TargetID s = id'))
    (database.replaceStatus st rows)
  = List.find (fun s => bool_decide (MonitorStatus.TargetID s = id')) rows.
Proof.
  intros Hnd Hin Hid Hst Hrow. induction rows as [|x rows IH]; [done|].
  pose proof Hnd as Hnd'. rewrite fmap_cons in Hnd'.
  apply NoDup_cons in Hnd' as [Hx Hnd'].
  assert (List.find (fun s => bool_decide (MonitorStatus.TargetID s = id'))
            (database.replaceStatus st rows)
          = List.find (fun s => bool_decide (MonitorStatus.TargetID s = id')) rows)
    as Htail.
  { pose proof Hin as Hin'. apply elem_of_cons in Hin' as [->|Hin'].
    - rewrite replaceStatus_absent; [done | by rewrite Hid].
    - by apply IH. }
  unfold database.replaceStatus. rewrite fmap_cons.
  fold (database.replaceStatus st rows). simpl. rewrite Htail.
  destruct (bool_decide (MonitorStatus.ID x = MonitorStatus.ID st)) eqn:Hk; [|done].
  apply bool_decide_eq_true_1 in Hk.
  rewrite (key_identifies_row rows x row Hnd Hin) by congruence.
  by rewrite !bool_decide_eq_false_2.
Qed.

(** The upsert of a row built from what [FirstStatus] returned keeps one
    row per target and does not touch the rows of the other targets. *)
Lemma SaveStatus_upsert_frame db id st :
  status_keys_ok db ->
  one_row_per_target db ->
  MonitorStatus.TargetID st = id ->
  match database.FirstStatus db id with
  | Some row => MonitorStatus.ID st = MonitorStatus.ID row
  | None => MonitorStatus.ID st = 0
  end ->
  let db' := database.SaveStatus db st in
  one_row_per_target db'
  /\ forall id', id' <> id ->
       database.FirstStatus db' id' = database.FirstStatus db id'.
Proof.
  intros (Hseq & Hnd & Hall) Hone Htid Hkey. unfold database.SaveStatus.
  destruct (database.FirstStatus db id) as [row|] eqn:Hfirst.
  - destruct (FirstStatus_Some _ _ _ Hfirst) as [Hin Hrow].
    assert (0 < MonitorStatus.ID row < database.statusSeq db) as Hb.
    { by apply (proj1 (Forall_forall _ _) Hall). }
    rewrite bool_decide_eq_false_2 by lia.
    rewrite Hkey, (existsb_key _ _ Hin). simpl. split.
    + unfold one_row_per_target. simpl.
      rewrite (replaceStatus_targets _ row); [done..|congruence].
    + intros id' Hne. unfold database.FirstStatus. simpl.
      apply (find_other_replace _ row); congruence.
  - rewrite Hkey. rewrite bool_decide_eq_true_2 by done. simpl. split.
    + unfold one_row_per_target. simpl. rewrite fmap_app. simpl.
      apply NoDup_app. split; [done|]. split; [|apply NoDup_singleton].
      intros k Hk Hk'. apply list_elem_of_singleton in Hk'. subst k.
      apply list_elem_of_fmap in Hk as (r & Hr & Hinr).
      unfold database.FirstStatus in Hfirst.
      assert (bool_decide (MonitorStatus.TargetID r = id) = false) as Hf.
      { apply (find_none _ _ Hfirst r). by apply list_elem_of_In. }
      apply bool_decide_eq_false_1 in Hf. apply Hf.
      destruct st; simpl in *. congruence.
    + intros id' Hne. unfold database.FirstStatus. simpl.
      apply find_target_snoc. destruct st; simpl in *. congruence.
Qed.

(** The store after [saveResult]: keys and rows stay well formed, the
    rows of the other targets are untouched, and the row of the target
    shows the result. *)
Lemma saveResult_store s target result now :
  status_keys_ok (Service.db s) ->
  one_row_per_target (Service.db s) ->
  let id := MonitorTarget.ID target in
  let db' := Service.db (saveResult s target result now) in
  status_keys_ok db'
  /\ one_row_per_target db'
  /\ (forall id', id' <> id ->
        database.FirstStatus db' id' = database.FirstStatus (Service.db s) id')
  /\ exists row,
       database.FirstStatus db' id = Some row
       /\ MonitorStatus.Status row = CheckResult.Status result
       /\ MonitorStatus.ResponseTime row = CheckResult.ResponseTime result
       /\ MonitorStatus.Message row = CheckResult.Message result
       /\ MonitorStatus.CheckedAt row = now.
Proof.
  intros Hwf Hone id db'. unfold db'. rewrite saveResult_db. fold id.
  set (built := buildStatus
         (default (MonitorStatus.zero id) (database.FirstStatus (Service.db s) id))
         target result now).
  assert (MonitorStatus.TargetID built = id
          /\ match database.FirstStatus (Service.db s) id with
             | Some row => MonitorStatus.ID built = MonitorStatus.ID row
             | None => MonitorStatus.ID built = 0
             end) as [Htid Hkey].
  { unfold built.
    destruct (database.FirstStatus (Service.db s) id) as [row|] eqn:Hfirst; simpl.
    - by destruct (FirstStatus_Some _ _ _ Hfirst) as [_ ->].
    - done. }
  destruct (SaveStatus_upsert (Service.db s) id built Hwf Htid Hkey)
    as (Hwf1 & st1 & Hfirst1 & Hst1 & _).
  destruct (SaveStatus_upsert_frame (Service.db s) id built Hwf Hone Htid Hkey)
    as (Hone1 & Hframe1).
  set (db2 := database.CreateHistory (database.SaveStatus (Service.db s) built) _).
  assert (database.FirstStatus db2 id = Some st1) as Hfirst2 by exact Hfirst1.
  assert (status_keys_ok db2) as Hwf2 by exact Hwf1.
  assert (one_row_per_target db2) as Hone2 by exact Hone1.
  unfold updateUptimePercentage. rewrite Hfirst2.
  set (u := if bool_decide _ then _ else 0).
  destruct (FirstStatus_Some _ _ _ Hfirst2) as [_ Htid1].
  destruct (SaveStatus_upsert db2 id (MonitorStatus.with_UptimePercentage u st1) Hwf2)
    as (Hwf3 & st3 & Hfirst3 & Hst3 & _); [done | by rewrite Hfirst2 |].
  destruct (SaveStatus_upsert_frame db2 id
              (MonitorStatus.with_UptimePercentage u st1) Hwf2 Hone2)
    as (Hone3 & Hframe3).
  { done. }
  { rewrite Hfirst2. reflexivity. }
  split; [done|]. split; [done|]. split.
  - intros id' Hne. rewrite (Hframe3 id' Hne). exact (Hframe1 id' Hne).
  - exists st3. split; [done|]. rewrite <- Hst3, <- Hst1. by unfold built.
Qed.

(** ** Invariants of the service *)

Lemma checkTarget_cases s target io now :
  (exists l, checkTarget s target io now = Service.with_logs l s)
  \/ exists result, checkTarget s target io now = saveResult s target result now.
Proof.
  unfold checkTarget. destruct (NewChecker _) as [checker|e]; [|left; eauto].
  destruct (Check checker target io) as [result [e|]]; [left|right]; eauto.
Qed.

Lemma saveResult_esBuffer s target result now :
  (length (Service.esBuffer s) <= Service.esBufferCap)%nat ->
  (length (Service.esBuffer (saveResult s target result now))
   <= Service.esBufferCap)%nat.
Proof.
  intros H. unfold saveResult. case_bool_decide as Hroom; simpl; [|done].
  simpl in Hroom. rewrite length_app. simpl. lia.
Qed.

Lemma checkTarget_bounded s target io now :
  queues_bounded s -> queues_bounded (checkTarget s target io now).
Proof.
  intros [Hq Hes].
  destruct (checkTarget_cases s target io now) as [[l ->]|[r ->]]; [done|].
  destruct (saveResult_frame s target r now) as (_ & Hcq & _ & _).
  split; [by rewrite Hcq | by apply saveResult_esBuffer].
Qed.

Lemma step_bounded s op : queues_bounded s -> queues_bounded (step s op).
Proof.
  intros Hb. destruct op as [target|id|i|io now|id io now|]; simpl.
  - exact Hb.
  - unfold RemoveTarget. by destruct (Service.targets s !! id).
  - unfold tick. destruct (Service.ctxDone s); [done|].
    destruct (Service.tickers s !! i) as [target|]; [|done].
    unfold enqueueCheck. case_bool_decide as Hroom; [|done].
    destruct Hb as [Hq Hes]. split; [|exact Hes].
    simpl. rewrite length_app. simpl. lia.
  - unfold checkWorker. destruct (Service.ctxDone s); [done|].
    destruct (Service.checkQueue s) as [|target rest] eqn:Hqueue; [done|].
    apply checkTarget_bounded.
    destruct Hb as [Hq Hes]. split; [|exact Hes].
    rewrite Hqueue in Hq. simpl in *. lia.
  - unfold TriggerCheck. destruct (Service.targets s !! id) as [target|]; [|done].
    by apply checkTarget_bounded.
  - unfold esWriter. destruct (Service.esBuffer s) as [|task rest] eqn:Hbuf; [done|].
    destruct Hb as [Hq Hes]. split; [done|].
    rewrite Hbuf in Hes. simpl in *. lia.
Qed.

Lemma call_bounded s c : queues_bounded s -> queues_bounded (call s c).
Proof.
  intros Hb. destruct c as [op|target|id]; simpl.
  - by apply step_bounded.
  - unfold updateMonitor_service, RemoveTarget.
    by destruct (Service.targets s !! MonitorTarget.ID target).
  - unfold removeMonitor_service, RemoveTarget. simpl.
    by destruct (Service.targets s !! id).
Qed.

(** X1: in every state the service reaches from its start, by any
    sequence of its operations (additions, removals, ticks, worker
    iterations, triggered checks, index writes) and of the update and
    remove handlers, the check queue holds at most 1000 targets and the
    buffer of index writes at most 500 tasks, whatever the store
    holds. *)
Theorem queues_stay_bounded (db : database.DB) (cs : list Call) :
  let s := run_calls (Service.New db) cs in
  (length (Service.checkQueue s) <= 1000)%nat
  /\ (length (Service.esBuffer s) <= 500)%nat.
Proof.
  assert (forall s, queues_bounded s -> queues_bounded (run_calls s cs)) as Hrun.
  { induction cs as [|c cs IH]; intros s Hb; [done|].
    simpl. apply IH. by apply call_bounded. }
  apply (Hrun (Service.New db)). split; simpl; lia.
Qed.

(** *** The store *)

Lemma find_filter_out {A} (p q : A -> bool) (l : list A) :
  (forall x, p x = true -> q x = true) ->
  List.find p (List.filter q l) = List.find p l.
Proof.
  intros Hpq. induction l as [|x l IH]; [done|]. simpl.
  destruct (q x) eqn:Hq; simpl.
  - by rewrite IH.
  - destruct (p x) eqn:Hp; [|done]. apply Hpq in Hp. congruence.
Qed.

Lemma find_filter_none {A} (p q : A -> bool) (l : list A) :
  (forall x, q x = true -> p x = false) ->
  List.find p (List.filter q l) = None.
Proof.
  intros Hpq. induction l as [|x l IH]; [done|]. simpl.
  destruct (q x) eqn:Hq; simpl; [|done]. by rewrite (Hpq x Hq).
Qed.

Lemma filter_filter_out {A} (p q : A -> bool) (l : list A) :
  (forall x, p x = true -> q x = true) ->
  List.filter p (List.filter q l) = List.filter p l.
Proof.
  intros Hpq. induction l as [|x l IH]; [done|]. simpl.
  destruct (q x) eqn:Hq; simpl.
  - by rewrite IH.
  - destruct (p x) eqn:Hp; [|done]. apply Hpq in Hp. congruence.
Qed.

Lemma filter_filter_none {A} (p q : A -> bool) (l : list A) :
  (forall x, q x = true -> p x = false) ->
  List.filter p (List.filter q l) = [].
Proof.
  intros Hpq. induction l as [|x l IH]; [done|]. simpl.
  destruct (q x) eqn:Hq; simpl; [|done]. by rewrite (Hpq x Hq).
Qed.

Lemma NoDup_fmap_filter {A B} (f : A -> B) (q : A -> bool) (l : list A) :
  NoDup (f <$> l) -> NoDup (f <$> List.filter q l).
Proof.
  induction l as [|x l IH]; [done|]. simpl. intros [Hx Hl]%NoDup_cons.
  destruct (q x); [|by apply IH].
  simpl. apply NoDup_cons. split; [|by apply IH].
  intros Hin. apply Hx. apply list_elem_of_fmap in Hin as (y & -> & Hy).
  apply list_elem_of_fmap. exists y. split; [done|].
  apply list_elem_of_In. apply list_elem_of_In in Hy.
  by apply List.filter_In in Hy as [Hy _].
Qed.

Lemma deleteMonitorRows_FirstStatus db id id' :
  database.FirstStatus (deleteMonitorRows db id) id'
  = if bool_decide (id' = id) then None else database.FirstStatus db id'.
Proof.
  unfold database.FirstStatus, deleteMonitorRows. simpl.
  case_bool_decide as Hid.
  - subst id'. apply find_filter_none. intros x Hx.
    apply negb_true_iff in Hx. exact Hx.
  - apply find_filter_out. intros x Hx. apply bool_decide_eq_true_1 in Hx.
    apply negb_true_iff. apply bool_decide_eq_false_2. congruence.
Qed.

Lemma deleteMonitorRows_lastHistory db id id' :
  lastHistory (deleteMonitorRows db id) id'
  = if bool_decide (id' = id) then None else lastHistory db id'.
Proof.
  unfold lastHistory, deleteMonitorRows. simpl.
  case_bool_decide as Hid.
  - subst id'. rewrite filter_filter_none; [done|]. intros x Hx.
    apply negb_true_iff in Hx. exact Hx.
  - rewrite filter_filter_out; [done|]. intros x Hx.
    apply bool_decide_eq_true_1 in Hx.
    apply negb_true_iff. apply bool_decide_eq_false_2. congruence.
Qed.

Lemma deleteMonitorRows_store db id : store_ok db -> store_ok (deleteMonitorRows db id).
Proof.
  intros [(Hseq & Hnd & Hall) Hone]. split; [split; [done|split]|].
  - by apply NoDup_fmap_filter.
  - simpl. apply Forall_forall. intros row Hrow.
    apply list_elem_of_In, List.filter_In in Hrow as [Hrow _].
    apply list_elem_of_In in Hrow. by apply (proj1 (Forall_forall _ _) Hall).
  - by apply NoDup_fmap_filter.
Qed.

Lemma checkTarget_store s target io now :
  store_ok (Service.db s) -> store_ok (Service.db (checkTarget s target io now)).
Proof.
  intros [Hwf Hone].
  destruct (checkTarget_cases s target io now) as [[l ->]|[r ->]]; [done|].
  by destruct (saveResult_store s target r now Hwf Hone) as (? & ? & _).
Qed.

Lemma step_db s op :
  Service.db (step s op) = Service.db s
  \/ exists s0 target io now,
       Service.db s0 = Service.db s
       /\ Service.db (step s op) = Service.db (checkTarget s0 target io now).
Proof.
  destruct op as [target|id|i|io now|id io now|]; simpl.
  - by left.
  - left. unfold RemoveTarget. by destruct (Service.targets s !! id).
  - left. unfold tick. destruct (Service.ctxDone s); [done|].
    destruct (Service.tickers s !! i); [|done].
    unfold enqueueCheck. by case_bool_decide.
  - unfold checkWorker. destruct (Service.ctxDone s); [by left|].
    destruct (Service.checkQueue s) as [|target rest]; [by left|].
    right. by exists (Service.with_checkQueue rest s), target, io, now.
  - unfold TriggerCheck. destruct (Service.targets s !! id) as [target|]; [|by left].
    right. by exists s, target, io, now.
  - left. unfold esWriter. by destruct (Service.esBuffer s).
Qed.

Lemma call_db s c :
  Service.db (call s c) = Service.db s
  \/ (exists s0 target io now,
        Service.db s0 = Service.db s
        /\ Service.db (call s c) = Service.db (checkTarget s0 target io now))
  \/ exists id, Service.db (call s c) = deleteMonitorRows (Service.db s) id.
Proof.
  destruct c as [op|target|id]; simpl.
  - destruct (step_db s op) as [H|H]; [by left | by right; left].
  - left. unfold updateMonitor_service, RemoveTarget.
    by destruct (Service.targets s !! MonitorTarget.ID target).
  - right. right. exists id. unfold removeMonitor_service, RemoveTarget. simpl.
    by destruct (Service.targets s !! id).
Qed.

Lemma call_store s c : store_ok (Service.db s) -> store_ok (Service.db (call s c)).
Proof.
  intros Hok.
  destruct (call_db s c) as [->|[(s0 & target & io & now & Hs0 & ->)|[id ->]]].
  - done.
  - apply checkTarget_store. by rewrite Hs0.
  - by apply deleteMonitorRows_store.
Qed.

Lemma run_calls_store cs :
  forall s, store_ok (Service.db s) -> store_ok (Service.db (run_calls s cs)).
Proof.
  induction cs as [|c cs IH]; intros s Hok; [done|].
  simpl. apply IH. by apply call_store.
Qed.

(** X2: when the calls take effect one after the other, the store
    keeps one status row per target: from a store whose status rows
    have distinct positive keys below the next key and distinct
    targets, every state reached by the operations of the service and
    by the update and remove handlers has at most one status row per
    target, with distinct positive keys. *)
Theorem one_status_row_per_target (s : Service.t) (cs : list Call) :
  status_keys_ok (Service.db s) ->
  one_row_per_target (Service.db s) ->
  let db := Service.db (run_calls s cs) in
  NoDup (MonitorStatus.TargetID <$> database.monitor_status db)
  /\ NoDup (MonitorStatus.ID <$> database.monitor_status db)
  /\ Forall (fun row => 0 < MonitorStatus.ID row) (database.monitor_status db).
Proof.
  intros Hwf Hone.
  destruct (run_calls_store cs s (conj Hwf Hone)) as [(_ & Hnd & Hall) Hone'].
  split; [exact Hone'|]. split; [exact Hnd|].
  eapply Forall_impl; [exact Hall|]. simpl. intros; lia.
Qed.

Lemma one_status_row_per_target_witness :
  let db := Service.db (run_calls (Service.New database.empty) sample_calls) in
  NoDup (MonitorStatus.TargetID <$> database.monitor_status db)
  /\ NoDup (MonitorStatus.ID <$> database.monitor_status db)
  /\ Forall (fun row => 0 < MonitorStatus.ID row) (database.monitor_status db).
Proof.
  apply (one_status_row_per_target (Service.New database.empty) sample_calls).
  - split; [simpl; lia|]. split; constructor.
  - constructor.
Defined.

Lemma saveResult_mirrors s target result now :
  store_ok (Service.db s) ->
  status_mirrors_history (Service.db s) ->
  status_mirrors_history (Service.db (saveResult s target result now)).
Proof.
  intros [Hwf Hone] Hmirror.
  destruct (saveResult_store s target result now Hwf Hone)
    as (Hwf' & Hone' & Hframe & row & Hrow & Hst & Hrt & Hmsg & Hat).
  intros id.
  assert (lastHistory (Service.db (saveResult s target result now)) id
          = if bool_decide (MonitorTarget.ID target = id)
            then Some (MonitorHistory.mk (database.historySeq (Service.db s))
                         (MonitorTarget.ID target) (CheckResult.Status result)
                         (CheckResult.ResponseTime result)
                         (CheckResult.Message result) now)
            else lastHistory (Service.db s) id) as ->.
  { unfold lastHistory. rewrite saveResult_history, List.filter_app. simpl.
    case_bool_decide; [apply last_snoc | by rewrite app_nil_r]. }
  case_bool_decide as Hid.
  - subst id. exists row. by simpl.
  - rewrite Hframe by done. apply Hmirror.
Qed.

Lemma call_mirrors s c :
  store_ok (Service.db s) ->
  status_mirrors_history (Service.db s) ->
  status_mirrors_history (Service.db (call s c)).
Proof.
  intros Hok Hmirror.
  destruct (call_db s c) as [->|[(s0 & target & io & now & Hs0 & ->)|[id ->]]].
  - done.
  - destruct (checkTarget_cases s0 target io now) as [[l ->]|[r ->]].
    + simpl. by rewrite Hs0.
    + apply saveResult_mirrors; by rewrite Hs0.
  - intros id'. rewrite deleteMonitorRows_lastHistory, deleteMonitorRows_FirstStatus.
    case_bool_decide; [done | apply Hmirror].
Qed.

(** X3: when the calls take effect one after the other, the status row
    of a target shows the status, response time and message of the
    newest history record of that target (the result
    applied last wins), and a target without history has no status
    row: once this holds of a well-formed store, it holds of every state
    reached by the operations of the service and by the update and
    remove handlers. *)
Theorem status_shows_latest_result (s : Service.t) (cs : list Call) (id : Z) :
  status_keys_ok (Service.db s) ->
  one_row_per_target (Service.db s) ->
  status_mirrors_history (Service.db s) ->
  let db := Service.db (run_calls s cs) in
  match lastHistory db id with
  | Some h =>
      exists row,
        database.FirstStatus db id = Some row
        /\ MonitorStatus.Status row = MonitorHistory.Status h
        /\ MonitorStatus.ResponseTime row = MonitorHistory.ResponseTime h
        /\ MonitorStatus.Message row = MonitorHistory.Message h
  | None => database.FirstStatus db id = None
  end.
Proof.
  intros Hwf Hone Hmirror.
  assert (forall s, store_ok (Service.db s) ->
            status_mirrors_history (Service.db s) ->
            status_mirrors_history (Service.db (run_calls s cs))) as Hrun.
  { clear. induction cs as [|c cs IH]; intros s Hok Hm; [done|].
    simpl. apply IH; [by apply call_store | by apply call_mirrors]. }
  apply (Hrun s (conj Hwf Hone) Hmirror).
Qed.

Lemma status_shows_latest_result_witness :
  let db := Service.db (run_calls (Service.New database.empty) sample_calls) in
  match lastHistory db 1 with
  | Some h =>
      exists row,
        database.FirstStatus db 1 = Some row
        /\ MonitorStatus.Status row = MonitorHistory.Status h
        /\ MonitorStatus.ResponseTime row = MonitorHistory.ResponseTime h
        /\ MonitorStatus.Message row = MonitorHistory.Message h
  | None => database.FirstStatus db 1 = None
  end.
Proof.
  apply (status_shows_latest_result (Service.New database.empty) sample_calls 1).
  - split; [simpl; lia|]. split; constructor.
  - constructor.
  - intros id. reflexivity.
Defined.

(** After [sample_calls] the removed target has a status row again,
    written by the check its ticker queued after the removal. *)
Example removed_target_is_recorded_again :
  MonitorStatus.Status
    <$> database.FirstStatus
          (Service.db (run_calls (Service.New database.empty) sample_calls)) 1
  = Some "up".
Proof. vm_compute. reflexivity. Qed.

Lemma step_history s op :
  database.monitor_history (Service.db s)
    `prefix_of` database.monitor_history (Service.db (step s op)).
Proof.
  destruct (step_db s op) as [->|(s0 & target & io & now & Hs0 & ->)]; [done|].
  rewrite <- Hs0.
  destruct (checkTarget_cases s0 target io now) as [[l ->]|[r ->]]; [done|].
  rewrite saveResult_history. by apply prefix_app_r.
Qed.

(** X4: the operations of the service never delete or change a history
    record: whatever the state and the operations run from it
    (additions, removals, ticks, worker iterations, triggered checks,
    index writes), the history records present before are still there,
    in the same order, followed by the new ones.  Only the remove
    handler of the API deletes history. *)
Theorem history_is_append_only (s : Service.t) (ops : list Op) :
  database.monitor_history (Service.db s)
    `prefix_of` database.monitor_history (Service.db (run_ops s ops)).
Proof.
  revert s. induction ops as [|op ops IH]; intros s; [done|].
  simpl. etrans; [apply step_history | apply IH].
Qed.

(** ** The registry *)

(** X5: the registry of the service behaves as a map from ids to
    targets: a target that was added is found under its id and leaves
    the other ids as they were; removing it succeeds and after that
    [GetTarget], [TriggerCheck] and a second [RemoveTarget] report
    [target not found] and change nothing. *)
Theorem registry_round_trip
    (s : Service.t) (target : MonitorTarget.t) (io : ProbeIO.t) (now : time.Time) :
  let id := MonitorTarget.ID target in
  let s1 := AddTarget s target in
  let s2 := (RemoveTarget s1 id).1 in
  GetTarget s1 id = inl target
  /\ (forall id', id' <> id -> GetTarget s1 id' = GetTarget s id')
  /\ (RemoveTarget s1 id).2 = None
  /\ GetTarget s2 id = inr "target not found"
  /\ (forall id', id' <> id -> GetTarget s2 id' = GetTarget s id')
  /\ RemoveTarget s2 id = (s2, Some "target not found")
  /\ TriggerCheck s2 id io now = (s2, Some "target not found").
Proof.
  intros id s1 s2.
  assert (Service.targets s1 !! id = Some target) as H1
    by (unfold s1, AddTarget; simpl; apply lookup_insert_eq).
  assert (s2 = Service.with_targets (delete id (Service.targets s1)) s1) as H2
    by (unfold s2, RemoveTarget; by rewrite H1).
  assert (Service.targets s2 !! id = None) as H3
    by (rewrite H2; simpl; apply lookup_delete_eq).
  split; [unfold GetTarget; by rewrite H1|].
  split.
  { intros id' Hne. unfold GetTarget, s1, AddTarget. simpl.
    by rewrite lookup_insert_ne. }
  split; [unfold RemoveTarget; by rewrite H1|].
  split; [unfold GetTarget; by rewrite H3|].
  split.
  { intros id' Hne. unfold GetTarget. rewrite H2. simpl.
    rewrite lookup_delete_ne by done. unfold s1, AddTarget. simpl.
    by rewrite lookup_insert_ne. }
  split; [unfold RemoveTarget; by rewrite H3|].
  unfold TriggerCheck. by rewrite H3.
Qed.

Lemma checkTarget_registry s target io now :
  Service.targets (checkTarget s target io now) = Service.targets s
  /\ Service.checkQueue (checkTarget s target io now) = Service.checkQueue s
  /\ Service.tickers (checkTarget s target io now) = Service.tickers s.
Proof.
  destruct (checkTarget_cases s target io now) as [[l ->]|[r ->]]; [done|].
  by destruct (saveResult_frame s target r now) as (? & ? & ? & _).
Qed.

Lemma step_registry s op : registry_ok s -> registry_ok (step s op).
Proof.
  intros Hok. pose proof Hok as [Hreg Hq].
  destruct op as [target|id|i|io now|id io now|]; simpl.
  - split.
    + intros id tg. simpl.
      destruct (decide (id = MonitorTarget.ID target)) as [->|Hne].
      * rewrite lookup_insert_eq. intros [= <-]. split; [done|].
        apply elem_of_app. right. by apply list_elem_of_singleton.
      * rewrite lookup_insert_ne by done. intros Ht.
        destruct (Hreg id tg Ht) as [? ?]. split; [done|].
        apply elem_of_app. by left.
    + intros tg Ht. simpl in *. apply elem_of_app. left. by apply Hq.
  - unfold RemoveTarget. destruct (Service.targets s !! id) eqn:Hid; [|exact Hok].
    split; [|exact Hq]. intros id' tg. simpl.
    destruct (decide (id' = id)) as [->|Hne].
    + by rewrite lookup_delete_eq.
    + rewrite lookup_delete_ne by done. apply Hreg.
  - unfold tick. destruct (Service.ctxDone s); [exact Hok|].
    destruct (Service.tickers s !! i) as [target|] eqn:Hi; [|exact Hok].
    unfold enqueueCheck. case_bool_decide; [|exact Hok].
    split; [exact Hreg|]. intros tg. simpl.
    intros [Ht|Ht%list_elem_of_singleton]%elem_of_app; [by apply Hq|].
    subst tg. by apply list_elem_of_lookup_2 in Hi.
  - unfold checkWorker. destruct (Service.ctxDone s); [exact Hok|].
    destruct (Service.checkQueue s) as [|target rest] eqn:Hqueue; [exact Hok|].
    destruct (checkTarget_registry (Service.with_checkQueue rest s) target io now)
      as (Ht & Hcq & Htk).
    split.
    + intros id tg. rewrite Ht, Htk. apply Hreg.
    + intros tg. rewrite Hcq, Htk. simpl. intros Hin. apply Hq. by right.
  - unfold TriggerCheck.
    destruct (Service.targets s !! id) as [target|]; [|exact Hok].
    simpl. destruct (checkTarget_registry s target io now) as (Ht & Hcq & Htk).
    split.
    + intros id' tg. rewrite Ht, Htk. apply Hreg.
    + intros tg. rewrite Hcq, Htk. apply Hq.
  - unfold esWriter. destruct (Service.esBuffer s); exact Hok.
Qed.

Lemma call_registry s c : registry_ok s -> registry_ok (call s c).
Proof.
  intros Hok. destruct c as [op|target|id]; simpl.
  - by apply step_registry.
  - unfold updateMonitor_service.
    pose proof (step_registry s (OpRemoveTarget (MonitorTarget.ID target)) Hok) as H1.
    simpl in H1.
    destruct (RemoveTarget s (MonitorTarget.ID target)) as [s' [e|]]; [done|].
    apply (step_registry s' (OpAddTarget target) H1).
  - unfold removeMonitor_service.
    apply (step_registry (Service.with_db _ s) (OpRemoveTarget id)). exact Hok.
Qed.

(** X6: in every state the service reaches from its start, by its
    operations and by the update and remove handlers, [ListTargets]
    shows no two targets with the same id, each listed target is the
    one [GetTarget] returns for its id, and every listed or queued
    target has a ticker. *)
Theorem listed_targets_are_distinct (db : database.DB) (cs : list Call) :
  let s := run_calls (Service.New db) cs in
  NoDup (MonitorTarget.ID <$> ListTargets s)
  /\ (forall target,
        target ∈ ListTargets s <-> GetTarget s (MonitorTarget.ID target) = inl target)
  /\ (forall target,
        target ∈ ListTargets s \/ target ∈ Service.checkQueue s ->
        target ∈ Service.tickers s).
Proof.
  assert (forall s, registry_ok s -> registry_ok (run_calls s cs)) as Hrun.
  { induction cs as [|c cs IH]; intros s Hok; [done|].
    simpl. apply IH. by apply call_registry. }
  intros s. destruct (Hrun (Service.New db)) as [Hreg Hq].
  { split; [intros id tg Ht; simpl in Ht; by rewrite lookup_empty in Ht|].
    intros t Ht. by apply not_elem_of_nil in Ht. }
  fold s in Hreg, Hq.
  assert (forall target, target ∈ ListTargets s
            <-> exists id, Service.targets s !! id = Some target) as Hlist.
  { intros target. unfold ListTargets. rewrite list_elem_of_fmap. split.
    - intros ([id t] & -> & Hin). exists id. by apply elem_of_map_to_list.
    - intros [id Hid]. exists (id, target). split; [done|].
      by apply elem_of_map_to_list. }
  split; [|split].
  - unfold ListTargets. rewrite <- list_fmap_compose.
    rewrite (list_fmap_ext (MonitorTarget.ID ∘ snd) fst (map_to_list (Service.targets s))).
    + apply NoDup_fst_map_to_list.
    + intros i [id t] Hi. simpl.
      apply list_elem_of_lookup_2, elem_of_map_to_list in Hi.
      by destruct (Hreg id t Hi).
  - intros target. rewrite Hlist. unfold GetTarget. split.
    + intros [id Hid]. destruct (Hreg id target Hid) as [-> _]. by rewrite Hid.
    + intros Hget. exists (MonitorTarget.ID target).
      destruct (Service.targets s !! MonitorTarget.ID target); by simplify_eq.
  - intros target [Hin|Hin]; [|by apply Hq].
    apply Hlist in Hin as [id Hid]. by destruct (Hreg id target Hid).
Qed.

(** ** The result pipeline *)

(** X7: when the buffer of index writes is full, [saveResult] does not
    wait: it leaves the buffer as it is, logs a warning, and still
    writes the status, the history record and the file log, so the
    result is missing from the index only. *)
Theorem full_index_buffer_drops_the_result
    (s : Service.t) (target : MonitorTarget.t) (result : CheckResult.t)
    (now : time.Time) :
  (Service.esBufferCap <= length (Service.esBuffer s))%nat ->
  let s' := saveResult s target result now in
  Service.esBuffer s' = Service.esBuffer s
  /\ Service.logs s'
     = Service.logs s ++ [Warn "ES buffer full, dropping log" (MonitorTarget.ID target)]
  /\ database.monitor_history (Service.db s')
     = database.monitor_history (Service.db s) ++
         [MonitorHistory.mk (database.historySeq (Service.db s))
            (MonitorTarget.ID target) (CheckResult.Status result)
            (CheckResult.ResponseTime result) (CheckResult.Message result) now]
  /\ Service.fileLog s' = Service.fileLog s ++ [fileLogEntry target result].
Proof.
  intros Hfull s'.
  split; [|split; [|split; [apply saveResult_history | apply saveResult_fileLog]]].
  - unfold s', saveResult. case_bool_decide as Hroom; [simpl in Hroom; lia | done].
  - unfold s', saveResult. case_bool_decide as Hroom; [simpl in Hroom; lia | done].
Qed.

Lemma full_index_buffer_drops_the_result_witness :
  let s' := saveResult service_es_full tcp_target down_result sample_now in
  Service.esBuffer s' = Service.esBuffer service_es_full
  /\ Service.logs s' = [Warn "ES buffer full, dropping log" 1]
  /\ database.monitor_history (Service.db s')
     = [MonitorHistory.mk 1 1 "down" 5 "TCP connection failed: connection refused"
          sample_now]
  /\ Service.fileLog s' = [fileLogEntry tcp_target down_result].
Proof.
  apply (full_index_buffer_drops_the_result service_es_full tcp_target down_result
           sample_now).
  change (Service.esBufferCap
          <= length (replicate Service.esBufferCap (tcp_target, down_result)))%nat.
  rewrite length_replicate. apply Nat.le_refl.
Defined.

Lemma NewChecker_error_free typ :
  typ ∈ errorFreeKinds ->
  exists checker,
    NewChecker typ = inl checker
    /\ checker ∈ [HTTPChecker; HTTPSChecker; TCPChecker; UDPChecker; DNSChecker;
                  SSLChecker].
Proof.
  unfold errorFreeKinds. intros Hin.
  repeat (apply elem_of_cons in Hin as [->|Hin]);
    [..|by apply not_elem_of_nil in Hin];
    eexists; (split; [reflexivity|]); apply list_elem_of_In; simpl; tauto.
Qed.

(** X8: a check of an http, https, tcp, udp, dns, ssl or tls target on
    which the probe does not panic is always recorded, whatever the
    outcome of its I/O: the probes of these kinds return no Go error,
    so [checkTarget] hands their result to [saveResult], which appends
    one history record with the status of the result and one entry to
    the file log.  (The HTTP probe panics on a target with a DNS server
    of its own whose redirects are not followed or are limited, the
    DNS probe on a name of more than 255 bytes: nothing is recorded
    there.) *)
Theorem checks_of_error_free_kinds_are_recorded
    (s : Service.t) (target : MonitorTarget.t) (io : ProbeIO.t) (now : time.Time) :
  MonitorTarget.Type_ target ∈ errorFreeKinds ->
  probe_panics target = false ->
  let s' := checkTarget s target io now in
  exists checker,
    NewChecker (MonitorTarget.Type_ target) = inl checker
    /\ let result := (Check checker target io).1 in
       database.monitor_history (Service.db s')
       = database.monitor_history (Service.db s) ++
           [MonitorHistory.mk (database.historySeq (Service.db s))
              (MonitorTarget.ID target) (CheckResult.Status result)
              (CheckResult.ResponseTime result) (CheckResult.Message result) now]
       /\ Service.fileLog s' = Service.fileLog s ++ [fileLogEntry target result].
Proof.
  intros Hkind _ s'.
  destruct (NewChecker_error_free _ Hkind) as (checker & Hc & Hin).
  exists checker. split; [done|].
  unfold s'. rewrite (checkTarget_forwards s target io now checker Hc)
    by (by apply Check_without_error).
  split; [apply saveResult_history | apply saveResult_fileLog].
Qed.

Lemma checks_of_error_free_kinds_are_recorded_witness :
  exists checker,
    NewChecker "tcp" = inl checker
    /\ database.monitor_history
         (Service.db (checkTarget (Service.New database.empty) tcp_target
                        probe_io_ok sample_now))
       = [MonitorHistory.mk 1 1 "up" 5 "TCP connection successful" sample_now]
    /\ Service.fileLog (checkTarget (Service.New database.empty) tcp_target
                          probe_io_ok sample_now)
       = [fileLogEntry tcp_target (Check checker tcp_target probe_io_ok).1].
Proof.
  destruct (checks_of_error_free_kinds_are_recorded (Service.New database.empty)
              tcp_target probe_io_ok sample_now) as (checker & Hc & Hh & Hf).
  { apply list_elem_of_In. simpl. tauto. }
  { reflexivity. }
  exists checker. split; [exact Hc|]. split; [|exact Hf].
  rewrite Hh. simpl in Hc. injection Hc as <-. reflexivity.
Defined.

Lemma smtp_fail_error status pfx err : (smtp_fail status pfx err).2 = Some err.
Proof. done. Qed.

Lemma checkSMTP_up target host io :
  (checkSMTP target host io).2 = None ->
  CheckResult.Status (checkSMTP target host io).1 = "up".
Proof.
  unfold checkSMTP.
  repeat (match goal with
          | |- context [match ?x with _ => _ end] =>
              destruct x eqn:?; try (rewrite smtp_fail_error; discriminate);
              try (simpl; discriminate)
          end); try done.
Qed.

Lemma checkSMTPS_up target host io :
  (checkSMTPS target host io).2 = None ->
  CheckResult.Status (checkSMTPS target host io).1 = "up".
Proof.
  unfold checkSMTPS.
  repeat (match goal with
          | |- context [match ?x with _ => _ end] =>
              destruct x eqn:?; try (rewrite smtp_fail_error; discriminate);
              try (simpl; discriminate)
          end); try done.
Qed.

Lemma SMTPChecker_up target io :
  (SMTPChecker_Check target io).2 = None ->
  CheckResult.Status (SMTPChecker_Check target io).1 = "up".
Proof.
  unfold SMTPChecker_Check.
  destruct (SMTPIO.tcpDial io); [discriminate|].
  destruct (MonitorTarget.SMTPUseTLS target).
  - pose proof (checkSMTPS_up target (MonitorTarget.Address target) io) as H.
    destruct (checkSMTPS _ _ _) as [result [e|]]; [discriminate|].
    intros _. by apply H.
  - pose proof (checkSMTP_up target (MonitorTarget.Address target) io) as H.
    destruct (checkSMTP _ _ _) as [result [e|]]; [discriminate|].
    intros _. by apply H.
Qed.

(** X9: the only status the pipeline ever records for an smtp or smtps
    target is [up]: every [down] or [degraded] result of the SMTP probe
    is returned together with a Go error, and [checkTarget] drops such
    a result (the store and the file log stay as they were). *)
Theorem smtp_checks_record_only_up
    (s : Service.t) (target : MonitorTarget.t) (io : ProbeIO.t) (now : time.Time) :
  MonitorTarget.Type_ target = "smtp" \/ MonitorTarget.Type_ target = "smtps" ->
  let s' := checkTarget s target io now in
  (Service.db s' = Service.db s /\ Service.fileLog s' = Service.fileLog s)
  \/ exists h,
       database.monitor_history (Service.db s')
       = database.monitor_history (Service.db s) ++ [h]
       /\ MonitorHistory.TargetID h = MonitorTarget.ID target
       /\ MonitorHistory.Status h = "up".
Proof.
  intros Hkind s'.
  assert (NewChecker (MonitorTarget.Type_ target) = inl SMTPCheckerWrapper) as Hc
    by (by destruct Hkind as [-> | ->]).
  unfold s', checkTarget. rewrite Hc. simpl.
  pose proof (SMTPChecker_up target (ProbeIO.smtp io)) as Hup.
  destruct (SMTPChecker_Check target (ProbeIO.smtp io)) as [result [e|]].
  - left. done.
  - right. eexists. split; [apply saveResult_history|]. split; [done|].
    simpl. by apply Hup.
Qed.

Lemma smtp_checks_record_only_up_witness :
  let s' := checkTarget (Service.New database.empty) smtp_target probe_io_ok
              sample_now in
  (Service.db s' = database.empty /\ Service.fileLog s' = [])
  \/ exists h,
       database.monitor_history (Service.db s') = [] ++ [h]
       /\ MonitorHistory.TargetID h = 3
       /\ MonitorHistory.Status h = "up".
Proof.
  apply (smtp_checks_record_only_up (Service.New database.empty) smtp_target
           probe_io_ok sample_now).
  left. reflexivity.
Defined.

(** X10: the registry accepts a target of any kind, but a target whose
    kind [NewChecker] has no probe for is never checked: each of its
    checks ends in [checkTarget] with one log line and changes nothing
    else, so the target never gets a status. *)
Theorem unsupported_kind_is_only_logged
    (s : Service.t) (target : MonitorTarget.t) (io : ProbeIO.t) (now : time.Time) :
  MonitorTarget.Type_ target ∉ supportedKinds ->
  GetTarget (AddTarget s target) (MonitorTarget.ID target) = inl target
  /\ checkTarget s target io now
     = Service.with_logs
         (Service.logs s ++
            [Printf ("Failed to create checker for target "
                     +:+ GoInt.Sprintf_d (MonitorTarget.ID target)
                     +:+ ": unsupported monitor type: "
                     +:+ MonitorTarget.Type_ target)]) s.
Proof.
  intros Hkind. split.
  { unfold GetTarget, AddTarget. simpl. by rewrite lookup_insert_eq. }
  assert (NewChecker (MonitorTarget.Type_ target)
          = inr ("unsupported monitor type: " +:+ MonitorTarget.Type_ target)) as Hc.
  { unfold NewChecker.
    repeat (rewrite bool_decide_eq_false_2;
            [|intros Heq; apply Hkind; rewrite Heq;
              apply list_elem_of_In; simpl; tauto]).
    done. }
  unfold checkTarget. by rewrite Hc.
Qed.

Lemma unsupported_kind_is_only_logged_witness :
  GetTarget (AddTarget (Service.New database.empty) ftp_target) 4 = inl ftp_target
  /\ checkTarget (Service.New database.empty) ftp_target probe_io_ok sample_now
     = Service.with_logs
         [Printf "Failed to create checker for target 4: unsupported monitor type: ftp"]
         (Service.New database.empty).
Proof.
  apply (unsupported_kind_is_only_logged (Service.New database.empty) ftp_target
           probe_io_ok sample_now).
  apply (bool_decide_unpack _). vm_compute. exact I.
Defined.

(** ** The update handler *)

(** X11: an update of a registered target replaces its entry in the
    registry and starts a ticker for the new configuration, but the
    tickers that ran before all run on, the one of the old
    configuration among them: its ticks still queue the old
    configuration for checking. *)
Theorem update_keeps_the_old_ticker
    (s : Service.t) (target old : MonitorTarget.t) (i : nat) :
  Service.targets s !! MonitorTarget.ID target = Some old ->
  Service.tickers s !! i = Some old ->
  Service.ctxDone s = false ->
  (length (Service.checkQueue s) < Service.checkQueueCap)%nat ->
  let s' := updateMonitor_service s target in
  GetTarget s' (MonitorTarget.ID target) = inl target
  /\ Service.tickers s' = Service.tickers s ++ [target]
  /\ Service.checkQueue (tick s' i) = Service.checkQueue s ++ [old]
  /\ Service.checkQueue (tick s' (length (Service.tickers s)))
     = Service.checkQueue s ++ [target].
Proof.
  intros Hreg Hticker Hctx Hroom s'.
  assert (s' = AddTarget
                 (Service.with_targets
                    (delete (MonitorTarget.ID target) (Service.targets s)) s) target)
    as Hs' by (unfold s', updateMonitor_service, RemoveTarget; by rewrite Hreg).
  split; [rewrite Hs'; unfold GetTarget, AddTarget; simpl;
          by rewrite lookup_insert_eq|].
  split; [by rewrite Hs'|].
  assert (forall j tg,
            (Service.tickers s ++ [target]) !! j = Some tg ->
            Service.checkQueue (tick s' j) = Service.checkQueue s ++ [tg]) as Htick.
  { intros j tg Hj. rewrite Hs'. unfold tick, AddTarget. simpl.
    rewrite Hctx, Hj. unfold enqueueCheck. simpl.
    by rewrite bool_decide_eq_true_2. }
  split; apply Htick.
  - by apply lookup_app_l_Some.
  - rewrite lookup_app_r by done. by rewrite Nat.sub_diag.
Qed.

Lemma update_keeps_the_old_ticker_witness :
  let s := AddTarget (Service.New database.empty) tcp_target in
  let s' := updateMonitor_service s tcp_target_moved in
  GetTarget s' 1 = inl tcp_target_moved
  /\ Service.tickers s' = [tcp_target; tcp_target_moved]
  /\ Service.checkQueue (tick s' 0) = [tcp_target]
  /\ Service.checkQueue (tick s' 1) = [tcp_target_moved].
Proof.
  apply (update_keeps_the_old_ticker
           (AddTarget (Service.New database.empty) tcp_target)
           tcp_target_moved tcp_target 0).
  - reflexivity.
  - reflexivity.
  - reflexivity.
  - simpl. unfold Service.checkQueueCap. lia.
Defined.

(** An update of a target that is not registered leaves the service as
    it is. *)
Lemma update_of_unregistered_target s target :
  Service.targets s !! MonitorTarget.ID target = None ->
  updateMonitor_service s target = s.
Proof.
  intros H. unfold updateMonitor_service, RemoveTarget. by rewrite H.
Qed.

(** ** The certificate columns of the status row *)

Lemma SSLChecker_cert_headers target io :
  let r := (SSLChecker_Check target io).1 in
  CheckResult.header "days_until_expiry" r = None
  /\ match io with
     | SSLIO.Connected _ (leaf :: _) _ _ =>
         CheckResult.header "issuer" r = Some (Certificate.IssuerCN leaf)
         /\ CheckResult.header "subject" r = Some (Certificate.SubjectCN leaf)
         /\ CheckResult.header "serial" r = Some (Certificate.Serial leaf)
     | _ =>
         CheckResult.header "issuer" r = None
         /\ CheckResult.header "subject" r = None
         /\ CheckResult.header "serial" r = None
     end.
Proof.
  destruct io as [address err el|address [|leaf rest] now el]; try done.
  unfold SSLChecker_Check. destruct (ssl_classify _ _ _) as [status message].
  unfold CheckResult.header. simpl.
  repeat split;
    repeat (rewrite lookup_insert_ne by done);
    try apply lookup_insert_eq; apply lookup_empty.
Qed.

(** X12: a check of an ssl or tls target stores the issuer, the subject
    and the serial of the leaf certificate in the status row, but never
    the number of days until expiry: the SSL probe reports the days as
    the status code of the response, not under the header
    [days_until_expiry] that [saveResult] reads, so that column keeps
    what it held (nothing, for a new row).  When the dial fails or no
    certificate is presented the three other columns keep what they
    held. *)
Theorem ssl_check_stores_certificate_without_days
    (s : Service.t) (target : MonitorTarget.t) (io : ProbeIO.t) (now : time.Time) :
  status_keys_ok (Service.db s) ->
  MonitorTarget.Type_ target = "ssl" \/ MonitorTarget.Type_ target = "tls" ->
  let id := MonitorTarget.ID target in
  let old := default (MonitorStatus.zero id) (database.FirstStatus (Service.db s) id) in
  let s' := checkTarget s target io now in
  exists row,
    database.FirstStatus (Service.db s') id = Some row
    /\ MonitorStatus.SSLDaysUntilExpiry row = MonitorStatus.SSLDaysUntilExpiry old
    /\ match ProbeIO.ssl io with
       | SSLIO.Connected _ (leaf :: _) _ _ =>
           MonitorStatus.SSLIssuer row = Some (Certificate.IssuerCN leaf)
           /\ MonitorStatus.SSLSubject row = Some (Certificate.SubjectCN leaf)
           /\ MonitorStatus.SSLEserial row = Some (Certificate.Serial leaf)
       | _ =>
           MonitorStatus.SSLIssuer row = MonitorStatus.SSLIssuer old
           /\ MonitorStatus.SSLSubject row = MonitorStatus.SSLSubject old
           /\ MonitorStatus.SSLEserial row = MonitorStatus.SSLEserial old
       end.
Proof.
  intros Hwf Hkind id old s'.
  assert (NewChecker (MonitorTarget.Type_ target) = inl SSLChecker) as Hc
    by (by destruct Hkind as [-> | ->]).
  assert (isTLSKind (MonitorTarget.Type_ target) = true) as Htls
    by (by destruct Hkind as [-> | ->]).
  unfold s'. rewrite (checkTarget_forwards s target io now SSLChecker Hc)
    by apply SSLChecker_no_error.
  simpl.
  destruct (saveResult_stores_built_row s target
              (SSLChecker_Check target (ProbeIO.ssl io)).1 now Hwf)
    as (row & Hrow & Heq).
  fold id in Hrow, Heq. fold old in Heq.
  exists row. split; [exact Hrow|].
  destruct (SSLChecker_cert_headers target (ProbeIO.ssl io)) as [Hdays Hcert].
  simpl in Hdays, Hcert.
  set (r := (SSLChecker_Check target (ProbeIO.ssl io)).1) in *.
  assert (MonitorStatus.SSLDaysUntilExpiry row
          = MonitorStatus.SSLDaysUntilExpiry (buildStatus old target r now)
          /\ MonitorStatus.SSLIssuer row
             = MonitorStatus.SSLIssuer (buildStatus old target r now)
          /\ MonitorStatus.SSLSubject row
             = MonitorStatus.SSLSubject (buildStatus old target r now)
          /\ MonitorStatus.SSLEserial row
             = MonitorStatus.SSLEserial (buildStatus old target r now))
    as (-> & -> & -> & ->) by (rewrite Heq; done).
  unfold buildStatus. rewrite Htls. simpl. rewrite Hdays. simpl.
  split; [done|].
  destruct (ProbeIO.ssl io) as [address err el|address [|leaf rest] now' el];
    destruct Hcert as (-> & -> & ->); done.
Qed.

Lemma ssl_check_stores_certificate_without_days_witness :
  exists row,
    database.FirstStatus
      (Service.db (checkTarget (Service.New database.empty) ssl_target probe_io_ssl
                     sample_now)) 2 = Some row
    /\ MonitorStatus.SSLDaysUntilExpiry row = None
    /\ MonitorStatus.SSLIssuer row = Some "Example CA"
    /\ MonitorStatus.SSLSubject row = Some "example.com"
    /\ MonitorStatus.SSLEserial row = Some "0A1B".
Proof.
  apply (ssl_check_stores_certificate_without_days (Service.New database.empty)
           ssl_target probe_io_ssl sample_now).
  - split; [simpl; lia|]. split; constructor.
  - left. reflexivity.
Defined.

(** ** The file log *)

Lemma put_if_lookup b k v (m : gmap string LogValue) k' :
  put_if b k v m !! k' = if b && bool_decide (k' = k) then Some v else m !! k'.
Proof.
  unfold put_if. destruct b; simpl; [|done].
  case_bool_decide as Hk; [subst; apply lookup_insert_eq|].
  by rewrite lookup_insert_ne.
Qed.

(** X13: the file log never holds the body of a response: the response
    object of an entry has no other keys than [status_code], [headers],
    [body_size] and [content_length], and [body_size] is the length of
    the body the probe stored.  The error of a failed check is filed in
    the request object, which is created for it when the result names
    no method and no URL. *)
Theorem file_log_keeps_no_response_body
    (target : MonitorTarget.t) (result : CheckResult.t) :
  let entry := fileLogEntry target result in
  let body := ResponseDetails.Body (CheckResult.Response result) in
  (forall m,
     CheckLogEntry.Response entry = Some m ->
     (forall k, is_Some (m !! k) ->
        k ∈ ["status_code"; "headers"; "body_size"; "content_length"])
     /\ m !! "body_size"
        = if bool_decide (body = "") then None
          else Some (LInt (Z.of_nat (String.length body))))
  /\ (forall e,
        CheckResult.Error result = Some e ->
        exists m,
          CheckLogEntry.Request entry = Some m
          /\ m !! "error"
             = Some (LError (ErrorDetails.Type_ e) (ErrorDetails.Message e))).
Proof.
  intros entry body. split.
  - intros m Hm. unfold entry, fileLogEntry in Hm. simpl in Hm.
    destruct (_ || _) in Hm; [|done]. injection Hm as <-. split.
    + intros k [v Hk]. rewrite !put_if_lookup, lookup_empty in Hk.
      repeat match type of Hk with
             | context [bool_decide (k = ?s)] =>
                 destruct (bool_decide_reflect (k = s)) as [->|?];
                 [apply list_elem_of_In; simpl; tauto|]
             end.
      rewrite !andb_false_r in Hk. done.
    + rewrite !put_if_lookup, lookup_empty. fold body.
      rewrite !(bool_decide_eq_false_2 ("body_size" = _)) by done.
      rewrite !andb_false_r.
      rewrite (bool_decide_eq_true_2 ("body_size" = "body_size")) by done.
      rewrite andb_true_r. by case_bool_decide.
  - intros e He. unfold entry, fileLogEntry. simpl. rewrite He.
    eexists. split; [done|]. apply lookup_insert_eq.
Qed.

(** ** The ping probe *)



(** With a count of 2^62 the product wraps around and the probe reports
    more packets received than sent. *)
Example ping_count_beyond_the_bound :
  dataInt "packets_received"
    (PingChecker_Check (target_with_PingCount (2 ^ 62) ping_target)
       (PingIO.Done 50 12)).1
  = Some 4703919738795935662.
Proof. vm_compute. reflexivity. Qed.

(** ** The DNS probe *)

(** X15: a DNS target without a server of its own is resolved at
    8.8.8.8:53 over UDP, whatever server type it names: the probe's
    result is the one of the UDP transport to that server.  A failed
    lookup gives [down] with the error filed as [dns_error], and no Go
    error; a lookup without A, AAAA and CNAME records gives [warning],
    any other [up]; the result names the server and the transport that
    were used. *)
Theorem dns_probe_defaults_to_public_udp (target : MonitorTarget.t) (io : DNSIO.t) :
  MonitorTarget.DNSServer target = "" ->
  let r := DNSChecker_Check target io in
  let resolver := dns.mkResolver "8.8.8.8:53" "udp" (10 * time.Second) in
  r.2 = None
  /\ match (dns.lookupUDP resolver (MonitorTarget.Address target) (DNSIO.net io)).2 with
     | inr err =>
         CheckResult.Status r.1 = "down"
         /\ CheckResult.Message r.1 = "DNS lookup failed: " +:+ err
         /\ CheckResult.Error r.1 = Some (ErrorDetails.mk "dns_error" err)
     | inl result =>
         CheckResult.Status r.1
         = (if bool_decide (dns.A result = [] /\ dns.AAAA result = []
                            /\ dns.CNAME result = [])
            then "warning" else "up")
         /\ CheckResult.Error r.1 = None
         /\ CheckResult.header "dns_server" r.1 = Some "8.8.8.8:53"
         /\ CheckResult.header "dns_server_type" r.1 = Some "udp"
     end.
Proof.
  intros Hserver r resolver. unfold r, DNSChecker_Check.
  rewrite Hserver. simpl.
  change (dns.Lookup (dns.NewResolver "8.8.8.8:53" "udp"))
    with (dns.lookupUDP resolver).
  destruct (dns.lookupUDP resolver (MonitorTarget.Address target) (DNSIO.net io)).2
    as [result|err]; simpl; [|done].
  split; [done|]. split.
  - case_bool_decide as Hnone.
    + by destruct Hnone as (-> & -> & ->).
    + destruct (dns.A result), (dns.AAAA result), (dns.CNAME result); try done.
      exfalso. by apply Hnone.
  - split; [done|]. unfold CheckResult.header. simpl.
    rewrite !lookup_insert_ne by done. split; [apply lookup_insert_eq|].
    rewrite !lookup_insert_ne by done. apply lookup_insert_eq.
Qed.

Lemma dns_probe_defaults_to_public_udp_witness :
  let r := DNSChecker_Check dns_target (DNSIO.mk dns_io_ok "[]" 7) in
  r.2 = None
  /\ CheckResult.Status r.1 = "up"
  /\ CheckResult.Error r.1 = None
  /\ CheckResult.header "dns_server" r.1 = Some "8.8.8.8:53"
  /\ CheckResult.header "dns_server_type" r.1 = Some "udp".
Proof.
  apply (dns_probe_defaults_to_public_udp dns_target (DNSIO.mk dns_io_ok "[]" 7)).
  reflexivity.
Defined.

(** ** The resolver: framing, connections and answers *)

Lemma lor_bytes (hi lo : Z) :
  0 <= hi -> 0 <= lo < 256 -> Z.lor (Z.shiftl hi 8) lo = hi * 256 + lo.
Proof.
  intros Hhi Hlo. rewrite Z.shiftl_mul_pow2 by lia. change (2 ^ 8) with 256.
  assert (Z.land (hi * 256) lo = 0) as Hdisj.
  { apply Z.bits_inj'. intros n Hn. rewrite Z.land_spec, Z.bits_0.
    destruct (Z.ltb_spec n 8) as [Hlt|Hge].
    - change 256 with (2 ^ 8). by rewrite Z.mul_pow2_bits_low by lia.
    - rewrite <- (Z.mod_small lo (2 ^ 8)) by (change (2 ^ 8) with 256; lia).
      rewrite Z.mod_pow2_bits_high by lia. apply andb_false_r. }
  rewrite <- Z.lxor_lor by done. symmetry. by apply Z.add_nocarry_lxor.
Qed.

(** X16: the stream transports frame a message with a 2-byte length
    and read a response by that length.  A message of fewer than 65536
    bytes, framed this way, is read back whole, whatever follows it on
    the stream; and when the stream ends before the frame is complete
    the read fails: no partial message is returned. *)
Theorem framed_message_round_trip (buf : list Z) :
  Z.of_nat (length buf) < 65536 ->
  (forall io extra,
     dns.IO.incoming io = dns.frame buf ++ extra -> dns.readFramed io = inl buf)
  /\ (forall io n,
        (n < length (dns.frame buf))%nat ->
        dns.IO.incoming io = take n (dns.frame buf) ->
        exists e, dns.readFramed io = inr e).
Proof.
  intros Hlen.
  destruct (frame_prefix buf Hlen) as (hi & lo & Hframe & Hhi & Hlo & Hsum).
  assert (Z.to_nat (Z.lor (Z.shiftl hi 8) lo) = length buf) as Hdec
    by (rewrite lor_bytes by lia; lia).
  rewrite Hframe. split.
  - intros io extra Hin. unfold dns.readFramed. rewrite Hin. simpl.
    rewrite Hdec, length_app.
    rewrite bool_decide_eq_true_2 by lia.
    by rewrite take_app_length.
  - intros io n Hn Hin. unfold dns.readFramed. rewrite Hin.
    destruct n as [|[|m]]; simpl; [by eexists..|].
    simpl in Hn. rewrite Hdec, length_take.
    rewrite bool_decide_eq_false_2 by lia.
    destruct (take m buf); by eexists.
Qed.

Lemma framed_message_round_trip_witness :
  (forall io extra,
     dns.IO.incoming io = dns.frame sample_message ++ extra ->
     dns.readFramed io = inl sample_message)
  /\ (forall io n,
        (n < length (dns.frame sample_message))%nat ->
        dns.IO.incoming io = take n (dns.frame sample_message) ->
        exists e, dns.readFramed io = inr e).
Proof.
  apply (framed_message_round_trip sample_message). simpl. lia.
Defined.

Lemma exchange_closes network addr io first :
  exists writes,
    (dns.exchange (net.Socket network addr) io [first]).1
    = first :: writes ++ [net.Close (net.Socket network addr)]
    /\ (length writes <= 1)%nat
    /\ forall ev, ev ∈ writes ->
         exists data, ev = net.Write (net.Socket network addr) data.
Proof.
  destruct (exchange_trace (net.Socket network addr) io [first])
    as (tail & -> & [[-> _]|(buf & _ & ->)]).
  - exists []. split; [done|]. split; [simpl; lia|].
    intros ev Hev. by apply not_elem_of_nil in Hev.
  - exists [net.Write (net.Socket network addr) (dns.frame buf)].
    split; [done|]. split; [simpl; lia|].
    intros ev Hev%list_elem_of_singleton. eauto.
Qed.

Lemma lookupUDP_trace r domain io :
  (dns.lookupUDP r domain io).1
  = net.Dial "udp" (dns.Server r)
    :: match dns.IO.dial io with
       | Some _ => []
       | None =>
           match dns.IO.packed io with
           | inl buf =>
               [net.Write (net.Socket "udp" (dns.Server r)) buf;
                net.Close (net.Socket "udp" (dns.Server r))]
           | inr _ => [net.Close (net.Socket "udp" (dns.Server r))]
           end
       end.
Proof.
  unfold dns.lookupUDP.
  destruct (dns.IO.dial io), (dns.IO.packed io), (dns.IO.write io),
    (dns.IO.read io), (dns.IO.unpacked io); reflexivity.
Qed.

(** X17: a lookup closes what it dials, on every path.  The trace of
    the UDP, TCP and DoT transports starts with the dial; when the dial
    fails nothing else happens; when it succeeds the connection is
    closed exactly once, as the last event, after at most one write on
    that same connection, whether packing, writing, reading or
    unpacking fails or not.  The DoH transport uses no socket of the
    resolver's own. *)
Theorem lookup_closes_what_it_dials
    (r : dns.Resolver) (domain : string) (io : dns.IO.t) :
  match (dns.Lookup r domain io).1 with
  | [] => dns.ServerType r = "doh"
  | first :: rest =>
      exists network addr,
        first = net.Dial network addr
        /\ match dns.IO.dial io with
           | Some _ => rest = []
           | None =>
               exists writes,
                 rest = writes ++ [net.Close (net.Socket network addr)]
                 /\ (length writes <= 1)%nat
                 /\ forall ev, ev ∈ writes ->
                      exists data, ev = net.Write (net.Socket network addr) data
           end
  end.
Proof.
  assert (match (dns.lookupUDP r domain io).1 with
          | [] => dns.ServerType r = "doh"
          | first :: rest =>
              exists network addr,
                first = net.Dial network addr
                /\ match dns.IO.dial io with
                   | Some _ => rest = []
                   | None =>
                       exists writes,
                         rest = writes ++ [net.Close (net.Socket network addr)]
                         /\ (length writes <= 1)%nat
                         /\ forall ev, ev ∈ writes ->
                              exists data,
                                ev = net.Write (net.Socket network addr) data
                   end
          end) as Hudp.
  { rewrite lookupUDP_trace. exists "udp", (dns.Server r). split; [done|].
    destruct (dns.IO.dial io); [done|].
    destruct (dns.IO.packed io) as [buf|e].
    - exists [net.Write (net.Socket "udp" (dns.Server r)) buf].
      split; [done|]. split; [simpl; lia|].
      intros ev Hev%list_elem_of_singleton. eauto.
    - exists []. split; [done|]. split; [simpl; lia|].
      intros ev Hev. by apply not_elem_of_nil in Hev. }
  unfold dns.Lookup. case_bool_decide as Hudp'; [exact Hudp|].
  case_bool_decide as Htcp.
  { unfold dns.lookupTCP. destruct (dns.IO.dial io) as [e|] eqn:Hdial.
    - simpl. by exists "tcp", (dns.Server r).
    - destruct (exchange_closes "tcp" (dns.Server r) io
                  (net.Dial "tcp" (dns.Server r))) as (writes & -> & Hw).
      exists "tcp", (dns.Server r). split; [done|].
      by exists writes. }
  case_bool_decide as Hdoh.
  { unfold dns.lookupDoH. by destruct (dns.IO.doh io). }
  case_bool_decide as Hdot; [|exact Hudp].
  unfold dns.lookupDoT. destruct (dns.dotAddress r) as [host port].
  destruct (dns.IO.dial io) as [e|] eqn:Hdial.
  - simpl. by exists "tcp", (net.JoinHostPort host port).
  - simpl.
    destruct (exchange_closes "tcp" (net.JoinHostPort host port) io
                (net.Dial "tcp" (net.JoinHostPort host port)))
      as (writes & -> & Hw).
    exists "tcp", (net.JoinHostPort host port). split; [done|].
    by exists writes.
Qed.

(** X18: [parseDNSResponse] sorts the answers of a message by type:
    each record list holds the texts of the answers of its type, in the
    order of the message (an MX answer as its preference and its name,
    a TXT answer as all its strings), and answers of other types are
    ignored. *)
Theorem answers_are_grouped_by_type (answers : list dns.Answer) :
  dns.parseDNSResponse answers
  = dns.mkResult (answers ≫= textsA) (answers ≫= textsAAAA)
      (answers ≫= textsCNAME) (answers ≫= textsMX) (answers ≫= textsTXT)
      (answers ≫= textsNS).
Proof.
  unfold dns.parseDNSResponse.
  match goal with |- context [foldl ?f _ _] => set (step := f) end.
  assert (forall acc,
            foldl step acc answers
            = dns.mkResult (dns.A acc ++ (answers ≫= textsA))
                (dns.AAAA acc ++ (answers ≫= textsAAAA))
                (dns.CNAME acc ++ (answers ≫= textsCNAME))
                (dns.MX acc ++ (answers ≫= textsMX))
                (dns.TXT acc ++ (answers ≫= textsTXT))
                (dns.NS acc ++ (answers ≫= textsNS))) as H.
  { induction answers as [|ans l IH]; intros acc.
    - simpl. rewrite !app_nil_r. by destruct acc.
    - change (foldl step acc (ans :: l)) with (foldl step (step acc ans) l).
      rewrite IH. destruct ans; simpl; rewrite <- ?app_assoc; done. }
  by rewrite H.
Qed.

(** X19: of a DoH reply the resolver keeps the entries of type 1, 28
    and 5 only, as A, AAAA and CNAME records in the order of the
    reply; whatever the server answers, a DoH lookup yields no MX, TXT
    or NS record. *)
Theorem doh_keeps_addresses_and_aliases (answers : list (Z * string)) :
  dns.parseDoHResponse answers
  = dns.mkResult (dohData 1 answers) (dohData 28 answers) (dohData 5 answers)
      [] [] [].
Proof.
  unfold dns.parseDoHResponse.
  match goal with |- context [foldl ?f _ _] => set (step := f) end.
  assert (forall acc,
            foldl step acc answers
            = dns.mkResult (dns.A acc ++ dohData 1 answers)
                (dns.AAAA acc ++ dohData 28 answers)
                (dns.CNAME acc ++ dohData 5 answers)
                (dns.MX acc) (dns.TXT acc) (dns.NS acc)) as H.
  { induction answers as [|[ty data] l IH]; intros acc.
    - unfold dohData. simpl. rewrite !app_nil_r. by destruct acc.
    - change (foldl step acc ((ty, data) :: l))
        with (foldl step (step acc (ty, data)) l).
      assert (step acc (ty, data)
              = if bool_decide (ty = 1) then
                  dns.mkResult (dns.A acc ++ [data]) (dns.AAAA acc) (dns.CNAME acc)
                    (dns.MX acc) (dns.TXT acc) (dns.NS acc)
                else if bool_decide (ty = 28) then
                  dns.mkResult (dns.A acc) (dns.AAAA acc ++ [data]) (dns.CNAME acc)
                    (dns.MX acc) (dns.TXT acc) (dns.NS acc)
                else if bool_decide (ty = 5) then
                  dns.mkResult (dns.A acc) (dns.AAAA acc) (dns.CNAME acc ++ [data])
                    (dns.MX acc) (dns.TXT acc) (dns.NS acc)
                else acc) as Hstep.
      { unfold step. destruct ty as [|p|p]; try done.
        do 5 (destruct p as [p|p|]; try done). }
      rewrite IH, Hstep. unfold dohData. cbn [List.filter fst snd].
      repeat case_bool_decide; subst; try done;
        cbn [fmap list_fmap snd dns.A dns.AAAA dns.CNAME dns.MX dns.TXT dns.NS];
        rewrite <- ?app_assoc; done. }
  by rewrite H.
Qed.

(** ** The address check of smtp.go *)

Lemma Split_cons s sep : exists part parts, Split s sep = part :: parts.
Proof.
  destruct s as [|c rest]; simpl; [by eexists _, _|].
  destruct (Ascii.eqb c sep); [by eexists _, _|].
  destruct (Split rest sep); by eexists _, _.
Qed.

(** Without the separator there is one piece. *)
Lemma Split_none s sep : net.IndexByte s sep = None -> Split s sep = [s].
Proof.
  induction s as [|c rest IH]; simpl; [done|].
  destruct (Ascii.eqb c sep); [done|].
  destruct (net.IndexByte rest sep); [done|]. intros _. by rewrite IH.
Qed.

(** The first piece ends at the first separator. *)
Lemma Split_first p q sep :
  net.IndexByte p sep = None ->
  Split (p +:+ String sep q) sep = p :: Split q sep.
Proof.
  induction p as [|c rest IH]; simpl.
  - intros _. by rewrite Ascii.eqb_refl.
  - destruct (Ascii.eqb c sep); [done|].
    destruct (net.IndexByte rest sep); [done|]. intros _. by rewrite IH.
Qed.

Lemma first_occurrence s sep i :
  net.IndexByte s sep = Some i ->
  exists p q, s = p +:+ String sep q /\ net.IndexByte p sep = None.
Proof.
  revert i. induction s as [|c rest IH]; intros i; simpl; [done|].
  destruct (Ascii.eqb c sep) eqn:Hc.
  - apply Ascii.eqb_eq in Hc as ->. intros _. by exists "", rest.
  - destruct (net.IndexByte rest sep) as [j|] eqn:Hj; [|done]. intros _.
    destruct (IH j eq_refl) as (p & q & -> & Hp).
    exists (String c p), q. split; [done|]. simpl. by rewrite Hc, Hp.
Qed.

Lemma Split_one s sep p :
  Split s sep = [p] -> s = p /\ net.IndexByte s sep = None.
Proof.
  destruct (net.IndexByte s sep) as [i|] eqn:Hi.
  - destruct (first_occurrence s sep i Hi) as (p' & q' & -> & Hp').
    rewrite Split_first by done.
    destruct (Split_cons q' sep) as (part & parts & ->). done.
  - rewrite Split_none by done. by intros [= <-].
Qed.

Lemma Split_two s sep p q :
  Split s sep = [p; q]
  <-> s = p +:+ String sep q
      /\ net.IndexByte p sep = None /\ net.IndexByte q sep = None.
Proof.
  split.
  - destruct (net.IndexByte s sep) as [i|] eqn:Hi.
    + destruct (first_occurrence s sep i Hi) as (p' & q' & -> & Hp').
      rewrite Split_first by done. intros [= <- Hq].
      by apply Split_one in Hq as [-> Hq].
    + by rewrite Split_none.
  - intros (-> & Hp & Hq). rewrite Split_first by done. by rewrite Split_none.
Qed.

(** X20: [ValidateSMTPAddress] accepts exactly the addresses made of a
    non-empty local part, one [@] and a domain that contains a dot:
    an address without [@], with two of them, with nothing before the
    [@] or with no dot after it is refused; nothing else is checked, so
    a domain that is a single dot is accepted. *)
Theorem valid_address_has_one_at_and_a_dot (address : string) :
  ValidateSMTPAddress address = true
  <-> exists local domain,
        address = local +:+ "@" +:+ domain
        /\ local <> ""
        /\ net.IndexByte local "@" = None
        /\ net.IndexByte domain "@" = None
        /\ net.IndexByte domain "." <> None.
Proof.
  unfold ValidateSMTPAddress, ContainsByte. split.
  - destruct (Split address "@") as [|p [|q [|]]] eqn:Hsplit; try done.
    apply Split_two in Hsplit as (-> & Hp & Hq).
    repeat case_bool_decide; simpl; try done.
    destruct (net.IndexByte q ".") eqn:Hdot; [|done]. intros _.
    exists p, q. by rewrite Hdot.
  - intros (p & q & -> & Hne & Hp & Hq & Hdot).
    rewrite (proj2 (Split_two (p +:+ "@" +:+ q) "@" p q)) by done.
    rewrite (bool_decide_eq_false_2 (p = "")) by done.
    destruct q as [|c q']; [done|].
    rewrite (bool_decide_eq_false_2 (String c q' = "")) by done.
    simpl orb. cbv iota.
    by destruct (net.IndexByte (String c q') ".").
Qed.

Example address_with_single_dot_domain : ValidateSMTPAddress "a@." = true.
Proof. reflexivity. Qed.

Example address_with_two_ats : ValidateSMTPAddress "a@b@c.d" = false.
Proof. reflexivity. Qed.

(** ** The alert manager *)

Lemma pushEvent_lastN (l : list AlertEvent.t) event :
  alert.pushEvent (lastN 100 l) event = lastN 100 (l ++ [event]).
Proof.
  unfold alert.pushEvent, lastN. rewrite !length_app, length_drop. simpl.
  case_bool_decide as Hlen.
  - rewrite (drop_app_le l [event] (length l + 1 - 100)) by lia.
    rewrite (drop_app_le (drop (length l - 100) l) [event] 1)
      by (rewrite length_drop; lia).
    rewrite drop_drop. do 2 f_equal. lia.
  - replace (length l - 100)%nat with 0%nat by lia.
    replace (length l + 1 - 100)%nat with 0%nat by lia. done.
Qed.

Lemma eventsFor_cons id now e evs :
  eventsFor id ((now, e) :: evs)
  = if bool_decide (AlertEvent.TargetID e = id) then e :: eventsFor id evs
    else eventsFor id evs.
Proof. done. Qed.

Lemma run_buffer id evs :
  forall m (pre : list AlertEvent.t),
    alert.eventBuffer m !! id = keptEvents pre ->
    alert.eventBuffer (alert.run m evs).1 !! id
    = keptEvents (pre ++ eventsFor id evs).
Proof.
  induction evs as [|[now e] evs IH]; intros m pre Hpre.
  - change (eventsFor id []) with (@nil AlertEvent.t). rewrite app_nil_r.
    exact Hpre.
  - simpl. pose proof (ProcessEvent_buffer m e now) as Hbuf.
    destruct (alert.ProcessEvent m e now) as [m1 out1]. simpl in Hbuf.
    rewrite eventsFor_cons.
    case_bool_decide as Hid.
    + specialize (IH m1 (pre ++ [e])).
      destruct (alert.run m1 evs) as [m2 out2]. simpl in *.
      rewrite <- app_assoc in IH. simpl in IH. apply IH.
      rewrite Hbuf, Hid, lookup_insert_eq. subst id. rewrite Hpre.
      assert (default [] (keptEvents pre) = lastN 100 pre) as ->
        by (by destruct pre).
      rewrite pushEvent_lastN. by destruct pre.
    + specialize (IH m1 pre).
      destruct (alert.run m1 evs) as [m2 out2]. simpl in *.
      apply IH. by rewrite Hbuf, lookup_insert_ne.
Qed.

(** X21: in a run from a manager that holds no events of a target yet,
    the event buffer of the target holds, after the run, the last 100
    events that arrived for this target, in the order of arrival (all
    of them when there were fewer); a target without events has no
    buffer. *)
Theorem event_buffer_holds_last_100
    (m : alert.Manager) (evs : list (time.Time * AlertEvent.t)) (id : Z) :
  alert.eventBuffer m !! id = None ->
  alert.eventBuffer (alert.run m evs).1 !! id
  = match eventsFor id evs with
    | [] => None
    | l => Some (drop (length l - 100) l)
    end.
Proof.
  intros Hnone. rewrite (run_buffer id evs m [] Hnone). simpl.
  by destruct (eventsFor id evs).
Qed.

Lemma event_buffer_holds_last_100_witness :
  alert.eventBuffer (alert.run sample_manager three_downs).1 !! 1
  = Some (three_downs.*2).
Proof.
  apply (event_buffer_holds_last_100 sample_manager three_downs 1). reflexivity.
Defined.

(** *** Where dispatches come from *)

Lemma fires_applies events event now rule :
  alert.fires events event now rule = true ->
  AlertRule.Enabled rule = true
  /\ (AlertRule.TargetID rule = None
      \/ AlertRule.TargetID rule = Some (AlertEvent.TargetID event))
  /\ alert.shouldAlert events event rule = true.
Proof.
  unfold alert.fires. intros Hf.
  repeat (apply andb_prop in Hf as [Hf ?]).
  split; [done|]. split; [|done].
  destruct (AlertRule.TargetID rule) as [id|]; [|by left].
  right. f_equal. by match goal with H : bool_decide _ = true |- _ =>
                       apply bool_decide_eq_true_1 in H end.
Qed.

Lemma ruleAfter_sameConfig events event now r :
  sameConfig r (ruleAfter events event now r).
Proof. unfold ruleAfter. by destruct (alert.fires _ _ _ _). Qed.

Lemma ProcessEvent_dispatch m event now d :
  d ∈ (alert.ProcessEvent m event now).2 ->
  alert.at_ d = now /\ alert.event d = event
  /\ exists r,
       alert.rules m !! alert.rule d = Some r
       /\ alert.effects d = alert.sendAlert (alert.channels m) event r
       /\ alert.fires
            (alert.pushEvent
               (default [] (alert.eventBuffer m !! AlertEvent.TargetID event))
               event) event now r = true.
Proof.
  destruct (ProcessEvent_rules m event now) as [-> _].
  intros Hd. apply list_elem_of_omap in Hd as ([k r] & Hkr & Hd).
  apply elem_of_map_to_list in Hkr.
  unfold dispatchOf in Hd. simpl in Hd.
  destruct (alert.fires _ _ _ _) eqn:Hf; [|done].
  injection Hd as <-. simpl. eauto 10.
Qed.

Lemma ProcessEvent_channels m event now :
  alert.channels (alert.ProcessEvent m event now).1 = alert.channels m.
Proof. unfold alert.ProcessEvent. by destruct (foldl _ _ _). Qed.

Lemma ProcessEvent_rules_config m event now k :
  match alert.rules (alert.ProcessEvent m event now).1 !! k, alert.rules m !! k with
  | Some r', Some r => sameConfig r r'
  | None, None => True
  | _, _ => False
  end.
Proof.
  destruct (ProcessEvent_rules m event now) as [_ ->].
  destruct (alert.rules m !! k) as [r|]; simpl; [|done].
  apply ruleAfter_sameConfig.
Qed.

Lemma ProcessEvent_bounded m event now :
  buffers_bounded m -> buffers_bounded (alert.ProcessEvent m event now).1.
Proof.
  intros Hm id l. rewrite ProcessEvent_buffer.
  destruct (decide (id = AlertEvent.TargetID event)) as [->|Hne].
  - rewrite lookup_insert_eq. intros [= <-]. apply pushEvent_length.
    destruct (alert.eventBuffer m !! AlertEvent.TargetID event) as [l0|] eqn:Hl0;
      simpl; [by eapply Hm | lia].
  - rewrite lookup_insert_ne by done. apply Hm.
Qed.

(** A dispatch of a run is made by one call of [ProcessEvent], on the
    manager as the events before have left it. *)
Lemma run_dispatch_split evs :
  forall m d,
    d ∈ (alert.run m evs).2 ->
    exists pre now event post,
      evs = pre ++ (now, event) :: post
      /\ d ∈ (alert.ProcessEvent (alert.run m pre).1 event now).2.
Proof.
  induction evs as [|[now e] evs IH]; intros m d Hd.
  - simpl in Hd. by apply not_elem_of_nil in Hd.
  - simpl in Hd. destruct (alert.ProcessEvent m e now) as [m1 out1] eqn:H1.
    destruct (alert.run m1 evs) as [m2 out2] eqn:H2. simpl in Hd.
    apply elem_of_app in Hd as [Hd|Hd].
    + exists [], now, e, evs. simpl. by rewrite H1.
    + specialize (IH m1 d). rewrite H2 in IH.
      destruct (IH Hd) as (pre & now' & e' & post & -> & Hin).
      exists ((now, e) :: pre), now', e', post. split; [done|].
      simpl. rewrite H1. by destruct (alert.run m1 pre).
Qed.

Lemma sameConfig_trans r1 r2 r3 :
  sameConfig r1 r2 -> sameConfig r2 r3 -> sameConfig r1 r3.
Proof.
  intros (?&?&?&?&?) (?&?&?&?&?). repeat split; congruence.
Qed.

Lemma run_state evs :
  forall m,
    alert.channels (alert.run m evs).1 = alert.channels m
    /\ (buffers_bounded m -> buffers_bounded (alert.run m evs).1)
    /\ forall k,
         match alert.rules (alert.run m evs).1 !! k, alert.rules m !! k with
         | Some r', Some r => sameConfig r r'
         | None, None => True
         | _, _ => False
         end.
Proof.
  induction evs as [|[now e] evs IH]; intros m.
  - simpl. split; [done|]. split; [done|]. intros k.
    by destruct (alert.rules m !! k).
  - simpl. pose proof (ProcessEvent_channels m e now) as Hc.
    pose proof (ProcessEvent_bounded m e now) as Hb.
    pose proof (ProcessEvent_rules_config m e now) as Hr.
    destruct (alert.ProcessEvent m e now) as [m1 out1]. simpl in *.
    destruct (IH m1) as (Hc' & Hb' & Hr').
    destruct (alert.run m1 evs) as [m2 out2]. simpl in *.
    split; [congruence|]. split; [tauto|]. intros k.
    specialize (Hr k). specialize (Hr' k).
    destruct (alert.rules m2 !! k), (alert.rules m1 !! k), (alert.rules m !! k);
      try done.
    by eapply sameConfig_trans.
Qed.

(** The origin of the dispatches of a run. *)
Lemma run_dispatch_origin m evs d :
  d ∈ (alert.run m evs).2 ->
  (alert.at_ d, alert.event d) ∈ evs
  /\ exists r0 r events,
       alert.rules m !! alert.rule d = Some r0
       /\ sameConfig r0 r
       /\ alert.effects d = alert.sendAlert (alert.channels m) (alert.event d) r
       /\ alert.fires events (alert.event d) (alert.at_ d) r = true
       /\ (buffers_bounded m -> (length events <= 100)%nat).
Proof.
  intros Hd.
  destruct (run_dispatch_split evs m d Hd) as (pre & now & e & post & -> & Hin).
  destruct (run_state pre m) as (Hc & Hb & Hr).
  apply ProcessEvent_dispatch in Hin as (-> & -> & r & Hk & Heff & Hf).
  split; [apply elem_of_app; right; by left|].
  specialize (Hr (alert.rule d)). rewrite Hk in Hr.
  destruct (alert.rules m !! alert.rule d) as [r0|] eqn:Hr0; [|done].
  exists r0, r. eexists. split; [done|]. split; [done|].
  split; [by rewrite <- Hc|]. split; [exact Hf|].
  intros Hm. apply pushEvent_length.
  destruct (alert.eventBuffer _ !! _) as [l|] eqn:Hl; simpl; [|lia].
  by apply (Hb Hm _ _ Hl).
Qed.

(** X22: every dispatch of a run is made for an event of the run, at the
    clock reading of its call, by a rule that the manager held from the
    start under this key, that is enabled and that names the target of
    the event or no target; the channels it is sent to are those the
    rule lists.  A disabled rule, or a rule of another target, never
    dispatches. *)
Theorem dispatches_come_from_enabled_rules
    (m : alert.Manager) (evs : list (time.Time * AlertEvent.t)) :
  Forall (fun d =>
            (alert.at_ d, alert.event d) ∈ evs
            /\ exists r,
                 alert.rules m !! alert.rule d = Some r
                 /\ AlertRule.Enabled r = true
                 /\ (AlertRule.TargetID r = None
                     \/ AlertRule.TargetID r
                        = Some (AlertEvent.TargetID (alert.event d)))
                 /\ alert.effects d
                    = alert.sendAlert (alert.channels m) (alert.event d) r)
    (alert.run m evs).2.
Proof.
  apply Forall_forall. intros d Hd.
  destruct (run_dispatch_origin m evs d Hd)
    as (Hin & r0 & r & events & Hr0 & (He & Ht & Hcond & Hch & Hsev) & Heff & Hf & _).
  split; [done|]. exists r0. split; [done|].
  apply fires_applies in Hf as (Hen & Happ & _).
  split; [congruence|]. split; [by rewrite <- Ht|].
  rewrite Heff. unfold alert.sendAlert. by rewrite Hch, Hsev.
Qed.

(** X23: once [RemoveRule] has removed the rule with key [id], no event
    that arrives later is dispatched for this key, whatever the manager
    held before. *)
Theorem removed_rule_never_dispatches
    (m : alert.Manager) (id : Z) (evs : list (time.Time * AlertEvent.t)) :
  Forall (fun d => alert.rule d <> id) (alert.run (alert.RemoveRule m id) evs).2.
Proof.
  apply Forall_forall. intros d Hd Hk.
  destruct (run_dispatch_origin _ evs d Hd) as (_ & r0 & _ & _ & Hr0 & _).
  rewrite Hk in Hr0. simpl in Hr0. by rewrite lookup_delete_eq in Hr0.
Qed.

Lemma consecutiveDown_le l : alert.consecutiveDown l <= Z.of_nat (length l).
Proof.
  induction l as [|e l IH]; simpl; [done|]. case_bool_decide; lia.
Qed.

(** X24: a rule whose only condition is a number of consecutive failures
    above 100 never dispatches: the manager keeps the last 100 events
    of a target, so the count of consecutive [down] events never
    exceeds 100.  The manager starts with buffers of at most 100
    events. *)
Theorem failure_threshold_above_100_never_fires
    (m : alert.Manager) (evs : list (time.Time * AlertEvent.t)) (k : Z)
    (r : AlertRule.t) :
  buffers_bounded m ->
  alert.rules m !! k = Some r ->
  100 < AlertCondition.DownConsecutiveTimes (AlertRule.Conditions r) ->
  AlertCondition.SlowResponseThreshold (AlertRule.Conditions r) <= 0 ->
  AlertCondition.StatusChanged (AlertRule.Conditions r) = false ->
  Forall (fun d => alert.rule d <> k) (alert.run m evs).2.
Proof.
  intros Hm Hr Hdown Hslow Hchg. apply Forall_forall. intros d Hd Hk.
  destruct (run_dispatch_origin m evs d Hd)
    as (_ & r0 & r' & events & Hr0 & (_ & _ & Hcond & _) & _ & Hf & Hlen).
  rewrite Hk, Hr in Hr0. injection Hr0 as <-.
  apply fires_applies in Hf as (_ & _ & Hs).
  specialize (Hlen Hm). unfold alert.shouldAlert in Hs.
  rewrite Hcond, Hchg in Hs.
  pose proof (consecutiveDown_le (reverse events)) as Hle.
  rewrite length_reverse in Hle.
  rewrite (bool_decide_eq_false_2
             (AlertCondition.DownConsecutiveTimes (AlertRule.Conditions r)
              <= alert.consecutiveDown (reverse events))) in Hs by lia.
  rewrite andb_false_r in Hs.
  rewrite (bool_decide_eq_false_2
             (0 < AlertCondition.SlowResponseThreshold (AlertRule.Conditions r)))
    in Hs by lia.
  done.
Qed.

Lemma failure_threshold_above_100_never_fires_witness :
  Forall (fun d => alert.rule d <> 2) (alert.run patient_manager three_downs).2.
Proof.
  apply (failure_threshold_above_100_never_fires patient_manager three_downs 2
           patient_rule).
  - intros id l Hl. simpl in Hl. by rewrite lookup_empty in Hl.
  - reflexivity.
  - simpl. lia.
  - simpl. lia.
  - reflexivity.
Defined.

(** *** The conditions of a rule *)

Lemma pushEvent_snoc buffer event :
  exists l, alert.pushEvent buffer event = l ++ [event] /\ last l = last buffer.
Proof.
  unfold alert.pushEvent. case_bool_decide as Hlen; [|by exists buffer].
  rewrite length_app in Hlen. simpl in Hlen.
  destruct buffer as [|e0 [|e1 rest]]; [simpl in Hlen; lia..|].
  exists (e1 :: rest). done.
Qed.

(** X25: a rule whose only condition is [status_changed] holds for an
    event exactly when the manager has buffered an earlier event of the
    same target and the newest of them has another status; on the
    first event of a target it does not hold. *)
Theorem status_change_compares_with_previous_event
    (buffer : list AlertEvent.t) (event : AlertEvent.t) (rule : AlertRule.t) :
  AlertCondition.DownConsecutiveTimes (AlertRule.Conditions rule) <= 0 ->
  AlertCondition.SlowResponseThreshold (AlertRule.Conditions rule) <= 0 ->
  AlertCondition.StatusChanged (AlertRule.Conditions rule) = true ->
  alert.shouldAlert (alert.pushEvent buffer event) event rule = true
  <-> exists prev,
        last buffer = Some prev
        /\ AlertEvent.Status prev <> AlertEvent.Status event.
Proof.
  intros Hdown Hslow Hchg. unfold alert.shouldAlert.
  rewrite (bool_decide_eq_false_2
             (0 < AlertCondition.DownConsecutiveTimes (AlertRule.Conditions rule)))
    by lia.
  rewrite (bool_decide_eq_false_2
             (0 < AlertCondition.SlowResponseThreshold (AlertRule.Conditions rule)))
    by lia.
  rewrite Hchg. simpl.
  destruct (pushEvent_snoc buffer event) as (l & -> & <-).
  rewrite reverse_snoc.
  destruct l as [|e0 l0 _] using rev_ind.
  - simpl. split; [done | by intros (prev & ? & _)].
  - rewrite reverse_snoc, last_snoc. rewrite negb_true_iff.
    split.
    + intros Hne. exists e0. split; [done|]. by apply bool_decide_eq_false in Hne.
    + intros (prev & [= <-] & Hne). by apply bool_decide_eq_false.
Qed.

Lemma status_change_compares_with_previous_event_witness :
  alert.shouldAlert (alert.pushEvent [up_event sample_now] (down_event sample_now))
    (down_event sample_now) change_rule = true
  <-> exists prev,
        last [up_event sample_now] = Some prev
        /\ AlertEvent.Status prev <> AlertEvent.Status (down_event sample_now).
Proof.
  apply (status_change_compares_with_previous_event [up_event sample_now]
           (down_event sample_now) change_rule).
  - simpl. lia.
  - simpl. lia.
  - reflexivity.
Defined.

(** *** The channels of a dispatch *)

Lemma sendToChannel_Notify channel kind ch :
  alert.Notify kind ch ∈ alert.sendToChannel channel
  <-> configMatches channel = true
      /\ AlertChannel.Type_ channel = kind /\ AlertChannel.ID channel = ch.
Proof.
  unfold alert.sendToChannel, configMatches.
  destruct (AlertChannel.Config channel);
    repeat case_bool_decide; simplify_eq;
    rewrite ?list_elem_of_singleton, ?elem_of_nil;
    split; try (intros [= <- <-]); try (intros (? & <- & <-));
    try done; try congruence.
Qed.

(** X26: [sendAlert] notifies exactly the channels that the rule lists,
    that are registered and enabled, and whose configuration has the
    type their kind asks for (email, webhook, dingtalk or wechat); a
    channel that is missing, disabled, of another kind or with a
    configuration of the wrong type gets nothing.  Whatever the
    channels, the alert is logged exactly once, after the
    notifications: the effects are those of the channels, none of which
    is a log line of the alert, followed by the one log line. *)
Theorem notifications_reach_usable_channels
    (chans : gmap Z AlertChannel.t) (event : AlertEvent.t) (rule : AlertRule.t) :
  (forall kind ch,
     alert.Notify kind ch ∈ alert.sendAlert chans event rule
     <-> exists key channel,
           key ∈ AlertRule.Channels rule
           /\ chans !! key = Some channel
           /\ AlertChannel.Enabled channel = true
           /\ configMatches channel = true
           /\ AlertChannel.Type_ channel = kind
           /\ AlertChannel.ID channel = ch)
  /\ exists sent,
       alert.sendAlert chans event rule
       = sent ++ [alert.AlertLogged (AlertRule.Severity rule)
                    (AlertEvent.TargetName event) (AlertEvent.Address event)
                    (AlertEvent.Status event)]
       /\ forall sev name addr st, alert.AlertLogged sev name addr st ∉ sent.
Proof.
  unfold alert.sendAlert. split.
  - intros kind ch. rewrite elem_of_app, list_elem_of_singleton, list_elem_of_bind.
    split.
    + intros [(key & Hn & Hkey)|?]; [|done].
      destruct (chans !! key) as [channel|] eqn:Hc; [|by apply elem_of_nil in Hn].
      destruct (AlertChannel.Enabled channel) eqn:He; [|by apply elem_of_nil in Hn].
      apply sendToChannel_Notify in Hn as (? & ? & ?).
      exists key, channel. done.
    + intros (key & channel & Hkey & Hc & He & Hm & Hk & Hid).
      left. exists key. split; [|done]. rewrite Hc, He.
      by apply sendToChannel_Notify.
  - eexists. split; [reflexivity|].
    intros sev name addr st. rewrite list_elem_of_bind.
    intros (key & Hn & _).
    destruct (chans !! key) as [channel|]; [|by apply elem_of_nil in Hn].
    destruct (AlertChannel.Enabled channel); [|by apply elem_of_nil in Hn].
    unfold alert.sendToChannel in Hn.
    destruct (AlertChannel.Config channel);
      repeat case_bool_decide;
      rewrite ?list_elem_of_singleton, ?elem_of_nil in Hn; done.
Qed.

(** ** The cooldown beyond the range of a [Duration] *)

Lemma coolingDown_wrapped now rule :
  time.Seconds (AlertRule.CooldownSeconds rule) <= 0 ->
  AlertRule.LastAlertTime rule <= now ->
  alert.coolingDown now rule = false.
Proof.
  intros Hwrap Hlast. unfold alert.coolingDown.
  rewrite (bool_decide_eq_false_2
             (time.Since now (AlertRule.LastAlertTime rule)
              < time.Seconds (AlertRule.CooldownSeconds rule))).
  - apply andb_false_r.
  - unfold time.Since, time.Sub, GoInt.MinInt64, GoInt.MaxInt64 in *. lia.
Qed.

(** C7: the cooldown test multiplies [cooldown_seconds] by
    [time.Second] in an int64 [Duration].  For a rule whose
    [cooldown_seconds] is positive but whose product wraps around to a
    value that is not positive, the test never holds: whenever the rule
    is enabled, applies to the target of the event and its conditions
    hold, [ProcessEvent] dispatches for it, however short the time
    since its last dispatch. *)
Theorem cooldown_beyond_int64_does_not_suppress
    (m : alert.Manager) (k : Z) (rule : AlertRule.t) (event : AlertEvent.t)
    (now : time.Time) :
  alert.rules m !! k = Some rule ->
  0 < AlertRule.CooldownSeconds rule ->
  time.Seconds (AlertRule.CooldownSeconds rule) <= 0 ->
  AlertRule.LastAlertTime rule <= now ->
  AlertRule.Enabled rule = true ->
  (AlertRule.TargetID rule = None
   \/ AlertRule.TargetID rule = Some (AlertEvent.TargetID event)) ->
  alert.shouldAlert
    (alert.pushEvent
       (default [] (alert.eventBuffer m !! AlertEvent.TargetID event)) event)
    event rule = true ->
  alert.mkDispatch k now event (alert.sendAlert (alert.channels m) event rule)
    ∈ (alert.ProcessEvent m event now).2
  /\ AlertRule.LastAlertTime
       <$> alert.rules (alert.ProcessEvent m event now).1 !! k = Some now.
Proof.
  intros Hk Hcd Hwrap Hlast Hen Happ Hcond.
  destruct (ProcessEvent_rules m event now) as [Hout Hrules].
  set (events := alert.pushEvent
         (default [] (alert.eventBuffer m !! AlertEvent.TargetID event)) event) in *.
  assert (alert.fires events event now rule = true) as Hf.
  { unfold alert.fires. rewrite Hen, Hcond, coolingDown_wrapped by done.
    destruct Happ as [-> | ->]; [done|].
    by rewrite bool_decide_eq_true_2. }
  split.
  - rewrite Hout. apply list_elem_of_omap. exists (k, rule).
    split; [by apply elem_of_map_to_list|].
    unfold dispatchOf. simpl. by rewrite Hf.
  - rewrite Hrules, Hk. simpl. unfold ruleAfter. by rewrite Hf.
Qed.

(** The rule with a cooldown of 9999999999 seconds has fired for a
    [down] event; a second [down] event sixty seconds later is
    dispatched too. *)
Lemma cooldown_beyond_int64_does_not_suppress_witness :
  let m := (alert.ProcessEvent long_cooldown_manager (down_event sample_now)
              sample_now).1 in
  let later := sample_now + 60 * time.Second in
  AlertRule.LastAlertTime <$> alert.rules m !! 1 = Some sample_now
  /\ alert.mkDispatch 1 later (down_event later)
       [alert.Notify "webhook" 1;
        alert.AlertLogged "critical" "api" "10.0.0.1" "down"]
     ∈ (alert.ProcessEvent m (down_event later) later).2.
Proof.
  intros m later. split; [vm_compute; reflexivity|].
  apply (cooldown_beyond_int64_does_not_suppress m 1
           (AlertRule.with_LastAlertTime sample_now long_cooldown_rule)
           (down_event later) later).
  - vm_compute. reflexivity.
  - reflexivity.
  - vm_compute. discriminate.
  - vm_compute. discriminate.
  - reflexivity.
  - left. reflexivity.
  - vm_compute. reflexivity.
Defined.

(** The whole run: two dispatches of the rule, sixty seconds apart. *)
Example long_cooldown_dispatches_twice :
  (alert.run long_cooldown_manager two_downs).2
  = [alert.mkDispatch 1 sample_now (down_event sample_now)
       [alert.Notify "webhook" 1;
        alert.AlertLogged "critical" "api" "10.0.0.1" "down"];
     alert.mkDispatch 1 (sample_now + 60 * time.Second)
       (down_event (sample_now + 60 * time.Second))
       [alert.Notify "webhook" 1;
        alert.AlertLogged "critical" "api" "10.0.0.1" "down"]]
  /\ ~ separated 1 (9999999999 * time.Second)
         (alert.run long_cooldown_manager two_downs).2.
Proof.
  split; [vm_compute; reflexivity|].
  intros Hsep.
  assert ((alert.run long_cooldown_manager two_downs).2 !! 0%nat
          = Some (alert.mkDispatch 1 sample_now (down_event sample_now)
                    [alert.Notify "webhook" 1;
                     alert.AlertLogged "critical" "api" "10.0.0.1" "down"])) as H0
    by (vm_compute; reflexivity).
  assert ((alert.run long_cooldown_manager two_downs).2 !! 1%nat
          = Some (alert.mkDispatch 1 (sample_now + 60 * time.Second)
                    (down_event (sample_now + 60 * time.Second))
                    [alert.Notify "webhook" 1;
                     alert.AlertLogged "critical" "api" "10.0.0.1" "down"])) as H1
    by (vm_compute; reflexivity).
  pose proof (Hsep 0%nat 1%nat _ _ ltac:(lia) H0 H1 eq_refl eq_refl) as Hgap.
  vm_compute in Hgap. by apply Hgap.
Qed.

(** ** The uptime percentage against the specification *)





(** ** The result pipeline and the alert manager *)





